(** * network-speed-tester: the traffic-budget control loop of [js/network-tester.js]

    The class [NetworkTester] is embedded as a record of its fields together
    with the state of the browser objects it talks to (thread objects, pending
    timeouts, the log panel and the progress widgets).  Each method becomes a
    function on that record; an [async] method is cut at its [await]s, one
    function per segment, and the browser drives the segments through events.

    Conventions of the embedding.
    - A JavaScript number is an exact rational ([Q]); the only non-finite
      values the code can build come from a division by zero and are kept
      apart in [JsNum].  Rounding of IEEE doubles is not modelled: where
      the code computes a rounded double, the embedding has the exact
      value that double is nearest to.  Byte counts, times and their
      products and quotients by powers of two are exact in both.  Numbers
      beyond [Number.MAX_VALUE] are outside the embedding: the traffic
      limit read from the form is finite, and what is stated of the budget
      is stated for products that do not overflow.
    - Byte counts ([byteLength], [totalDownloaded]) are integers.
    - A string is a string of bytes; [\s] is the ASCII white space, so a
      custom URL is taken to be ASCII.
    - [Date.now()] and [Math.random()] are read from the event that triggers
      a handler: one clock reading per handler run.
    - The embedding starts when [init] has bound the elements of the page:
      [log] then always appends to the panel.  [testLog] holds the lines
      of the tester's own messages, not those the wake lock manager logs
      through its callback, and [timeouts] holds the timeouts of
      [startProgressUpdate] and [readStream]; those of [log] (for a panel
      that is not bound yet), of the help dialog and of [copyToClipboard]
      touch no field of the tester.
    - The screen wake lock is an external service; only the [await]s on it
      are kept, as the points where [startTest] and [stopTest] suspend.

    The class [ScreenWakeLock] of [js/screen-wake-lock.js] is embedded on
    its own, in the same way, in the module [ScreenWakeLock]. *)

From Stdlib Require Import ZArith QArith Qround Qabs Qminmax Lqa Lia.
From Stdlib Require Import String Ascii DecimalString.
From stdpp Require Import base option list gmap strings.

Open Scope Z_scope.

(** ** JavaScript primitives *)

Module Js.

(** A number that may have left the rationals through a division by zero. *)
Inductive JsNum : Type :=
| Fin (q : Q)
| PosInf
| NegInf
| NaN.

(** [a / b] on finite operands: the exact quotient. *)
Definition div (a b : Q) : JsNum :=
  if Qeq_bool b 0 then
    if Qeq_bool a 0 then NaN
    else if Qle_bool 0 a then PosInf else NegInf
  else Fin (a / b).

(** [x * c] and [x / c] for a finite constant [c > 0], given as [f]. *)
Definition scale (f : Q -> Q) (x : JsNum) : JsNum :=
  match x with
  | Fin q => Fin (f q)
  | other => other
  end.

(** [Math.min(100, x)]. *)
Definition min100 (x : JsNum) : JsNum :=
  match x with
  | Fin q => Fin (Qmin 100 q)
  | PosInf => Fin 100
  | NegInf => NegInf
  | NaN => NaN
  end.

(** Decimal numeral of an integer, as template literals print it. *)
Definition dec (z : Z) : string := NilZero.string_of_int (Z.to_int z).

Fixpoint zeros (n : nat) : string :=
  match n with
  | O => EmptyString
  | S n' => String "0" (zeros n')
  end.

(** [x.toFixed(d)] for [|x| < 1e21]: the integer [n] with [n / 10^d]
    nearest to [|x|], the larger one on a tie, printed with [d] decimals. *)
Definition toFixed (d : nat) (x : Q) : string :=
  let p := 10 ^ Z.of_nat d in
  let n := Qfloor (Qabs x * inject_Z p + (1 # 2)) in
  let frac := dec (n mod p) in
  ((if Qle_bool 0 x then "" else "-") ++ dec (n / p) ++
   match d with
   | O => ""
   | S _ => "." ++ zeros (d - String.length frac) ++ frac
   end)%string.

(** [a < b] *)
Definition ltb (a b : Q) : bool := negb (Qle_bool b a).

Definition numToFixed (d : nat) (x : JsNum) : string :=
  match x with
  | Fin q => toFixed d q
  | PosInf => "Infinity"
  | NegInf => "-Infinity"
  | NaN => "NaN"
  end.

(** [\s] *)
Definition isSpace (c : ascii) : bool :=
  let n := nat_of_ascii c in
  ((9 <=? n) && (n <=? 13) || (n =? 32))%nat.

(** What [.] does not match. *)
Definition isLineTerminator (c : ascii) : bool :=
  let n := nat_of_ascii c in
  ((n =? 10) || (n =? 13))%nat.

Fixpoint trimStart (s : string) : string :=
  match s with
  | String c r => if isSpace c then trimStart r else s
  | EmptyString => EmptyString
  end.

Fixpoint trimEnd (s : string) : string :=
  match s with
  | EmptyString => EmptyString
  | String c r =>
      match trimEnd r with
      | EmptyString => if isSpace c then EmptyString else String c EmptyString
      | r' => String c r'
      end
  end.

(** [s.trim()] *)
Definition trim (s : string) : string := trimEnd (trimStart s).

(** [s.split(sep)[0]]: the part of [s] before the first [sep]. *)
Fixpoint splitHead (sep : ascii) (s : string) : string :=
  match s with
  | EmptyString => EmptyString
  | String c r =>
      if Ascii.eqb c sep then EmptyString else String c (splitHead sep r)
  end.

Fixpoint stripPrefix (p s : string) : option string :=
  match p, s with
  | EmptyString, _ => Some s
  | String a p', String b s' =>
      if Ascii.eqb a b then stripPrefix p' s' else None
  | String _ _, EmptyString => None
  end.

Fixpoint allChars (f : ascii -> bool) (s : string) : bool :=
  match s with
  | EmptyString => true
  | String c r => f c && allChars f r
  end.

Fixpoint hasChar (c : ascii) (s : string) : bool :=
  match s with
  | EmptyString => false
  | String d r => Ascii.eqb c d || hasChar c r
  end.

End Js.

Import Js.

(** ** Units, nodes and form input *)

(** The options of the [trafficUnit] selector. *)
Inductive TrafficUnit : Type := MB | GB | TB.

#[global] Instance TrafficUnit_eq_dec : EqDecision TrafficUnit.
Proof. solve_decision. Defined.

(** [this.unitMultipliers] *)
Definition unitMultipliers (u : TrafficUnit) : Z :=
  match u with
  | MB => 1024 * 1024
  | GB => 1024 * 1024 * 1024
  | TB => 1024 * 1024 * 1024 * 1024
  end.

Record TestNode : Type := mkTestNode {
  node_id : string;
  node_name : string;
  node_url : string
}.

(** [this.testNodes] *)
Definition testNodes : list TestNode := [
  mkTestNode "cn1" "百度APK"
    "https://issuecdn.baidupcs.com/issue/netdisk/apk/BaiduNetdisk_11.44.3.apk";
  mkTestNode "cn2" "淘宝CDN"
    "https://cloud.video.taobao.com/play/u/null/p/1/e/6/t/1/441113371921.mpv";
  mkTestNode "us1" "Cloudflare"
    "https://speed.cloudflare.com/__down?bytes=1073741824";
  mkTestNode "custom" "自定义节点" ""
].

(** [this.testNodes.find(node => node.id === selectedNodeId)] *)
Definition findNode (selectedNodeId : string) : option TestNode :=
  List.find (fun node => String.eqb (node_id node) selectedNodeId) testNodes.

(** What the form holds when [validateTestParams] reads it.  [parseInt] and
    [parseFloat] are taken as done: [None] is their [NaN], and the limit
    [parseFloat] reads is finite. *)
Record FormInputs : Type := mkFormInputs {
  speedNode : string;
  customNodeUrl : string;
  threadCountInput : option Z;
  trafficLimitInput : option Q;
  trafficUnitSelect : TrafficUnit
}.

(** The object [validateTestParams] returns. *)
Record TestParams : Type := mkTestParams {
  testUrl : string;
  threadCount : Z;
  trafficLimit : Q;
  trafficUnit : TrafficUnit
}.

(** A JavaScript error object, as far as the code looks at it. *)
Record JsError : Type := mkJsError {
  err_name : string;
  err_message : string
}.

(** The lines [this.log] can append, one constructor per message. *)
Inductive LogEntry : Type :=
| LogSelectNode
| LogEnterCustomUrl
| LogBadUrlFormat
| LogBadThreadCount
| LogBadTraffic
| LogStart (nodeName : string) (threads : Z) (limit : Q) (unit : TrafficUnit)
| LogThreadError (threadId : nat) (message : string)
| LogConnected (threadId : nat)
| LogReconnecting (threadId : nat)
| LogTargetReached (targetBytes : Q)
| LogAllInterrupted
| LogThreadStopped (threadId : nat)
| LogStopped (totalTime avgSpeed : Q) (totalBytes : Z).

(** [/^https?:\/\/[^\s/$.?#].[^\s]*$/.test(s)] *)
Definition urlPattern_test (s : string) : bool :=
  let rest :=
    match stripPrefix "https://" s with
    | Some r => Some r
    | None => stripPrefix "http://" s
    end in
  match rest with
  | Some (String c1 (String c2 r)) =>
      negb (isSpace c1 || hasChar c1 "/$.?#")
      && negb (isLineTerminator c2)
      && allChars (fun c => negb (isSpace c)) r
  | _ => false
  end.

(** [validateTestParams]: the parameters, or the line it logs before
    returning [null]. *)
Definition validateTestParams (f : FormInputs) : LogEntry + TestParams :=
  let selectedNodeId := speedNode f in
  if String.eqb selectedNodeId "" then inl LogSelectNode
  else
    let url : LogEntry + string :=
      if String.eqb selectedNodeId "custom" then
        let u := trim (customNodeUrl f) in
        if String.eqb u "" then inl LogEnterCustomUrl
        else if negb (urlPattern_test u) then inl LogBadUrlFormat
        else inr u
      else
        match findNode selectedNodeId with
        | Some selectedNode => inr (node_url selectedNode)
        | None => inr ""%string
        end in
    match url with
    | inl e => inl e
    | inr u =>
        match threadCountInput f with
        | None => inl LogBadThreadCount
        | Some n =>
            if (n <? 1) || (16 <? n) then inl LogBadThreadCount
            else
              match trafficLimitInput f with
              | None => inl LogBadTraffic
              | Some limit =>
                  if Qle_bool limit 0 then inl LogBadTraffic
                  else inr (mkTestParams u n limit (trafficUnitSelect f))
              end
        end
    end.

(** The conversion to bytes at the head of [startTest]: the product,
    which is that of the doubles as long as it does not exceed
    [Number.MAX_VALUE]. *)
Definition targetBytesOf (p : TestParams) : Q :=
  trafficLimit p * inject_Z (unitMultipliers (trafficUnit p)).

(** [getSelectedNodeName] *)
Definition getSelectedNodeName (selectedNodeId : string) : string :=
  match findNode selectedNodeId with
  | Some node =>
      if String.eqb (node_id node) "custom" then "自定义节点"%string
      else node_name node
  | None => "未知节点"%string
  end.

(** ** Display formatting *)

(** The [while] of [formatTrafficDisplay]: [next] lists the units after the
    current one, so the loop test [i < sizes.length - 1] is [next <> []]. *)
Fixpoint scaleUp (next : list TrafficUnit) (unit : TrafficUnit) (value : Q)
  : Q * TrafficUnit :=
  match next with
  | [] => (value, unit)
  | u :: rest =>
      if Qle_bool 1024 value then scaleUp rest u (value / 1024)
      else (value, unit)
  end.

(** [formatTrafficDisplay(bytes)], returning [(value, unit)]. *)
Definition formatTrafficDisplay (bytes : Z) : Q * TrafficUnit :=
  if bytes =? 0 then (0%Q, MB)
  else scaleUp [GB; TB] MB (inject_Z bytes / (1024 * 1024)).

Definition unitName (u : TrafficUnit) : string :=
  match u with MB => "MB" | GB => "GB" | TB => "TB" end.

(** The text [updateProgressUI] writes into [trafficUsedElement]. *)
Definition trafficUsedText (bytes : Z) : string :=
  let '(value, unit) := formatTrafficDisplay bytes in
  (toFixed 2 value ++ " " ++ unitName unit)%string.

(** ** Thread objects, timeouts and the tester *)

(** A reference to a thread object: its index in the store. *)
Abbreviation loc := nat.

(** Where the promise of [downloadFile(url, thread)] stands: suspended at
    [await fetch], suspended at [await reader.read()], fulfilled, or rejected
    (and its [.catch] run). *)
Inductive Task : Type := AwaitFetch | AwaitRead | Returned | Thrown.

#[global] Instance Task_eq_dec : EqDecision Task.
Proof. solve_decision. Defined.

(** A [TestThread] object; [aborted] is [controller.signal.aborted]. *)
Record TestThread : Type := mkThread {
  id : nat;
  url : string;
  aborted : bool;
  downloaded : Z;
  isActive : bool;
  task : Task
}.

(** The two closures the code hands to [setTimeout]. *)
Inductive Callback : Type :=
| UpdateTick
| ReconnectIfTesting (thread : loc).

Record Timeout : Type := mkTimeout {
  delay : Z;
  callback : Callback
}.

(** What [updateProgressUI] and [updateUIState] leave on the page. *)
Record Display : Type := mkDisplay {
  downloadSpeed : JsNum;
  trafficUsed : Q * TrafficUnit;
  progress : JsNum;
  controlsLocked : bool
}.

(** The fields of [NetworkTester], followed by the browser state it acts
    on: the thread objects (a store indexed by reference), the pending
    timeouts of [startProgressUpdate] and [readStream], the [startTest]
    calls suspended at [acquire()], the page and the log panel. *)
Record Tester : Type := mkTester {
  activeThreads : list loc;
  isTesting : bool;
  totalDownloaded : Z;
  targetTrafficBytes : Q;
  startTime : Z;
  lastUpdateTime : Z;
  lastDownloaded : Z;
  speedHistory : list Q;
  updateTimer : option nat;
  threads : list TestThread;
  timeouts : gmap nat Timeout;
  nextTimeoutId : nat;
  acquiring : list (string * TestParams);
  display : Display;
  testLog : list LogEntry
}.

Definition set_activeThreads (v : list loc) (s : Tester) : Tester :=
  mkTester v (isTesting s) (totalDownloaded s) (targetTrafficBytes s) (startTime s) (lastUpdateTime s) (lastDownloaded s) (speedHistory s) (updateTimer s) (threads s) (timeouts s) (nextTimeoutId s) (acquiring s) (display s) (testLog s).
Definition set_isTesting (v : bool) (s : Tester) : Tester :=
  mkTester (activeThreads s) v (totalDownloaded s) (targetTrafficBytes s) (startTime s) (lastUpdateTime s) (lastDownloaded s) (speedHistory s) (updateTimer s) (threads s) (timeouts s) (nextTimeoutId s) (acquiring s) (display s) (testLog s).
Definition set_totalDownloaded (v : Z) (s : Tester) : Tester :=
  mkTester (activeThreads s) (isTesting s) v (targetTrafficBytes s) (startTime s) (lastUpdateTime s) (lastDownloaded s) (speedHistory s) (updateTimer s) (threads s) (timeouts s) (nextTimeoutId s) (acquiring s) (display s) (testLog s).
Definition set_targetTrafficBytes (v : Q) (s : Tester) : Tester :=
  mkTester (activeThreads s) (isTesting s) (totalDownloaded s) v (startTime s) (lastUpdateTime s) (lastDownloaded s) (speedHistory s) (updateTimer s) (threads s) (timeouts s) (nextTimeoutId s) (acquiring s) (display s) (testLog s).
Definition set_startTime (v : Z) (s : Tester) : Tester :=
  mkTester (activeThreads s) (isTesting s) (totalDownloaded s) (targetTrafficBytes s) v (lastUpdateTime s) (lastDownloaded s) (speedHistory s) (updateTimer s) (threads s) (timeouts s) (nextTimeoutId s) (acquiring s) (display s) (testLog s).
Definition set_lastUpdateTime (v : Z) (s : Tester) : Tester :=
  mkTester (activeThreads s) (isTesting s) (totalDownloaded s) (targetTrafficBytes s) (startTime s) v (lastDownloaded s) (speedHistory s) (updateTimer s) (threads s) (timeouts s) (nextTimeoutId s) (acquiring s) (display s) (testLog s).
Definition set_lastDownloaded (v : Z) (s : Tester) : Tester :=
  mkTester (activeThreads s) (isTesting s) (totalDownloaded s) (targetTrafficBytes s) (startTime s) (lastUpdateTime s) v (speedHistory s) (updateTimer s) (threads s) (timeouts s) (nextTimeoutId s) (acquiring s) (display s) (testLog s).
Definition set_speedHistory (v : list Q) (s : Tester) : Tester :=
  mkTester (activeThreads s) (isTesting s) (totalDownloaded s) (targetTrafficBytes s) (startTime s) (lastUpdateTime s) (lastDownloaded s) v (updateTimer s) (threads s) (timeouts s) (nextTimeoutId s) (acquiring s) (display s) (testLog s).
Definition set_updateTimer (v : option nat) (s : Tester) : Tester :=
  mkTester (activeThreads s) (isTesting s) (totalDownloaded s) (targetTrafficBytes s) (startTime s) (lastUpdateTime s) (lastDownloaded s) (speedHistory s) v (threads s) (timeouts s) (nextTimeoutId s) (acquiring s) (display s) (testLog s).
Definition set_threads (v : list TestThread) (s : Tester) : Tester :=
  mkTester (activeThreads s) (isTesting s) (totalDownloaded s) (targetTrafficBytes s) (startTime s) (lastUpdateTime s) (lastDownloaded s) (speedHistory s) (updateTimer s) v (timeouts s) (nextTimeoutId s) (acquiring s) (display s) (testLog s).
Definition set_timeouts (v : gmap nat Timeout) (s : Tester) : Tester :=
  mkTester (activeThreads s) (isTesting s) (totalDownloaded s) (targetTrafficBytes s) (startTime s) (lastUpdateTime s) (lastDownloaded s) (speedHistory s) (updateTimer s) (threads s) v (nextTimeoutId s) (acquiring s) (display s) (testLog s).
Definition set_nextTimeoutId (v : nat) (s : Tester) : Tester :=
  mkTester (activeThreads s) (isTesting s) (totalDownloaded s) (targetTrafficBytes s) (startTime s) (lastUpdateTime s) (lastDownloaded s) (speedHistory s) (updateTimer s) (threads s) (timeouts s) v (acquiring s) (display s) (testLog s).
Definition set_acquiring (v : list (string * TestParams)) (s : Tester) : Tester :=
  mkTester (activeThreads s) (isTesting s) (totalDownloaded s) (targetTrafficBytes s) (startTime s) (lastUpdateTime s) (lastDownloaded s) (speedHistory s) (updateTimer s) (threads s) (timeouts s) (nextTimeoutId s) v (display s) (testLog s).
Definition set_display (v : Display) (s : Tester) : Tester :=
  mkTester (activeThreads s) (isTesting s) (totalDownloaded s) (targetTrafficBytes s) (startTime s) (lastUpdateTime s) (lastDownloaded s) (speedHistory s) (updateTimer s) (threads s) (timeouts s) (nextTimeoutId s) (acquiring s) v (testLog s).
Definition set_testLog (v : list LogEntry) (s : Tester) : Tester :=
  mkTester (activeThreads s) (isTesting s) (totalDownloaded s) (targetTrafficBytes s) (startTime s) (lastUpdateTime s) (lastDownloaded s) (speedHistory s) (updateTimer s) (threads s) (timeouts s) (nextTimeoutId s) (acquiring s) (display s) v.

(** [speedSmoothingWindow] and [updateInterval] never change. *)
Definition speedSmoothingWindow : nat := 10.
Definition updateInterval : Z := 100.

(** The tester as the constructor leaves it. *)
Definition initial : Tester :=
  mkTester [] false 0 0%Q 0 0 0 [] None
           [] ∅ 1%nat [] (mkDisplay (Fin 0) (0%Q, MB) (Fin 0) false) [].

Definition set_aborted (v : bool) (t : TestThread) : TestThread :=
  mkThread (id t) (url t) v (downloaded t) (isActive t) (task t).
Definition set_downloaded (v : Z) (t : TestThread) : TestThread :=
  mkThread (id t) (url t) (aborted t) v (isActive t) (task t).
Definition set_isActive (v : bool) (t : TestThread) : TestThread :=
  mkThread (id t) (url t) (aborted t) (downloaded t) v (task t).
Definition set_task (v : Task) (t : TestThread) : TestThread :=
  mkThread (id t) (url t) (aborted t) (downloaded t) (isActive t) v.

(** A write through the reference [r]. *)
Definition updThread (r : loc) (f : TestThread -> TestThread) (s : Tester)
  : Tester :=
  set_threads (alter f r (threads s)) s.

(** ** The methods *)

(** [this.log(message)], the panel being bound. *)
Definition log (e : LogEntry) (s : Tester) : Tester :=
  set_testLog (testLog s ++ [e]) s.

(** [setTimeout(cb, ms)]: the new state and the timer id. *)
Definition setTimeout (cb : Callback) (ms : Z) (s : Tester) : Tester * nat :=
  let t := nextTimeoutId s in
  (set_nextTimeoutId (S t) (set_timeouts (<[t := mkTimeout ms cb]> (timeouts s)) s), t).

(** [clearTimeout(t)] *)
Definition clearTimeout (t : nat) (s : Tester) : Tester :=
  set_timeouts (delete t (timeouts s)) s.

(** [updateUIState(isTesting)] *)
Definition updateUIState (testing : bool) (s : Tester) : Tester :=
  let d := display s in
  set_display (mkDisplay (downloadSpeed d) (trafficUsed d) (progress d) testing) s.

(** The value of [progress] in [updateProgressUI]. *)
Definition progressOf (total : Z) (target : Q) : JsNum :=
  min100 (scale (fun q => q * 100)%Q (div (inject_Z total) target)).

(** [updateProgressUI(speed)] *)
Definition updateProgressUI (speed : JsNum) (s : Tester) : Tester :=
  let speedMBps := scale (fun q => q / (1024 * 1024))%Q speed in
  let traffic := formatTrafficDisplay (totalDownloaded s) in
  let prog := progressOf (totalDownloaded s) (targetTrafficBytes s) in
  set_display (mkDisplay speedMBps traffic prog (controlsLocked (display s))) s.

(** The texts of the three widgets. *)
Definition downloadSpeedText (d : Display) : string :=
  (numToFixed 2 (downloadSpeed d) ++ " MB/s")%string.
Definition progressText (d : Display) : string :=
  (numToFixed 1 (progress d) ++ " %")%string.

(** [createTestThread(threadId, baseUrl)]: the thread object is allocated,
    pushed on [activeThreads], and [downloadFile] runs up to [await fetch]. *)
Definition createTestThread (threadId : nat) (baseUrl randomParam : string)
    (now : Z) (s : Tester) : Tester :=
  let testUrl :=
    (baseUrl ++ "?thread=" ++ dec (Z.of_nat threadId)
             ++ "&r=" ++ randomParam ++ "&t=" ++ dec now)%string in
  let thread := mkThread threadId testUrl false 0 true AwaitFetch in
  let r := length (threads s) in
  set_activeThreads (activeThreads s ++ [r]) (set_threads (threads s ++ [thread]) s).

(** The body of the [forEach] in [stopTest]. *)
Definition stopThread (s : Tester) (r : loc) : Tester :=
  match threads s !! r with
  | Some th =>
      log (LogThreadStopped (id th))
          (updThread r (fun t => set_isActive false (set_aborted true t)) s)
  | None => s
  end.

(** [avgSpeed] in [stopTest]. *)
Definition avgSpeedOf (total : Z) (totalTime : Q) : Q :=
  if ltb 0 totalTime
  then (inject_Z total / totalTime / (1024 * 1024))%Q
  else 0%Q.

(** [stopTest()], up to its [await] on the wake lock. *)
Definition stopTest (now : Z) (s : Tester) : Tester :=
  if negb (isTesting s) then s
  else
    let s := set_isTesting false s in
    let s :=
      match updateTimer s with
      | Some t => set_updateTimer None (clearTimeout t s)
      | None => s
      end in
    let s := foldl stopThread s (activeThreads s) in
    let s := set_activeThreads [] s in
    let totalTime := (inject_Z (now - startTime s) / 1000)%Q in
    let avgSpeed := avgSpeedOf (totalDownloaded s) totalTime in
    let s := updateProgressUI (div (inject_Z (totalDownloaded s)) totalTime) s in
    let s := log (LogStopped totalTime avgSpeed (totalDownloaded s)) s in
    updateUIState false s.

(** [thread => !thread.isActive] on a reference. *)
Definition inactive (s : Tester) (r : loc) : bool :=
  match threads s !! r with
  | Some th => negb (isActive th)
  | None => true
  end.

(** [checkAllThreadsCompleted()] *)
Definition checkAllThreadsCompleted (now : Z) (s : Tester) : Tester :=
  let allInactive := forallb (inactive s) (activeThreads s) in
  if allInactive && isTesting s then stopTest now (log LogAllInterrupted s)
  else s.

(** The [.catch] callback of [createTestThread], entered when the promise
    of [downloadFile] rejects with [error]. *)
Definition downloadFile_catch (r : loc) (error : JsError) (now : Z)
    (s : Tester) : Tester :=
  match threads s !! r with
  | Some th =>
      let s :=
        if negb (String.eqb (err_name error) "AbortError")
        then log (LogThreadError (id th) (err_message error)) s
        else s in
      let s := updThread r (fun t => set_task Thrown (set_isActive false t)) s in
      checkAllThreadsCompleted now s
  | None => s
  end.

(** The head of the [while] in [readStream]: either the next
    [reader.read()] is awaited or the loop, [readStream] and [downloadFile]
    all return. *)
Definition readStream_loop (r : loc) (s : Tester) : Tester :=
  match threads s !! r with
  | Some th =>
      if isTesting s && isActive th then updThread r (set_task AwaitRead) s
      else updThread r (set_task Returned) s
  | None => s
  end.

(** How [await fetch(...)] settles. *)
Inductive FetchOutcome : Type :=
| Response (ok : bool) (status : Z)
| FetchRejected (error : JsError).

(** How [await reader.read()] settles; [Chunk n] is a [value] of
    [byteLength] [n] with [done] false. *)
Inductive ReadOutcome : Type :=
| Chunk (byteLength : N)
| Done
| ReadRejected (error : JsError).

(** The statuses of a response whose [body] is [null] (the null body
    statuses of the Fetch standard). *)
Definition nullBodyStatus (status : Z) : bool :=
  (status =? 101) || (status =? 103) || (status =? 204) || (status =? 205)
  || (status =? 304).

(** What [response.body.getReader()] throws when [response.body] is
    [null]; the message is the engine's, here that of V8. *)
Definition nullBodyError : JsError :=
  mkJsError "TypeError" "Cannot read properties of null (reading 'getReader')".

(** [downloadFile] from its [await fetch] on. *)
Definition downloadFile_fetched (r : loc) (o : FetchOutcome) (now : Z)
    (s : Tester) : Tester :=
  match threads s !! r with
  | Some th =>
      match o with
      | FetchRejected error => downloadFile_catch r error now s
      | Response false status =>
          downloadFile_catch r
            (mkJsError "Error" ("HTTP error! status: " ++ dec status)) now s
      | Response true status =>
          if nullBodyStatus status then downloadFile_catch r nullBodyError now s
          else readStream_loop r (log (LogConnected (id th)) s)
      end
  | None => s
  end.

(** One turn of the [while] in [readStream], from the settled
    [reader.read()] to the next suspension or return. *)
Definition readStream_read (r : loc) (o : ReadOutcome) (now : Z)
    (s : Tester) : Tester :=
  match threads s !! r with
  | Some th =>
      match o with
      | Done =>
          let s := log (LogReconnecting (id th)) s in
          let s := fst (setTimeout (ReconnectIfTesting r) 1000 s) in
          updThread r (set_task Returned) s
      | Chunk n =>
          let chunkSize := Z.of_N n in
          let s := updThread r (fun t => set_downloaded (downloaded t + chunkSize) t) s in
          let s := set_totalDownloaded (totalDownloaded s + chunkSize) s in
          if Qle_bool (targetTrafficBytes s) (inject_Z (totalDownloaded s)) then
            let s := stopTest now s in
            let s := log (LogTargetReached (targetTrafficBytes s)) s in
            updThread r (set_task Returned) s
          else readStream_loop r s
      | ReadRejected error =>
          if negb (String.eqb (err_name error) "AbortError")
          then downloadFile_catch r error now s
          else updThread r (set_task Returned) s
      end
  | None => s
  end.

(** [reconnectThread(thread)] *)
Definition reconnectThread (r : loc) (randomParam : string) (now : Z)
    (s : Tester) : Tester :=
  match threads s !! r with
  | Some thread =>
      let keep (t : loc) : bool :=
        match threads s !! t with
        | Some th => negb (id th =? id thread)%nat
        | None => true
        end in
      let s := set_activeThreads (List.filter keep (activeThreads s)) s in
      let baseUrl := splitHead "?" (url thread) in
      createTestThread (id thread) baseUrl randomParam now s
  | None => s
  end.

(** The arrow function [readStream] passes to [setTimeout]. *)
Definition reconnectIfTesting (r : loc) (randomParam : string) (now : Z)
    (s : Tester) : Tester :=
  if isTesting s then reconnectThread r randomParam now s else s.

(** The mean [updateProgress] reports. *)
Definition average (l : list Q) : Q :=
  (foldl Qplus 0 l / inject_Z (Z.of_nat (length l)))%Q.

(** [currentSpeed] in [updateProgress], in bytes per second. *)
Definition currentSpeedOf (downloadedInInterval interval : Z) : Q :=
  if 0 <? interval
  then (inject_Z downloadedInInterval / (inject_Z interval / 1000))%Q
  else 0%Q.

(** [push] followed by the conditional [shift]. *)
Definition pushSample (x : Q) (history : list Q) : list Q :=
  let h := history ++ [x] in
  if (speedSmoothingWindow <? length h)%nat then tail h else h.

(** [updateProgress()] *)
Definition updateProgress (now : Z) (s : Tester) : Tester :=
  let interval := now - lastUpdateTime s in
  let downloadedInInterval := totalDownloaded s - lastDownloaded s in
  let currentSpeed := currentSpeedOf downloadedInInterval interval in
  let s := set_speedHistory (pushSample currentSpeed (speedHistory s)) s in
  let averageSpeed := average (speedHistory s) in
  let s := updateProgressUI (Fin averageSpeed) s in
  let s := set_lastUpdateTime now s in
  set_lastDownloaded (totalDownloaded s) s.

(** The closure [update] of [startProgressUpdate]. *)
Definition update (now : Z) (s : Tester) : Tester :=
  if negb (isTesting s) then s
  else
    let s := updateProgress now s in
    let '(s, t) := setTimeout UpdateTick updateInterval s in
    set_updateTimer (Some t) s.

(** [startTest()] up to [await this.screenWakeLock.acquire()]. *)
Definition startTest (form : FormInputs) (now : Z) (s : Tester) : Tester :=
  if isTesting s then s
  else
    match validateTestParams form with
    | inl line => log line s
    | inr params =>
        let s := set_targetTrafficBytes (targetBytesOf params) s in
        let s := set_isTesting true s in
        let s := set_totalDownloaded 0 s in
        let s := set_lastDownloaded 0 s in
        let s := set_speedHistory [] s in
        let s := set_startTime now s in
        let s := set_lastUpdateTime (startTime s) s in
        let s := set_activeThreads [] s in
        let s := updateUIState true s in
        set_acquiring (acquiring s ++ [(speedNode form, params)]) s
    end.

(** The [for] loop of [startTest]; [rand i] is the token drawn for thread [i]. *)
Definition createThreads (n : nat) (baseUrl : string) (rand : nat -> string)
    (now : Z) (s : Tester) : Tester :=
  foldl (fun s i => createTestThread i baseUrl (rand i) now s) s (seq 0 n).

(** [startTest()] after [acquire()] has settled. *)
Definition startTest_resume (selected : string) (params : TestParams)
    (rand : nat -> string) (now : Z) (s : Tester) : Tester :=
  let s := log (LogStart (getSelectedNodeName selected) (threadCount params)
                         (trafficLimit params) (trafficUnit params)) s in
  let s := createThreads (Z.to_nat (threadCount params)) (testUrl params) rand now s in
  update now s.

(** ** The browser: events and the microtask checkpoint *)

(** What the browser can hand to the tester: the two buttons, the wake lock
    request of a suspended [startTest] settling, a pending [fetch] or
    [reader.read()] settling from the network, and a timeout expiring. *)
Inductive Event : Type :=
| StartClick (form : FormInputs) (now : Z)
| WakeLockAcquired (rand : nat -> string) (now : Z)
| StopClick (now : Z)
| FetchSettled (thread : loc) (outcome : FetchOutcome) (now : Z)
| ReadSettled (thread : loc) (outcome : ReadOutcome) (now : Z)
| TimeoutFired (timer : nat) (rand : string) (now : Z).

(** The network settles only the operations of a controller that has not
    been aborted. *)
Definition awaiting (k : Task) (s : Tester) (r : loc) : bool :=
  match threads s !! r with
  | Some th => bool_decide (task th = k) && negb (aborted th)
  | None => false
  end.

(** The handler an event runs, when the event can occur in [s]. *)
Definition dispatch (e : Event) (s : Tester) : option Tester :=
  match e with
  | StartClick form now => Some (startTest form now s)
  | WakeLockAcquired rand now =>
      match acquiring s with
      | (selected, params) :: rest =>
          Some (startTest_resume selected params rand now (set_acquiring rest s))
      | [] => None
      end
  | StopClick now => Some (stopTest now s)
  | FetchSettled r o now =>
      if awaiting AwaitFetch s r then Some (downloadFile_fetched r o now s)
      else None
  | ReadSettled r o now =>
      if awaiting AwaitRead s r then Some (readStream_read r o now s)
      else None
  | TimeoutFired t rand now =>
      match timeouts s !! t with
      | Some tm =>
          let s := clearTimeout t s in
          Some match callback tm with
               | UpdateTick => update now s
               | ReconnectIfTesting r => reconnectIfTesting r rand now s
               end
      | None => None
      end
  end.

(** The rejection an aborted [fetch] or [read] settles with. *)
Definition AbortError : JsError :=
  mkJsError "AbortError" "The user aborted a request.".

(** A thread whose controller was aborted while it was suspended. *)
Definition cancelled (th : TestThread) : bool :=
  aborted th && (bool_decide (task th = AwaitFetch) || bool_decide (task th = AwaitRead)).

Fixpoint findCancelled (r : loc) (l : list TestThread) : option loc :=
  match l with
  | [] => None
  | th :: rest => if cancelled th then Some r else findCancelled (S r) rest
  end.

(** [controller.abort()] rejects the suspended operation with [AbortError];
    the continuation runs in the microtask checkpoint that follows. *)
Definition deliverAbort (r : loc) (now : Z) (s : Tester) : Tester :=
  match threads s !! r with
  | Some th =>
      match task th with
      | AwaitFetch => downloadFile_fetched r (FetchRejected AbortError) now s
      | AwaitRead => readStream_read r (ReadRejected AbortError) now s
      | _ => s
      end
  | None => s
  end.

Fixpoint microtasks (fuel : nat) (now : Z) (s : Tester) : Tester :=
  match fuel with
  | O => s
  | S fuel' =>
      match findCancelled 0%nat (threads s) with
      | Some r => microtasks fuel' now (deliverAbort r now s)
      | None => s
      end
  end.

Definition eventTime (e : Event) : Z :=
  match e with
  | StartClick _ now | WakeLockAcquired _ now | StopClick now
  | FetchSettled _ _ now | ReadSettled _ _ now | TimeoutFired _ _ now => now
  end.

(** One turn of the event loop: the handler, then the continuations of
    everything it aborted (each delivery ends one suspended task, so as many
    rounds as there are thread objects empty the queue). *)
Definition step (s : Tester) (e : Event) : option Tester :=
  match dispatch e s with
  | Some s' => Some (microtasks (length (threads s')) (eventTime e) s')
  | None => None
  end.

Fixpoint run (s : Tester) (es : list Event) : option Tester :=
  match es with
  | [] => Some s
  | e :: rest =>
      match step s e with
      | Some s' => run s' rest
      | None => None
      end
  end.

(** How often a line occurs in the log. *)
Definition isAllInterrupted (e : LogEntry) : bool :=
  match e with LogAllInterrupted => true | _ => false end.

Definition isThreadError (e : LogEntry) : bool :=
  match e with LogThreadError _ _ => true | _ => false end.

Definition countLog (f : LogEntry -> bool) (l : list LogEntry) : nat :=
  length (List.filter f l).

(** ** Sample inputs *)

Definition rand0 (i : nat) : string := ("r" ++ dec (Z.of_nat i))%string.

Definition form (node : string) (n : Z) (limit : Q) (u : TrafficUnit)
  : FormInputs :=
  mkFormInputs node "" (Some n) (Some limit) u.

(** ** Vocabulary of the statements *)

(** The mark [stopTest] leaves on a thread object. *)
Definition mark (t : TestThread) : TestThread := set_isActive false (set_aborted true t).

(** The thread objects after the [forEach] of [stopTest] over [l]. *)
Definition markAll (l : list loc) (ts : list TestThread) : list TestThread :=
  foldl (fun ts r => alter mark r ts) ts l.

(** The lines that [forEach] logs. *)
Definition stoppedLines (ts : list TestThread) (l : list loc) : list LogEntry :=
  flat_map (fun r => match ts !! r with
                     | Some th => [LogThreadStopped (id th)]
                     | None => []
                     end) l.

(** The thread object [createTestThread] allocates. *)
Definition newThread (baseUrl : string) (rand : nat -> string) (now : Z)
    (i : nat) : TestThread :=
  mkThread i (baseUrl ++ "?thread=" ++ dec (Z.of_nat i)
                      ++ "&r=" ++ rand i ++ "&t=" ++ dec now)%string
           false 0 true AwaitFetch.

(** The history holds no more samples than the smoothing window. *)
Definition historyBounded (s : Tester) : Prop :=
  (length (speedHistory s) <= speedSmoothingWindow)%nat.

(** What the [AbortError] continuation leaves of a suspended thread. *)
Definition settle (t : TestThread) : TestThread :=
  match task t with
  | AwaitFetch => set_task Thrown (set_isActive false t)
  | AwaitRead => set_task Returned t
  | _ => t
  end.

(** The same, for a thread that is cancelled. *)
Definition settleCancelled (t : TestThread) : TestThread :=
  if cancelled t then settle t else t.

(** How many threads the checkpoint has to resume. *)
Definition pendingCancelled (l : list TestThread) : nat :=
  length (List.filter cancelled l).

(** No aborted thread is suspended. *)
Definition noCancelled (s : Tester) : Prop :=
  Forall (fun th => cancelled th = false) (threads s).

(** While a session runs the budget has not been reached. *)
Definition budgetOpen (s : Tester) : Prop :=
  0 <= totalDownloaded s /\
  (isTesting s = true ->
   (inject_Z (totalDownloaded s) < targetTrafficBytes s)%Q).

(** What holds in every state the browser can drive the tester into. *)
Record wellFormed (s : Tester) : Prop := {
  wf_history : historyBounded s;
  wf_budget : budgetOpen s;
  wf_settled : noCancelled s
}.

(** A JavaScript number that is an integer. *)
Definition isInteger (q : Q) : Prop := exists z : Z, (q == inject_Z z)%Q.

(** A form that asks for a ten-millionth of a megabyte. *)
Definition tinyForm : FormInputs := form "cn1" 1 (1 # 10000000) MB.

(** A thread object that was cancelled and has nothing suspended any more. *)
Definition finishedWith (d : Z) (th : TestThread) : Prop :=
  aborted th = true /\ task th <> AwaitFetch /\ task th <> AwaitRead /\
  downloaded th = d.

(** [ts'] holds at [r] what [ts] holds there, up to the mark of [stopTest]. *)
Definition keeps (r : nat) (ts ts' : list TestThread) : Prop :=
  forall th, ts !! r = Some th ->
    exists th', ts' !! r = Some th' /\ (th' = th \/ th' = mark th).

(** The two ways a session is stopped with its threads cancelled: the stop
    button, and the chunk of [byteLength] bytes read by [reader] that reaches
    the budget. *)
Inductive StopCause : Type :=
| ByUser
| ByBudget (reader : nat) (byteLength : N).

(** The event that stops the session. *)
Definition stopEvent (c : StopCause) (now : Z) : Event :=
  match c with
  | ByUser => StopClick now
  | ByBudget r n => ReadSettled r (Chunk n) now
  end.

(** The bytes that event adds to the total. *)
Definition lastBytes (c : StopCause) : Z :=
  match c with
  | ByUser => 0
  | ByBudget _ n => Z.of_N n
  end.

(** The bytes that event adds to the count of thread [r]. *)
Definition lastChunk (c : StopCause) (r : nat) : Z :=
  match c with
  | ByUser => 0
  | ByBudget r0 n => if decide (r0 = r) then Z.of_N n else 0
  end.



(** The task is suspended at an [await]. *)
Definition pendingTask (k : Task) : bool :=
  match k with AwaitFetch | AwaitRead => true | _ => false end.

(** The worker slot (thread id) a reference stands for. *)
Definition slotIn (ts : list TestThread) (r : nat) : nat :=
  match ts !! r with Some th => id th | None => 0%nat end.

(** How the thread objects, [activeThreads], the pending timeouts and the
    references [F] of the threads that failed so far fit together while a
    session of [N] workers runs. *)
Record structure (N : nat) (ts : list TestThread) (act : list nat)
    (tmo : gmap nat Timeout) (F : list nat) : Prop := {
  st_slots : NoDup (slotIn ts <$> act);
  st_act : forall r, r ∈ act ->
      exists th, ts !! r = Some th /\ (id th < N)%nat /\ aborted th = false /\
                 (isActive th = false <-> r ∈ F) /\
                 (isActive th = false -> task th = Thrown);
  st_failed : forall r, r ∈ F -> r ∈ act;
  st_pending : forall r th,
      ts !! r = Some th -> pendingTask (task th) = true -> r ∈ act;
  st_timers : forall t tm r,
      tmo !! t = Some tm -> callback tm = ReconnectIfTesting r ->
      r ∈ act /\ exists th, ts !! r = Some th /\ isActive th = true /\
                            task th = Returned;
  st_timer_uniq : forall t1 t2 tm1 tm2 r,
      tmo !! t1 = Some tm1 -> tmo !! t2 = Some tm2 ->
      callback tm1 = ReconnectIfTesting r ->
      callback tm2 = ReconnectIfTesting r -> t1 = t2
}.

(** A session of [N] workers that runs, with the threads in [F] failed. *)
Definition running (N c0 : nat) (F : list nat) (s : Tester) : Prop :=
  isTesting s = true /\ acquiring s = [] /\
  countLog isAllInterrupted (testLog s) = c0 /\
  structure N (threads s) (activeThreads s) (timeouts s) F /\
  exists r th, r ∈ activeThreads s /\ threads s !! r = Some th /\ isActive th = true.

(** A session [stopTest] has just ended: what is still suspended was
    aborted. *)
Definition halted (c : nat) (s : Tester) : Prop :=
  isTesting s = false /\ acquiring s = [] /\
  countLog isAllInterrupted (testLog s) = c /\
  Forall (fun th => pendingTask (task th) = true -> aborted th = true) (threads s).

(** No session, nothing suspended. *)
Definition idle (c : nat) (s : Tester) : Prop :=
  isTesting s = false /\ acquiring s = [] /\
  countLog isAllInterrupted (testLog s) = c /\
  Forall (fun th => pendingTask (task th) = false) (threads s).

(** Some worker slot has no failed thread. *)
Definition unfailedSlot (N : nat) (ts : list TestThread) (F : list nat) : Prop :=
  exists i, (i < N)%nat /\ forall r, r ∈ F -> slotIn ts r <> i.

(** What the network and the timers can do to a session. *)
Definition workerEvent (e : Event) : Prop :=
  match e with
  | FetchSettled _ (FetchRejected error) _
  | ReadSettled _ (ReadRejected error) _ => err_name error <> "AbortError"%string
  | FetchSettled _ _ _ | ReadSettled _ _ _ | TimeoutFired _ _ _ => True
  | _ => False
  end.

(** The thread an error is reported for: a rejected [fetch] or [read], a
    response that is not [ok], or one without a body. *)
Definition failedBy (e : Event) : list nat :=
  match e with
  | FetchSettled r (FetchRejected _) _
  | FetchSettled r (Response false _) _
  | ReadSettled r (ReadRejected _) _ => [r]
  | FetchSettled r (Response true status) _ =>
      if nullBodyStatus status then [r] else []
  | _ => []
  end.

(** Where a session of [N] workers stands after some events. *)
Definition phase (N c0 : nat) (F : list nat) (s : Tester) : Prop :=
  running N c0 F s \/ idle (S c0) s \/
  (idle c0 s /\ unfailedSlot N (threads s) F).

(** A state in which a session can be started afresh: no session, no
    suspended thread, no [startTest] waiting for the wake lock and no
    reconnect waiting for its delay. *)
Definition quiet (s : Tester) : Prop :=
  isTesting s = false /\ acquiring s = [] /\
  Forall (fun th => pendingTask (task th) = false) (threads s) /\
  forall t tm, timeouts s !! t = Some tm -> callback tm = UpdateTick.

(** A session in which the only worker reaches the end of its stream, is
    stopped during the reconnect delay and started again before the delay
    expires. *)
Definition restartTrace : list Event :=
  [ StartClick (form "cn1" 1 1 GB) 1000;
    WakeLockAcquired rand0 1001;
    FetchSettled 0%nat (Response true 200) 1100;
    ReadSettled 0%nat Done 2000;
    StopClick 2100;
    StartClick (form "cn1" 1 1 GB) 2200;
    WakeLockAcquired rand0 2201;
    TimeoutFired 2%nat "k" 3000 ].

(** A session on the Cloudflare node whose worker reconnects once. *)
Definition queryTrace : list Event :=
  [ StartClick (form "us1" 1 1 GB) 1000;
    WakeLockAcquired rand0 1001;
    FetchSettled 0%nat (Response true 200) 1100;
    ReadSettled 0%nat Done 2000;
    TimeoutFired 2%nat "k" 3000 ].

(** What is looked at in a thread object. *)
Definition threadView (th : TestThread) : nat * Task * bool * bool :=
  (id th, task th, aborted th, isActive th).

(** Two workers of a 1 MB session, both connected and reading. *)
Definition demoTrace : list Event :=
  [ StartClick (form "cn1" 2 1 MB) 1000;
    WakeLockAcquired rand0 1001;
    FetchSettled 0%nat (Response true 200) 1100;
    FetchSettled 1%nat (Response true 200) 1100 ].

(** The states of that session: both workers reading; after a chunk of
    1 MB; after the stop button; after a tick; after a tick and the chunk;
    right after the start. *)
Definition demoRunning : Tester := default initial (run initial demoTrace).

Definition demoReached : Tester :=
  default initial (step demoRunning (ReadSettled 0%nat (Chunk 1048576) 1500)).

Definition demoStopped : Tester :=
  default initial (step demoRunning (StopClick 1500)).



Definition demoStarted : Tester :=
  default initial (run initial (take 2 demoTrace)).

(** Both workers fail: one fetch is rejected, the other is answered with
    status 503. *)
Definition networkDown : JsError := mkJsError "TypeError" "Failed to fetch".



(** A session is stopped before its wake lock is there and started again;
    the worker of the first start and the worker of the second both
    connect and read.  The second reads the budget of 1 MB, its last byte
    in a chunk of its own; then the first receives 5000 bytes more. *)
Definition strayTrace : list Event :=
  [ StartClick (form "cn1" 1 1 MB) 1000;
    StopClick 1001;
    WakeLockAcquired rand0 1002;
    StartClick (form "cn1" 1 1 MB) 2000;
    WakeLockAcquired rand0 2001;
    FetchSettled 0%nat (Response true 200) 2100;
    FetchSettled 1%nat (Response true 200) 2100;
    ReadSettled 1%nat (Chunk 1048575) 2200;
    ReadSettled 1%nat (Chunk 1) 2300;
    ReadSettled 0%nat (Chunk 5000) 2400 ].

(** What is looked at in the tester along that trace: [isTesting],
    [totalDownloaded], [targetTrafficBytes], [activeThreads] and the
    thread objects. *)
Definition budgetView (s : Tester)
  : bool * Z * Q * list nat * list (nat * Task * bool * bool) :=
  (isTesting s, totalDownloaded s, targetTrafficBytes s, activeThreads s,
   threadView <$> threads s).

(** The events that run [updateProgress]: the timeout of
    [startProgressUpdate] expiring, and [startTest] calling
    [startProgressUpdate] once the wake lock is there, both while a session
    runs ([update] returns at once when none does). *)
Definition ticks (s : Tester) (e : Event) : bool :=
  isTesting s &&
  match e with
  | WakeLockAcquired _ _ => true
  | TimeoutFired t _ _ =>
      match timeouts s !! t with
      | Some tm => match callback tm with UpdateTick => true | _ => false end
      | None => false
      end
  | _ => false
  end.

(** The clicks on start that begin a session. *)
Definition starts (s : Tester) (e : Event) : bool :=
  match e with
  | StartClick f _ =>
      negb (isTesting s) &&
      match validateTestParams f with inr _ => true | inl _ => false end
  | _ => false
  end.

(** The events the speed estimate is measured from: a tick, or the start of
    the session for its first tick. *)
Definition marks (s : Tester) (e : Event) : bool := ticks s e || starts s e.

(** A run none of whose events is a tick or begins a session. *)
Fixpoint runNoTick (s : Tester) (es : list Event) : option Tester :=
  match es with
  | [] => Some s
  | e :: rest =>
      if marks s e then None
      else
        match step s e with
        | Some s' => runNoTick s' rest
        | None => None
        end
  end.

(** A run none of whose events begins a session. *)
Fixpoint runNoStart (s : Tester) (es : list Event) : option Tester :=
  match es with
  | [] => Some s
  | e :: rest =>
      if starts s e then None
      else
        match step s e with
        | Some s' => runNoStart s' rest
        | None => None
        end
  end.

(** The session of [demoTrace] after its first worker has read 1000 bytes,
    a tick at 1101 ms, and 500 bytes more. *)
Definition demoFed : Tester :=
  default initial
    (run demoRunning [ReadSettled 0%nat (Chunk 1000) 1100;
                      TimeoutFired 1%nat "" 1101;
                      ReadSettled 0%nat (Chunk 500) 1150]).

(** The fields the estimate reads. *)
Definition estimateOf (s : Tester) : Z * Z * list Q :=
  (lastUpdateTime s, lastDownloaded s, speedHistory s).

(** The summary line of [stopTest]. *)
Definition isSummary (l : LogEntry) : bool :=
  match l with LogStopped _ _ _ => true | _ => false end.

(** The log [l'] is [l] followed by lines among which exactly one is a
    summary, the line [line]. *)
Definition oneSummary (l l' : list LogEntry) (line : LogEntry) : Prop :=
  exists pre post,
    l' = l ++ pre ++ [line] ++ post /\
    Forall (fun x => isSummary x = false) pre /\
    Forall (fun x => isSummary x = false) post.

(** The summary of a session that began at [t0], stopped at [now] with
    [total] bytes. *)
Definition summaryLine (t0 now total : Z) : LogEntry :=
  let elapsed := (inject_Z (now - t0) / 1000)%Q in
  LogStopped elapsed
    (if decide (t0 < now)
     then (inject_Z total / elapsed / (1024 * 1024))%Q else 0%Q)
    total.

(** [Number.MAX_VALUE], the largest double. *)
Definition maxValue : Q := inject_Z ((2 ^ 53 - 1) * 2 ^ 971).

(** The integer [x.toFixed(d)] prints, in units of 10^-d: [toFixed] shows
    its quotient by 10^d before the point and its remainder after. *)
Definition rounded (d : nat) (x : Q) : Z :=
  Qfloor (Qabs x * inject_Z (10 ^ Z.of_nat d) + (1 # 2)).

(** ** Vocabulary of the further properties *)

(** The form controls are disabled exactly while a session runs. *)
Definition controlsFollow (s : Tester) : Prop :=
  controlsLocked (display s) = isTesting s.

(** The timers of the tester: [updateTimer] is set only while a session
    runs and then names a pending tick; a pending timeout is a tick due
    after [updateInterval] or a reconnect due after 1000 ms, and its id has
    been handed out. *)
Definition timersTidy (s : Tester) : Prop :=
  (isTesting s = false -> updateTimer s = None) /\
  (forall t, updateTimer s = Some t ->
     timeouts s !! t = Some (mkTimeout updateInterval UpdateTick)) /\
  (forall t tm, timeouts s !! t = Some tm ->
     (t < nextTimeoutId s)%nat /\
     (tm = mkTimeout updateInterval UpdateTick \/
      exists r, tm = mkTimeout 1000 (ReconnectIfTesting r))).

(** The transport error an event reports, with the thread it is reported
    for and the message the [.catch] of [createTestThread] logs. *)
Definition reportedError (e : Event) : option (loc * string) :=
  match e with
  | FetchSettled r (FetchRejected error) _
  | ReadSettled r (ReadRejected error) _ =>
      if String.eqb (err_name error) "AbortError" then None
      else Some (r, err_message error)
  | FetchSettled r (Response false status) _ =>
      Some (r, ("HTTP error! status: " ++ dec status)%string)
  | _ => None
  end.

(** The bytes a tick has accounted for are bytes that were downloaded, and
    no sample of the history is negative. *)
Definition samplesSound (s : Tester) : Prop :=
  0 <= lastDownloaded s <= totalDownloaded s /\
  Forall (fun x => (0 <= x)%Q) (speedHistory s).

(** [ts'] holds at every reference of [ts] a thread object with the same
    id and URL. *)
Definition sameThreads (ts ts' : list TestThread) : Prop :=
  forall r th, ts !! r = Some th ->
    exists th', ts' !! r = Some th' /\ id th' = id th /\ url th' = url th.

(** ** [formatTime] *)

(** [a % b] on finite operands, [b] not zero: the remainder of the division
    truncated towards zero. *)
Definition remainder (a b : Q) : Q :=
  let q := (a / b)%Q in
  (a - b * inject_Z (if Qle_bool 0 q then Qfloor q else Qceiling q))%Q.

(** [formatTime(seconds)], for a finite number of seconds. *)
Definition formatTime (seconds : Q) : string :=
  if ltb seconds 60 then (toFixed 1 seconds ++ "秒")%string
  else if ltb seconds 3600 then
    let mins := Qfloor (seconds / 60) in
    let secs := remainder seconds 60 in
    (dec mins ++ "分" ++ toFixed 0 secs ++ "秒")%string
  else
    let hours := Qfloor (seconds / 3600) in
    let mins := Qfloor (remainder seconds 3600 / 60) in
    let secs := remainder seconds 60 in
    (dec hours ++ "时" ++ dec mins ++ "分" ++ toFixed 0 secs ++ "秒")%string.

(** ** Further sample inputs *)

(** The first of two workers fails while the second still waits for its
    response. *)
Definition demoOneFailed : Tester :=
  default initial (step demoStarted (FetchSettled 0%nat (FetchRejected networkDown) 1100)).

(** A session on the Cloudflare node before its threads are created, and
    with its first thread. *)
Definition demoAcquiring : Tester :=
  default initial (step initial (StartClick (form "us1" 1 1 GB) 1000)).

Definition demoCreated : Tester :=
  createTestThread 0 "https://speed.cloudflare.com/__down?bytes=1073741824" "r0" 1001
    demoAcquiring.

(** A form that selects a node the tester does not know. *)
Definition strayForm : FormInputs := form "nowhere" 1 1 MB.

Definition demoStray : Tester :=
  default initial (run initial [StartClick strayForm 1000; WakeLockAcquired rand0 1001]).

(** Stop is clicked before the wake lock of a start is acquired. *)
Definition demoEarlyStop : Tester :=
  default initial
    (run initial [StartClick (form "cn1" 2 1 MB) 1000; StopClick 1001;
                  WakeLockAcquired rand0 1002]).

(** ** The screen wake lock manager of [js/screen-wake-lock.js]

    The class [ScreenWakeLock] behind [startTest] and [stopTest].  Its
    [async] methods are cut at their [await]s as those of the tester are;
    what is suspended is kept in [pending], with what is to run after it.
    The browser may run the handlers in any order: a property of every run
    of [exec] holds whatever the order in which the browser settles the
    requests, fires the timers and releases the sentinels. *)

Module ScreenWakeLock.

(** A [WakeLockSentinel], by identity. *)
Abbreviation sentinel := nat.

(** The first argument of [notifyStatusChange]. *)
Inductive Status : Type :=
| StatusAcquired | StatusReleased | StatusFailed | StatusUnsupported | StatusError.

(** An error object: [error.message] and [String(error)]. *)
Record WlError : Type := mkWlError {
  message : string;
  text : string
}.

(** The lines [this.log] is called with, one constructor per message.  The
    message of the [catch] of [performHeartbeat] has none: nothing in its
    [try] throws, since [acquireWakeLock] and [maintainBackgroundActivity]
    catch what is thrown in them. *)
Inductive Line : Type :=
| LineUnsupported
| LineAcquired
| LineAcquireFailed (error : string)
| LineSentinelReleased
| LineReleased
| LineReleaseFailed (error : string)
| LineRetry (retryCount maxRetries : nat)
| LineMaxRetries
| LineNotAllowed
| LineNotSupported
| LineAborted
| LineUnknownError (error : string)
| LineAlreadyActive
| LineHeartbeatStarted
| LineHeartbeatStopped
| LineLockLost
| LineOffline
| LineBackgroundDone
| LineBackgroundFailed (error : string)
| LineBackgroundSupport (enabled : bool).

(** The events [setupVisibilityHandler] listens to, and the functions that
    listen: the five arrow functions it registers, and the method itself,
    which [destroy] hands to [removeEventListener]. *)
Inductive DomEvent : Type :=
| visibilitychange | focus | beforeunload | online | offline.

Inductive Listener : Type :=
| OnVisibilityChange | OnFocus | OnBeforeUnload | OnOnline | OnOffline
| SetupVisibilityHandler.

#[global] Instance DomEvent_eq_dec : EqDecision DomEvent.
Proof. solve_decision. Defined.

#[global] Instance Listener_eq_dec : EqDecision Listener.
Proof. solve_decision. Defined.

(** What runs in [performHeartbeat] once the [acquireWakeLock] it awaits
    has returned: nothing for the other callers, the test for
    [maintainBackgroundActivity] with the [isVisible] read before. *)
Inductive Continuation : Type :=
| Return
| HeartbeatTail (isVisible : bool).

(** A suspended call: [acquireWakeLock] at
    [await navigator.wakeLock.request('screen')], or [releaseWakeLock] at
    [await this.wakeLock.release()], together with the [acquireWakeLock]
    that awaits it, if one does. *)
Inductive Pending : Type :=
| AwaitRequest (k : Continuation)
| AwaitRelease (acquiring : option Continuation).

(** The fields of [ScreenWakeLock], followed by the browser state it acts
    on: the registered listeners, the intervals and timeouts it has set,
    its suspended calls, the sentinels handed out, and what it has logged
    (through [logCallback] or on the console) and notified. *)
Record WakeLock : Type := mkWakeLock {
  wakeLock : option sentinel;
  isSupported : bool;
  isActive : bool;
  statusChangeCallback : bool;
  logCallback : bool;
  retryCount : nat;
  maxRetries : nat;
  retryDelay : Z;
  heartbeatTimer : option nat;
  heartbeatInterval : Z;
  backgroundSupport : bool;
  listeners : list (DomEvent * Listener);
  intervals : gmap nat Z;
  timeouts : gmap nat Z;
  nextTimerId : nat;
  pending : list Pending;
  nextSentinel : nat;
  panel : list Line;
  console : list Line;
  notified : list Status
}.

Definition set_wakeLock (v : option sentinel) (w : WakeLock) : WakeLock :=
  mkWakeLock v (isSupported w) (isActive w) (statusChangeCallback w) (logCallback w) (retryCount w) (maxRetries w) (retryDelay w) (heartbeatTimer w) (heartbeatInterval w) (backgroundSupport w) (listeners w) (intervals w) (timeouts w) (nextTimerId w) (pending w) (nextSentinel w) (panel w) (console w) (notified w).
Definition set_isSupported (v : bool) (w : WakeLock) : WakeLock :=
  mkWakeLock (wakeLock w) v (isActive w) (statusChangeCallback w) (logCallback w) (retryCount w) (maxRetries w) (retryDelay w) (heartbeatTimer w) (heartbeatInterval w) (backgroundSupport w) (listeners w) (intervals w) (timeouts w) (nextTimerId w) (pending w) (nextSentinel w) (panel w) (console w) (notified w).
Definition set_isActive (v : bool) (w : WakeLock) : WakeLock :=
  mkWakeLock (wakeLock w) (isSupported w) v (statusChangeCallback w) (logCallback w) (retryCount w) (maxRetries w) (retryDelay w) (heartbeatTimer w) (heartbeatInterval w) (backgroundSupport w) (listeners w) (intervals w) (timeouts w) (nextTimerId w) (pending w) (nextSentinel w) (panel w) (console w) (notified w).
Definition set_statusChangeCallback (v : bool) (w : WakeLock) : WakeLock :=
  mkWakeLock (wakeLock w) (isSupported w) (isActive w) v (logCallback w) (retryCount w) (maxRetries w) (retryDelay w) (heartbeatTimer w) (heartbeatInterval w) (backgroundSupport w) (listeners w) (intervals w) (timeouts w) (nextTimerId w) (pending w) (nextSentinel w) (panel w) (console w) (notified w).
Definition set_logCallback (v : bool) (w : WakeLock) : WakeLock :=
  mkWakeLock (wakeLock w) (isSupported w) (isActive w) (statusChangeCallback w) v (retryCount w) (maxRetries w) (retryDelay w) (heartbeatTimer w) (heartbeatInterval w) (backgroundSupport w) (listeners w) (intervals w) (timeouts w) (nextTimerId w) (pending w) (nextSentinel w) (panel w) (console w) (notified w).
Definition set_retryCount (v : nat) (w : WakeLock) : WakeLock :=
  mkWakeLock (wakeLock w) (isSupported w) (isActive w) (statusChangeCallback w) (logCallback w) v (maxRetries w) (retryDelay w) (heartbeatTimer w) (heartbeatInterval w) (backgroundSupport w) (listeners w) (intervals w) (timeouts w) (nextTimerId w) (pending w) (nextSentinel w) (panel w) (console w) (notified w).
Definition set_maxRetries (v : nat) (w : WakeLock) : WakeLock :=
  mkWakeLock (wakeLock w) (isSupported w) (isActive w) (statusChangeCallback w) (logCallback w) (retryCount w) v (retryDelay w) (heartbeatTimer w) (heartbeatInterval w) (backgroundSupport w) (listeners w) (intervals w) (timeouts w) (nextTimerId w) (pending w) (nextSentinel w) (panel w) (console w) (notified w).
Definition set_retryDelay (v : Z) (w : WakeLock) : WakeLock :=
  mkWakeLock (wakeLock w) (isSupported w) (isActive w) (statusChangeCallback w) (logCallback w) (retryCount w) (maxRetries w) v (heartbeatTimer w) (heartbeatInterval w) (backgroundSupport w) (listeners w) (intervals w) (timeouts w) (nextTimerId w) (pending w) (nextSentinel w) (panel w) (console w) (notified w).
Definition set_heartbeatTimer (v : option nat) (w : WakeLock) : WakeLock :=
  mkWakeLock (wakeLock w) (isSupported w) (isActive w) (statusChangeCallback w) (logCallback w) (retryCount w) (maxRetries w) (retryDelay w) v (heartbeatInterval w) (backgroundSupport w) (listeners w) (intervals w) (timeouts w) (nextTimerId w) (pending w) (nextSentinel w) (panel w) (console w) (notified w).
Definition set_heartbeatInterval (v : Z) (w : WakeLock) : WakeLock :=
  mkWakeLock (wakeLock w) (isSupported w) (isActive w) (statusChangeCallback w) (logCallback w) (retryCount w) (maxRetries w) (retryDelay w) (heartbeatTimer w) v (backgroundSupport w) (listeners w) (intervals w) (timeouts w) (nextTimerId w) (pending w) (nextSentinel w) (panel w) (console w) (notified w).
Definition set_backgroundSupport (v : bool) (w : WakeLock) : WakeLock :=
  mkWakeLock (wakeLock w) (isSupported w) (isActive w) (statusChangeCallback w) (logCallback w) (retryCount w) (maxRetries w) (retryDelay w) (heartbeatTimer w) (heartbeatInterval w) v (listeners w) (intervals w) (timeouts w) (nextTimerId w) (pending w) (nextSentinel w) (panel w) (console w) (notified w).
Definition set_listeners (v : list (DomEvent * Listener)) (w : WakeLock) : WakeLock :=
  mkWakeLock (wakeLock w) (isSupported w) (isActive w) (statusChangeCallback w) (logCallback w) (retryCount w) (maxRetries w) (retryDelay w) (heartbeatTimer w) (heartbeatInterval w) (backgroundSupport w) v (intervals w) (timeouts w) (nextTimerId w) (pending w) (nextSentinel w) (panel w) (console w) (notified w).
Definition set_intervals (v : gmap nat Z) (w : WakeLock) : WakeLock :=
  mkWakeLock (wakeLock w) (isSupported w) (isActive w) (statusChangeCallback w) (logCallback w) (retryCount w) (maxRetries w) (retryDelay w) (heartbeatTimer w) (heartbeatInterval w) (backgroundSupport w) (listeners w) v (timeouts w) (nextTimerId w) (pending w) (nextSentinel w) (panel w) (console w) (notified w).
Definition set_timeouts (v : gmap nat Z) (w : WakeLock) : WakeLock :=
  mkWakeLock (wakeLock w) (isSupported w) (isActive w) (statusChangeCallback w) (logCallback w) (retryCount w) (maxRetries w) (retryDelay w) (heartbeatTimer w) (heartbeatInterval w) (backgroundSupport w) (listeners w) (intervals w) v (nextTimerId w) (pending w) (nextSentinel w) (panel w) (console w) (notified w).
Definition set_nextTimerId (v : nat) (w : WakeLock) : WakeLock :=
  mkWakeLock (wakeLock w) (isSupported w) (isActive w) (statusChangeCallback w) (logCallback w) (retryCount w) (maxRetries w) (retryDelay w) (heartbeatTimer w) (heartbeatInterval w) (backgroundSupport w) (listeners w) (intervals w) (timeouts w) v (pending w) (nextSentinel w) (panel w) (console w) (notified w).
Definition set_pending (v : list Pending) (w : WakeLock) : WakeLock :=
  mkWakeLock (wakeLock w) (isSupported w) (isActive w) (statusChangeCallback w) (logCallback w) (retryCount w) (maxRetries w) (retryDelay w) (heartbeatTimer w) (heartbeatInterval w) (backgroundSupport w) (listeners w) (intervals w) (timeouts w) (nextTimerId w) v (nextSentinel w) (panel w) (console w) (notified w).
Definition set_nextSentinel (v : nat) (w : WakeLock) : WakeLock :=
  mkWakeLock (wakeLock w) (isSupported w) (isActive w) (statusChangeCallback w) (logCallback w) (retryCount w) (maxRetries w) (retryDelay w) (heartbeatTimer w) (heartbeatInterval w) (backgroundSupport w) (listeners w) (intervals w) (timeouts w) (nextTimerId w) (pending w) v (panel w) (console w) (notified w).
Definition set_panel (v : list Line) (w : WakeLock) : WakeLock :=
  mkWakeLock (wakeLock w) (isSupported w) (isActive w) (statusChangeCallback w) (logCallback w) (retryCount w) (maxRetries w) (retryDelay w) (heartbeatTimer w) (heartbeatInterval w) (backgroundSupport w) (listeners w) (intervals w) (timeouts w) (nextTimerId w) (pending w) (nextSentinel w) v (console w) (notified w).
Definition set_console (v : list Line) (w : WakeLock) : WakeLock :=
  mkWakeLock (wakeLock w) (isSupported w) (isActive w) (statusChangeCallback w) (logCallback w) (retryCount w) (maxRetries w) (retryDelay w) (heartbeatTimer w) (heartbeatInterval w) (backgroundSupport w) (listeners w) (intervals w) (timeouts w) (nextTimerId w) (pending w) (nextSentinel w) (panel w) v (notified w).
Definition set_notified (v : list Status) (w : WakeLock) : WakeLock :=
  mkWakeLock (wakeLock w) (isSupported w) (isActive w) (statusChangeCallback w) (logCallback w) (retryCount w) (maxRetries w) (retryDelay w) (heartbeatTimer w) (heartbeatInterval w) (backgroundSupport w) (listeners w) (intervals w) (timeouts w) (nextTimerId w) (pending w) (nextSentinel w) (panel w) (console w) v.

(** The manager as the constructor leaves it. *)
Definition initial (supported : bool) : WakeLock :=
  mkWakeLock None supported false false false 0 3 1000 None 30000 true
    [(visibilitychange, OnVisibilityChange); (focus, OnFocus);
     (beforeunload, OnBeforeUnload); (online, OnOnline); (offline, OnOffline)]
    ∅ ∅ 1 [] 0 [] [] [].

(** Whether a field that holds an object or [null] is truthy. *)
Definition truthy {A : Type} (x : option A) : bool :=
  match x with Some _ => true | None => false end.

(** [this.log(message)] *)
Definition log (m : Line) (w : WakeLock) : WakeLock :=
  if logCallback w then set_panel (panel w ++ [m]) w
  else set_console (console w ++ [m]) w.

(** [notifyStatusChange(status, data)] *)
Definition notifyStatusChange (status : Status) (w : WakeLock) : WakeLock :=
  if statusChangeCallback w then set_notified (notified w ++ [status]) w else w.

(** [stopHeartbeat()] *)
Definition stopHeartbeat (w : WakeLock) : WakeLock :=
  match heartbeatTimer w with
  | Some t =>
      log LineHeartbeatStopped
        (set_heartbeatTimer None (set_intervals (delete t (intervals w)) w))
  | None => w
  end.

(** [startHeartbeat()] *)
Definition startHeartbeat (w : WakeLock) : WakeLock :=
  let w := stopHeartbeat w in
  if negb (isActive w) then w
  else
    let t := nextTimerId w in
    let w := set_nextTimerId (S t)
               (set_intervals (<[t := heartbeatInterval w]> (intervals w)) w) in
    log LineHeartbeatStarted (set_heartbeatTimer (Some t) w).

(** [s.includes(sub)] *)
Fixpoint includes (s sub : string) : bool :=
  match stripPrefix sub s with
  | Some _ => true
  | None =>
      match s with
      | EmptyString => false
      | String _ r => includes r sub
      end
  end.

(** [handleWakeLockError(error)] *)
Definition handleWakeLockError (error : WlError) (w : WakeLock) : WakeLock :=
  let errorMessage :=
    if String.eqb (message error) "" then text error else message error in
  let w :=
    if includes errorMessage "NotAllowedError" then log LineNotAllowed w
    else if includes errorMessage "NotSupportedError" then log LineNotSupported w
    else if includes errorMessage "AbortError" then log LineAborted w
    else log (LineUnknownError (text error)) w in
  notifyStatusChange StatusError w.

(** [handleWakeLockRelease()] *)
Definition handleWakeLockRelease (w : WakeLock) : WakeLock :=
  if (retryCount w <? maxRetries w)%nat then
    let w := set_retryCount (S (retryCount w)) w in
    let w := log (LineRetry (retryCount w) (maxRetries w)) w in
    let t := nextTimerId w in
    set_nextTimerId (S t) (set_timeouts (<[t := retryDelay w]> (timeouts w)) w)
  else
    notifyStatusChange StatusFailed (log LineMaxRetries w).

(** [maintainBackgroundActivity()]: the calls into the service worker, the
    network and the audio context leave nothing in this class; [failure] is
    the error they threw, if they did. *)
Definition maintainBackgroundActivity (failure : option string) (w : WakeLock)
  : WakeLock :=
  match failure with
  | None => log LineBackgroundDone w
  | Some error => log (LineBackgroundFailed error) w
  end.

(** What follows the [await] in the caller of [acquireWakeLock]. *)
Definition resume (k : Continuation) (failure : option string) (w : WakeLock)
  : WakeLock :=
  match k with
  | Return => w
  | HeartbeatTail isVisible =>
      if negb isVisible && isActive w && backgroundSupport w
      then maintainBackgroundActivity failure w
      else w
  end.

(** [releaseWakeLock()] up to its [await]; [acquiring] is the
    [acquireWakeLock] that called it, if one did. *)
Definition releaseWakeLock (acquiring : option Continuation) (w : WakeLock)
  : WakeLock :=
  match wakeLock w with
  | Some _ => set_pending (pending w ++ [AwaitRelease acquiring]) w
  | None => w
  end.

(** [acquireWakeLock()] up to its first [await], called from a place that
    goes on with [k]. *)
Definition acquireWakeLock (k : Continuation) (failure : option string)
    (w : WakeLock) : WakeLock :=
  if negb (isSupported w) then
    resume k failure (notifyStatusChange StatusUnsupported (log LineUnsupported w))
  else
    match wakeLock w with
    | Some _ => releaseWakeLock (Some k) w
    | None => set_pending (pending w ++ [AwaitRequest k]) w
    end.

(** How [navigator.wakeLock.request('screen')] and [wakeLock.release()]
    settle. *)
Inductive RequestOutcome : Type :=
| Granted
| Rejected (error : WlError).

Inductive ReleaseOutcome : Type :=
| ReleaseDone
| ReleaseFailed (error : string).

(** [acquireWakeLock()] from the settled request on. *)
Definition acquireWakeLock_requested (o : RequestOutcome) (k : Continuation)
    (failure : option string) (w : WakeLock) : WakeLock :=
  match o with
  | Granted =>
      let w := set_nextSentinel (S (nextSentinel w))
                 (set_wakeLock (Some (nextSentinel w)) w) in
      let w := set_isActive true w in
      let w := set_retryCount 0 w in
      let w := log LineAcquired w in
      let w := notifyStatusChange StatusAcquired w in
      let w := startHeartbeat w in
      resume k failure w
  | Rejected error =>
      let w := log (LineAcquireFailed (text error)) w in
      let w := handleWakeLockError error w in
      resume k failure w
  end.

(** [releaseWakeLock()] from the settled [release()] on. *)
Definition releaseWakeLock_released (o : ReleaseOutcome) (w : WakeLock)
  : WakeLock :=
  match o with
  | ReleaseDone =>
      let w := set_wakeLock None w in
      let w := set_isActive false w in
      let w := log LineReleased w in
      notifyStatusChange StatusReleased w
  | ReleaseFailed error => log (LineReleaseFailed error) w
  end.

(** The listener of a sentinel's [release] event. *)
Definition onSentinelRelease (w : WakeLock) : WakeLock :=
  let w := log LineSentinelReleased w in
  let w := set_wakeLock None w in
  if isActive w then handleWakeLockRelease w else w.

(** [performHeartbeat()] *)
Definition performHeartbeat (hidden onLine : bool) (failure : option string)
    (w : WakeLock) : WakeLock :=
  let isVisible := negb hidden in
  if isActive w && negb (truthy (wakeLock w)) then
    if onLine then
      acquireWakeLock (HeartbeatTail isVisible) failure (log LineLockLost w)
    else
      let w := if backgroundSupport w then log LineOffline w else w in
      resume (HeartbeatTail isVisible) failure w
  else resume (HeartbeatTail isVisible) failure w.

(** The callback [startHeartbeat] hands to [setInterval]. *)
Definition heartbeat (hidden onLine : bool) (failure : option string)
    (w : WakeLock) : WakeLock :=
  if negb (isActive w) then stopHeartbeat w
  else performHeartbeat hidden onLine failure w.

(** The guard of the [visibilitychange], [focus] and [online] listeners. *)
Definition reacquire (w : WakeLock) : WakeLock :=
  if isActive w && negb (truthy (wakeLock w))
  then acquireWakeLock Return None w
  else w.

(** [deactivate()] up to its [await]. *)
Definition deactivate (w : WakeLock) : WakeLock :=
  let w := set_isActive false w in
  let w := stopHeartbeat w in
  releaseWakeLock None w.

(** The five listeners of [setupVisibilityHandler]. *)
Definition onVisibilityChange (hidden : bool) (w : WakeLock) : WakeLock :=
  let w := reacquire w in
  if negb hidden && isActive w then startHeartbeat w
  else if hidden && isActive w && backgroundSupport w then startHeartbeat w
  else stopHeartbeat w.

Definition onOffline (w : WakeLock) : WakeLock :=
  if isActive w && backgroundSupport w then startHeartbeat w else w.

(** [activate()] up to its [await]. *)
Definition activate (w : WakeLock) : WakeLock :=
  if isActive w then log LineAlreadyActive w
  else acquireWakeLock Return None w.

(** [removeEventListener(type, listener)] *)
Definition removeEventListener (type : DomEvent) (listener : Listener)
    (w : WakeLock) : WakeLock :=
  set_listeners
    (List.filter (fun l => negb (bool_decide (l = (type, listener)))) (listeners w)) w.

(** [destroy()] *)
Definition destroy (w : WakeLock) : WakeLock :=
  let w := deactivate w in
  let w := set_statusChangeCallback false w in
  let w := removeEventListener visibilitychange SetupVisibilityHandler w in
  let w := removeEventListener focus SetupVisibilityHandler w in
  let w := removeEventListener beforeunload SetupVisibilityHandler w in
  let w := removeEventListener online SetupVisibilityHandler w in
  removeEventListener offline SetupVisibilityHandler w.

(** [setBackgroundSupport(enabled)] *)
Definition setBackgroundSupport (enabled : bool) (w : WakeLock) : WakeLock :=
  let w := set_backgroundSupport enabled w in
  let w :=
    if enabled && isActive w then startHeartbeat w
    else if negb enabled then stopHeartbeat w
    else w in
  log (LineBackgroundSupport enabled) w.

(** [setHeartbeatInterval(interval)], for a whole number of milliseconds. *)
Definition setHeartbeatInterval (interval : Z) (w : WakeLock) : WakeLock :=
  let w := set_heartbeatInterval (Z.max 5000 interval) w in
  match heartbeatTimer w with
  | Some _ => startHeartbeat (stopHeartbeat w)
  | None => w
  end.

(** [getStatus()] *)
Record StatusInfo : Type := mkStatusInfo {
  status_isSupported : bool;
  status_isActive : bool;
  hasWakeLock : bool;
  status_retryCount : nat;
  status_maxRetries : nat
}.

Definition getStatus (w : WakeLock) : StatusInfo :=
  mkStatusInfo (isSupported w) (isActive w) (truthy (wakeLock w))
               (retryCount w) (maxRetries w).

(** What can happen to the manager: a call of one of its methods, a DOM
    event, and the browser settling a request or a release, releasing a
    sentinel, or firing a timer.  A heartbeat reads [document.hidden] and
    [navigator.onLine]; [failure] is what [maintainBackgroundActivity]
    would throw. *)
Inductive Event : Type :=
| CallAcquire
| CallRelease
| CallActivate
| CallDeactivate
| CallDestroy
| CallSetBackgroundSupport (enabled : bool)
| CallSetHeartbeatInterval (interval : Z)
| CallSetStatusChangeCallback
| CallSetLogCallback
| Dom (type : DomEvent) (hidden : bool)
| RequestSettled (call : nat) (outcome : RequestOutcome) (failure : option string)
| ReleaseSettled (call : nat) (outcome : ReleaseOutcome)
| SentinelReleased (lock : sentinel)
| RetryFired (timer : nat)
| HeartbeatFired (timer : nat) (hidden onLine : bool) (failure : option string).

(** The listener a DOM event runs. *)
Definition listen (l : Listener) (hidden : bool) (w : WakeLock) : WakeLock :=
  match l with
  | OnVisibilityChange => onVisibilityChange hidden w
  | OnFocus | OnOnline => reacquire w
  | OnBeforeUnload => deactivate w
  | OnOffline => onOffline w
  | SetupVisibilityHandler => w
  end.

(** The handler of an event, when the event can occur in [w]. *)
Definition exec (e : Event) (w : WakeLock) : option WakeLock :=
  match e with
  | CallAcquire => Some (acquireWakeLock Return None w)
  | CallRelease => Some (releaseWakeLock None w)
  | CallActivate => Some (activate w)
  | CallDeactivate => Some (deactivate w)
  | CallDestroy => Some (destroy w)
  | CallSetBackgroundSupport enabled => Some (setBackgroundSupport enabled w)
  | CallSetHeartbeatInterval interval => Some (setHeartbeatInterval interval w)
  | CallSetStatusChangeCallback => Some (set_statusChangeCallback true w)
  | CallSetLogCallback => Some (set_logCallback true w)
  | Dom type hidden =>
      Some (foldl (fun w l => if bool_decide (l.1 = type) then listen l.2 hidden w else w)
                  w (listeners w))
  | RequestSettled i o failure =>
      match pending w !! i with
      | Some (AwaitRequest k) =>
          Some (acquireWakeLock_requested o k failure
                  (set_pending (delete i (pending w)) w))
      | _ => None
      end
  | ReleaseSettled i o =>
      match pending w !! i with
      | Some (AwaitRelease acquiring) =>
          let w := releaseWakeLock_released o (set_pending (delete i (pending w)) w) in
          Some match acquiring with
               | Some k => set_pending (pending w ++ [AwaitRequest k]) w
               | None => w
               end
      | _ => None
      end
  | SentinelReleased lock =>
      if (lock <? nextSentinel w)%nat then Some (onSentinelRelease w) else None
  | RetryFired t =>
      match timeouts w !! t with
      | Some _ =>
          let w := set_timeouts (delete t (timeouts w)) w in
          Some (if isActive w then acquireWakeLock Return None w else w)
      | None => None
      end
  | HeartbeatFired t hidden onLine failure =>
      match intervals w !! t with
      | Some _ => Some (heartbeat hidden onLine failure w)
      | None => None
      end
  end.

Fixpoint run (w : WakeLock) (es : list Event) : option WakeLock :=
  match es with
  | [] => Some w
  | e :: rest =>
      match exec e w with
      | Some w' => run w' rest
      | None => None
      end
  end.

(** The manager as the constructor of [NetworkTester] sets it up. *)
Definition configured (supported : bool) : WakeLock :=
  set_statusChangeCallback true
    (setHeartbeatInterval 20000
       (setBackgroundSupport true
          (set_logCallback true (initial supported)))).

(** At most one heartbeat runs: the intervals that are set are the one
    [heartbeatTimer] names, with the period [heartbeatInterval], which is
    at least five seconds. *)
Definition oneHeartbeat (w : WakeLock) : Prop :=
  intervals w =
    match heartbeatTimer w with
    | Some t => {[ t := heartbeatInterval w ]}
    | None => ∅
    end /\
  5000 <= heartbeatInterval w.

(** The retries after a lost lock stay within [maxRetries], which is three;
    a retry is due after a second. *)
Definition retriesBounded (w : WakeLock) : Prop :=
  maxRetries w = 3%nat /\ retryDelay w = 1000 /\
  (retryCount w <= maxRetries w)%nat.

(** The listeners are those the constructor registered. *)
Definition listening (w : WakeLock) : Prop :=
  listeners w = listeners (initial true).

(** What every run of the manager keeps. *)
Definition steady (w : WakeLock) : Prop :=
  oneHeartbeat w /\ retriesBounded w /\ listening w.

(** Without the Screen Wake Lock API the manager stays as it was built. *)
Definition dormant (w : WakeLock) : Prop :=
  isSupported w = false /\ isActive w = false /\ wakeLock w = None /\
  heartbeatTimer w = None /\ intervals w = ∅ /\ timeouts w = ∅ /\
  pending w = [] /\ nextSentinel w = 0%nat.

(** Sample runs: the lock is requested and granted; [release()] is then
    called; or the browser takes the lock back; and a browser without the
    API. *)
Definition wlTrace : list Event :=
  [CallSetLogCallback; CallAcquire; RequestSettled 0 Granted None].

Definition wlActive : WakeLock :=
  default (initial true) (run (initial true) wlTrace).

Definition wlReleasing : WakeLock :=
  default (initial true) (run (initial true) (wlTrace ++ [CallRelease])).

Definition wlLost : WakeLock :=
  default (initial true) (run (initial true) (wlTrace ++ [SentinelReleased 0])).

Definition wlUnsupported : WakeLock :=
  default (initial false) (run (initial false) [CallAcquire; Dom visibilitychange false]).

(** [deactivate()] while the request of [acquire()] is suspended. *)
Definition wlRequested : WakeLock :=
  default (initial true) (run (initial true) [CallSetLogCallback; CallAcquire]).

End ScreenWakeLock.

(** * Properties *)

(** ** [stopTest] in closed form *)

(** The [forEach] of [stopTest] marks the registered thread objects and logs
    one line for each; the rest of the method touches neither. *)
Lemma markAll_length l ts : length (markAll l ts) = length ts.
Proof.
  revert ts. induction l as [|r l IH]; intros ts; [reflexivity|].
  change (markAll (r :: l) ts) with (markAll l (alter mark r ts)).
  rewrite IH. apply length_alter.
Qed.

Lemma alter_mark_id (ts : list TestThread) r r' :
  id <$> (alter mark r ts !! r') = id <$> (ts !! r').
Proof.
  destruct (decide (r = r')) as [->|Hne].
  - rewrite list_lookup_alter_eq. destruct (ts !! r'); reflexivity.
  - rewrite list_lookup_alter_ne by done. reflexivity.
Qed.

Lemma stoppedLines_alter ts r l :
  stoppedLines (alter mark r ts) l = stoppedLines ts l.
Proof.
  unfold stoppedLines. induction l as [|r' l IH]; [reflexivity|].
  cbn [flat_map]. rewrite IH. f_equal.
  destruct (decide (r = r')) as [->|Hne].
  - rewrite list_lookup_alter_eq. destruct (ts !! r'); reflexivity.
  - rewrite list_lookup_alter_ne by done. reflexivity.
Qed.

Lemma alter_absent {A} (f : A -> A) (l : list A) (i : nat) :
  l !! i = None -> alter f i l = l.
Proof.
  intros H. apply list_eq. intros j. rewrite list_lookup_alter.
  case_decide; subst; [rewrite H|]; reflexivity.
Qed.

Lemma stoppedLines_cons ts r l :
  stoppedLines ts (r :: l) = stoppedLines ts [r] ++ stoppedLines ts l.
Proof. unfold stoppedLines. cbn [flat_map]. rewrite app_nil_r. reflexivity. Qed.

(** One turn of the [forEach]. *)
Lemma stopThread_eq (s : Tester) (r : loc) :
  stopThread s r =
    set_testLog (testLog s ++ stoppedLines (threads s) [r])
                (set_threads (alter mark r (threads s)) s).
Proof.
  unfold stopThread, stoppedLines. cbn [flat_map].
  destruct (threads s !! r) as [th|] eqn:E.
  - reflexivity.
  - rewrite alter_absent by exact E.
    destruct s. cbn. rewrite app_nil_r. reflexivity.
Qed.

(** The whole [forEach]. *)
Lemma foldl_stopThread (l : list loc) (s : Tester) :
  foldl stopThread s l =
    set_testLog (testLog s ++ stoppedLines (threads s) l)
                (set_threads (markAll l (threads s)) s).
Proof.
  revert s. induction l as [|r l IH]; intros s.
  - destruct s. cbn. rewrite app_nil_r. reflexivity.
  - cbn [foldl]. rewrite IH, stopThread_eq.
    change (markAll (r :: l) (threads s)) with (markAll l (alter mark r (threads s))).
    rewrite (stoppedLines_cons _ r l).
    cbn [threads testLog set_testLog set_threads].
    rewrite stoppedLines_alter, <- app_assoc. reflexivity.
Qed.

(** [stopTest] as one update of the state it is called in. *)
Lemma stopTest_eq (now : Z) (s : Tester) :
  stopTest now s =
    if negb (isTesting s) then s
    else
      let s1 :=
        match updateTimer s with
        | Some t => set_updateTimer None (clearTimeout t (set_isTesting false s))
        | None => set_isTesting false s
        end in
      let s2 :=
        set_activeThreads []
          (set_testLog (testLog s ++ stoppedLines (threads s) (activeThreads s))
             (set_threads (markAll (activeThreads s) (threads s)) s1)) in
      let totalTime := (inject_Z (now - startTime s) / 1000)%Q in
      updateUIState false
        (log (LogStopped totalTime (avgSpeedOf (totalDownloaded s) totalTime)
                         (totalDownloaded s))
           (updateProgressUI (div (inject_Z (totalDownloaded s)) totalTime) s2)).
Proof.
  unfold stopTest. destruct (isTesting s); [|reflexivity]. cbn [negb].
  cbv zeta. change (updateTimer (set_isTesting false s)) with (updateTimer s).
  destruct (updateTimer s); rewrite foldl_stopThread; reflexivity.
Qed.

(** ** Properties kept by every event *)

(** A property that every method segment keeps is kept by the handlers, by
    the microtask checkpoint and so by every run of the event loop. *)
Section Preservation.
Variable allowed : Event -> Prop.
Variable P : Tester -> Prop.
Hypothesis P_startTest : forall f now s,
    allowed (StartClick f now) -> P s -> P (startTest f now s).
Hypothesis P_resume : forall sel p rand now rest s,
    P s -> P (startTest_resume sel p rand now (set_acquiring rest s)).
Hypothesis P_stopTest : forall now s, P s -> P (stopTest now s).
Hypothesis P_fetched : forall r o now s, P s -> P (downloadFile_fetched r o now s).
Hypothesis P_read : forall r o now s, P s -> P (readStream_read r o now s).
Hypothesis P_update : forall t now s, P s -> P (update now (clearTimeout t s)).
Hypothesis P_reconnect : forall t r rand now s,
    P s -> P (reconnectIfTesting r rand now (clearTimeout t s)).

Lemma dispatch_preserves s e s' :
  allowed e -> P s -> dispatch e s = Some s' -> P s'.
Proof using All.
  intros Ha HP. destruct e; cbn [dispatch]; intros H.
  - inversion H; subst. auto.
  - destruct (acquiring s) as [|[sel p] rest]; inversion H; subst. auto.
  - inversion H; subst. auto.
  - destruct (awaiting AwaitFetch s thread); inversion H; subst. auto.
  - destruct (awaiting AwaitRead s thread); inversion H; subst. auto.
  - destruct (timeouts s !! timer) as [tm|]; inversion H; subst.
    destruct (callback tm); auto.
Qed.

Lemma deliverAbort_preserves r now s : P s -> P (deliverAbort r now s).
Proof using P_fetched P_read.
  intros HP. unfold deliverAbort.
  destruct (threads s !! r) as [th|]; [|exact HP].
  destruct (task th); auto.
Qed.

Lemma microtasks_preserves fuel now s : P s -> P (microtasks fuel now s).
Proof using P_fetched P_read.
  revert s. induction fuel as [|fuel IH]; intros s HP; [exact HP|].
  cbn [microtasks]. destruct (findCancelled 0 (threads s)); [|exact HP].
  apply IH, deliverAbort_preserves, HP.
Qed.

Lemma step_preserves s e s' : allowed e -> P s -> step s e = Some s' -> P s'.
Proof using All.
  unfold step. intros Ha HP H.
  destruct (dispatch e s) as [s1|] eqn:E; inversion H; subst.
  apply microtasks_preserves. eapply dispatch_preserves; eauto.
Qed.

Lemma run_preserves es s s' :
  Forall allowed es -> P s -> run s es = Some s' -> P s'.
Proof using All.
  revert s. induction es as [|e es IH]; intros s Ha HP H; cbn [run] in H.
  - inversion H; subst. exact HP.
  - destruct (step s e) as [s1|] eqn:E; [|discriminate].
    inversion Ha; subst.
    eapply IH; [assumption| |exact H]. eapply step_preserves; eauto.
Qed.
End Preservation.

(** The [for] loop of [startTest] as one update. *)
Lemma createThreads_eq n baseUrl rand now s :
  createThreads n baseUrl rand now s =
    set_activeThreads (activeThreads s ++ seq (length (threads s)) n)
      (set_threads (threads s ++ (newThread baseUrl rand now <$> seq 0 n)) s).
Proof.
  unfold createThreads. induction n as [|n IH].
  - destruct s. cbn. rewrite !app_nil_r. reflexivity.
  - rewrite !seq_S, foldl_app, IH, fmap_app. cbn [foldl fmap list_fmap].
    unfold createTestThread.
    cbn [threads activeThreads set_threads set_activeThreads].
    rewrite length_app, length_fmap, length_seq, <- !app_assoc. reflexivity.
Qed.

(** ** Tactics *)

(** [fields] reads a field through the setters; [unfold_methods] opens the
    method bodies and [split_cases] follows their branches. *)
Ltac fields :=
  cbn [activeThreads isTesting totalDownloaded targetTrafficBytes startTime lastUpdateTime lastDownloaded speedHistory updateTimer threads timeouts nextTimeoutId acquiring display testLog set_activeThreads set_isTesting set_totalDownloaded set_targetTrafficBytes set_startTime set_lastUpdateTime set_lastDownloaded set_speedHistory set_updateTimer set_threads set_timeouts set_nextTimeoutId set_acquiring set_display set_testLog updThread log clearTimeout updateUIState updateProgressUI fst snd].
Tactic Notation "fields" "in" hyp(H) :=
  cbn [activeThreads isTesting totalDownloaded targetTrafficBytes startTime lastUpdateTime lastDownloaded speedHistory updateTimer threads timeouts nextTimeoutId acquiring display testLog set_activeThreads set_isTesting set_totalDownloaded set_targetTrafficBytes set_startTime set_lastUpdateTime set_lastDownloaded set_speedHistory set_updateTimer set_threads set_timeouts set_nextTimeoutId set_acquiring set_display set_testLog updThread log clearTimeout updateUIState updateProgressUI fst snd] in H.

Ltac unfold_methods :=
  unfold startTest_resume, startTest, readStream_read, downloadFile_fetched,
    downloadFile_catch, checkAllThreadsCompleted, readStream_loop,
    reconnectIfTesting, reconnectThread, update, updateProgress in *;
  cbv zeta in *;
  rewrite ?stopTest_eq, ?createThreads_eq in *;
  cbv zeta in *;
  unfold updateProgressUI, updateUIState, createTestThread, log, setTimeout,
    clearTimeout, updThread in *.

Ltac split_cases :=
  repeat first
    [ rewrite stopTest_eq
    | rewrite createThreads_eq
    | progress cbv zeta
    | match goal with
      | |- context [match ?x with _ => _ end] =>
          lazymatch x with
          | context [match _ with _ => _ end] => fail
          | _ => destruct x eqn:?
          end
      end ].

(** ** The speed history stays within its window *)

Lemma pushSample_length x h :
  (length h <= speedSmoothingWindow)%nat ->
  (length (pushSample x h) <= speedSmoothingWindow)%nat.
Proof.
  unfold pushSample, speedSmoothingWindow. intros H.
  destruct (Nat.ltb_spec 10 (length (h ++ [x]))) as [L|L]; [|exact L].
  rewrite length_app in L. cbn in L.
  destruct h as [|y h]; cbn in *; [lia|]. rewrite length_app. cbn. lia.
Qed.

Lemma historyBounded_step s e s' :
  historyBounded s -> step s e = Some s' -> historyBounded s'.
Proof.
  apply (step_preserves (fun _ => True)); [| | | | | | |exact I];
    unfold historyBounded; intros.
  all: unfold_methods; cbv zeta; split_cases; cbn; auto using pushSample_length.
  all: try (unfold speedSmoothingWindow; lia).
Qed.

(** ** The microtask checkpoint *)

(** Once the session is stopped, the continuation of an aborted thread only
    ends its task, so the checkpoint amounts to [settleCancelled] on every
    thread object; when nothing is cancelled it does nothing. *)
Lemma set_threads_same s : set_threads (threads s) s = s.
Proof. destruct s; reflexivity. Qed.

Lemma updThread_same r f s :
  (forall th, threads s !! r = Some th -> f th = th) -> updThread r f s = s.
Proof.
  intros H. unfold updThread.
  replace (alter f r (threads s)) with (threads s); [apply set_threads_same|].
  apply list_eq. intros j. rewrite list_lookup_alter.
  case_decide; subst; [|reflexivity].
  destruct (threads s !! j) as [th|] eqn:E; [|reflexivity].
  cbn. rewrite (H th); reflexivity.
Qed.

Lemma deliverAbort_idle r now s :
  isTesting s = false -> deliverAbort r now s = updThread r settle s.
Proof.
  intros Hs. unfold deliverAbort.
  destruct (threads s !! r) as [th|] eqn:E.
  - unfold settle. destruct (task th) eqn:Et.
    + unfold downloadFile_fetched, downloadFile_catch. rewrite E. cbn [err_name AbortError].
      cbn [String.eqb Ascii.eqb Bool.eqb negb].
      unfold checkAllThreadsCompleted, updThread.
      cbn [isTesting set_threads]. rewrite Hs, andb_false_r.
      f_equal. apply list_alter_ext; [|reflexivity].
      intros x Hx. rewrite E in Hx. inversion Hx; subst. rewrite Et. reflexivity.
    + unfold readStream_read. rewrite E. cbn [err_name AbortError].
      cbn [String.eqb Ascii.eqb Bool.eqb negb]. unfold updThread.
      f_equal. apply list_alter_ext; [|reflexivity].
      intros x Hx. rewrite E in Hx. inversion Hx; subst. rewrite Et. reflexivity.
    + symmetry. apply updThread_same. intros x Hx.
      rewrite E in Hx. inversion Hx; subst. rewrite Et. reflexivity.
    + symmetry. apply updThread_same. intros x Hx.
      rewrite E in Hx. inversion Hx; subst. rewrite Et. reflexivity.
  - symmetry. apply updThread_same. intros x Hx. congruence.
Qed.

Lemma findCancelled_None b l :
  findCancelled b l = None <-> Forall (fun th => cancelled th = false) l.
Proof.
  revert b. induction l as [|th l IH]; intros b; cbn [findCancelled].
  - split; [constructor|reflexivity].
  - destruct (cancelled th) eqn:E.
    + split; [discriminate|]. intros H. inversion H; congruence.
    + rewrite IH. split; [constructor; assumption|]. intros H. inversion H; assumption.
Qed.

Lemma findCancelled_Some b l r :
  findCancelled b l = Some r ->
  exists k th, r = (b + k)%nat /\ l !! k = Some th /\ cancelled th = true.
Proof.
  revert b. induction l as [|th l IH]; intros b; cbn [findCancelled]; [discriminate|].
  destruct (cancelled th) eqn:E.
  - intros H. inversion H; subst. exists 0%nat, th. split; [lia|]. split; [reflexivity|exact E].
  - intros H. destruct (IH _ H) as (k & th' & -> & Hk & Hc).
    exists (S k), th'. split; [lia|]. split; [exact Hk|exact Hc].
Qed.

Lemma settle_not_cancelled th : cancelled (settle th) = false.
Proof.
  unfold cancelled, settle. destruct (task th) eqn:E; cbn; rewrite ?E; cbn;
    apply andb_false_r.
Qed.

Lemma settleCancelled_settle th :
  cancelled th = true -> settleCancelled (settle th) = settleCancelled th.
Proof.
  intros H. unfold settleCancelled. rewrite settle_not_cancelled, H. reflexivity.
Qed.

Lemma pendingCancelled_alter l k th :
  l !! k = Some th -> cancelled th = true ->
  S (pendingCancelled (alter settle k l)) = pendingCancelled l.
Proof.
  unfold pendingCancelled. revert k. induction l as [|x l IH]; intros k Hk Hc; [discriminate|].
  destruct k as [|k]; cbn in Hk.
  - inversion Hk; subst.
    change (alter settle 0%nat (th :: l)) with (settle th :: l).
    cbn [List.filter]. rewrite settle_not_cancelled, Hc. reflexivity.
  - change (alter settle (S k) (x :: l)) with (x :: alter settle k l).
    cbn [List.filter]. destruct (cancelled x); cbn [length]; rewrite <- (IH k Hk Hc); reflexivity.
Qed.

Lemma fmap_settleCancelled_alter (l : list TestThread) (k : nat) th :
  l !! k = Some th -> cancelled th = true ->
  settleCancelled <$> alter settle k l = settleCancelled <$> l.
Proof.
  intros Hk Hc. apply list_eq. intros j.
  rewrite !list_lookup_fmap, list_lookup_alter.
  case_decide; subst; [|reflexivity].
  rewrite Hk. cbn. rewrite settleCancelled_settle by exact Hc. reflexivity.
Qed.

Lemma fmap_settleCancelled_none (l : list TestThread) :
  Forall (fun th => cancelled th = false) l -> settleCancelled <$> l = l.
Proof.
  intros H. induction H as [|x l Hx _ IH]; [reflexivity|].
  cbn. rewrite IH. unfold settleCancelled. rewrite Hx. reflexivity.
Qed.

(** The checkpoint after a stop, with enough rounds. *)
Lemma microtasks_idle fuel now s :
  isTesting s = false -> (pendingCancelled (threads s) <= fuel)%nat ->
  microtasks fuel now s = set_threads (settleCancelled <$> threads s) s.
Proof.
  revert s. induction fuel as [|fuel IH]; intros s Hs Hf.
  - cbn [microtasks]. rewrite fmap_settleCancelled_none; [destruct s; reflexivity|].
    unfold pendingCancelled in Hf.
    induction (threads s) as [|x l IHl]; [constructor|].
    cbn [List.filter] in Hf. destruct (cancelled x) eqn:E; [cbn in Hf; lia|].
    constructor; auto.
  - cbn [microtasks]. destruct (findCancelled 0 (threads s)) as [r|] eqn:E.
    + apply findCancelled_Some in E. destruct E as (k & th & -> & Hk & Hc).
      cbn [Nat.add]. rewrite deliverAbort_idle by exact Hs.
      rewrite IH.
      * unfold updThread. cbn [threads set_threads].
        rewrite (fmap_settleCancelled_alter _ _ th) by assumption.
        destruct s; reflexivity.
      * unfold updThread. destruct s; exact Hs.
      * unfold updThread. cbn [threads set_threads].
        pose proof (pendingCancelled_alter _ _ _ Hk Hc). destruct s; cbn in *. lia.
    + apply findCancelled_None in E. rewrite fmap_settleCancelled_none by exact E.
      destruct s; reflexivity.
Qed.

Lemma pendingCancelled_le l : (pendingCancelled l <= length l)%nat.
Proof.
  unfold pendingCancelled. induction l as [|x l IH]; cbn; [lia|].
  destruct (cancelled x); cbn; lia.
Qed.

(** The checkpoint when nothing was aborted. *)
Lemma microtasks_quiet fuel now s :
  Forall (fun th => cancelled th = false) (threads s) -> microtasks fuel now s = s.
Proof.
  intros H. destruct fuel; cbn [microtasks]; [reflexivity|].
  apply (findCancelled_None 0) in H. rewrite H. reflexivity.
Qed.

(** ** Between events no aborted thread is left suspended *)

Lemma settleCancelled_clean th : cancelled (settleCancelled th) = false.
Proof.
  unfold settleCancelled. destruct (cancelled th) eqn:E; [apply settle_not_cancelled|exact E].
Qed.

Lemma awaiting_true k s r :
  awaiting k s r = true ->
  exists th, threads s !! r = Some th /\ task th = k /\ aborted th = false.
Proof.
  unfold awaiting. destruct (threads s !! r) as [th|]; [|discriminate].
  intros H. apply andb_true_iff in H. destruct H as [H1 H2].
  apply bool_decide_eq_true in H1. apply negb_true_iff in H2. eauto.
Qed.

(** [look] resolves the lookups of thread objects among the hypotheses. *)
Ltac look :=
  repeat match goal with
    | H : context [alter _ ?r _ !! ?r] |- _ => rewrite list_lookup_alter_eq in H
    | H : ?l !! ?r = Some _, H' : context [?l !! ?r] |- _ => rewrite H in H'
    | H : _ <$> Some _ = Some _ |- _ => cbn in H
    | H : Some _ = Some _ |- _ => inversion H; clear H; subst
    | H : Some _ = None |- _ => discriminate H
    | H : None = Some _ |- _ => discriminate H
    end.

Lemma dispatch_noCancelled s e s1 :
  noCancelled s -> dispatch e s = Some s1 -> isTesting s1 = true -> noCancelled s1.
Proof.
  unfold noCancelled. intros HP H.
  destruct e; cbn [dispatch] in H.
  - inversion H; subst; clear H. unfold_methods. split_cases; cbn; auto.
  - destruct (acquiring s) as [|[sel p] rest]; inversion H; subst; clear H.
    unfold_methods. split_cases; cbn; intros _.
    all: apply Forall_app; split; [exact HP|].
    all: apply Forall_fmap, Forall_forall; intros; reflexivity.
  - inversion H; subst; clear H. rewrite stopTest_eq.
    destruct (isTesting s) eqn:E; cbn [negb]; [|auto].
    cbv zeta. destruct (updateTimer s); cbn; discriminate.
  - destruct (awaiting AwaitFetch s thread) eqn:G; inversion H; subst; clear H.
    apply awaiting_true in G. destruct G as (th & Hth & Htask & Hab).
    unfold_methods. rewrite Hth. split_cases; cbn; try discriminate; intros _.
    all: cbn in *; look.
    all: try (apply Forall_alter; [exact HP|]; intros x Hx _; look;
              unfold cancelled; cbn; rewrite ?Hab; reflexivity).
  - destruct (awaiting AwaitRead s thread) eqn:G; inversion H; subst; clear H.
    apply awaiting_true in G. destruct G as (th & Hth & Htask & Hab).
    unfold_methods. rewrite Hth. split_cases; cbn; try discriminate; intros _.
    all: cbn in *; look.
    all: repeat (apply Forall_alter; [|intros x Hx _; look;
              unfold cancelled; cbn; rewrite ?Hab; reflexivity]); try exact HP.
  - destruct (timeouts s !! timer) as [tm|]; inversion H; subst; clear H.
    destruct (callback tm); unfold_methods; split_cases; cbn; intros _; auto.
    apply Forall_app; split; [exact HP|]. repeat constructor.
Qed.

Lemma noCancelled_step s e s' :
  noCancelled s -> step s e = Some s' -> noCancelled s'.
Proof.
  unfold step. intros HP H.
  destruct (dispatch e s) as [s1|] eqn:E; inversion H; subst; clear H.
  destruct (isTesting s1) eqn:Et.
  - rewrite microtasks_quiet; eapply dispatch_noCancelled; eauto.
  - rewrite microtasks_idle by (exact Et || apply pendingCancelled_le).
    unfold noCancelled. cbn [threads set_threads].
    apply Forall_fmap, Forall_forall. intros th _. apply settleCancelled_clean.
Qed.

(** ** The budget is open while a session runs *)

Lemma Qle_bool_false (a b : Q) : Qle_bool a b = false <-> (b < a)%Q.
Proof.
  split; intros H.
  - apply Qnot_le_lt. intros H'. apply Qle_bool_iff in H'. congruence.
  - destruct (Qle_bool a b) eqn:E; [|reflexivity].
    apply Qle_bool_iff in E. exfalso. eapply Qlt_not_le; eauto.
Qed.

(** What [validateTestParams] has checked when it returns parameters. *)
Lemma validateTestParams_accepts (f : FormInputs) (p : TestParams) :
  validateTestParams f = inr p ->
  trafficLimitInput f = Some (trafficLimit p) /\
  trafficUnit p = trafficUnitSelect f /\
  threadCountInput f = Some (threadCount p) /\
  1 <= threadCount p <= 16 /\
  (0 < trafficLimit p)%Q.
Proof.
  unfold validateTestParams. intros H.
  repeat match type of H with
         | (if ?c then _ else _) = _ => destruct c eqn:?; try discriminate
         | match ?c with _ => _ end = _ => destruct c eqn:?; try discriminate
         | (let _ := _ in _) = _ => cbv zeta in H
         end.
  all: inversion H; subst; cbn.
  all: match goal with E : Qle_bool _ 0 = false |- _ => apply Qle_bool_false in E end.
  all: repeat split; auto; try lia.
Qed.

Lemma unitMultipliers_pos (u : TrafficUnit) : 2 ^ 20 <= unitMultipliers u.
Proof. destruct u; cbn; lia. Qed.

Lemma targetBytesOf_pos (p : TestParams) :
  (0 < trafficLimit p)%Q -> (0 < targetBytesOf p)%Q.
Proof.
  intros H. unfold targetBytesOf.
  apply Qmult_lt_0_compat; [exact H|].
  change 0%Q with (inject_Z 0). rewrite <- Zlt_Qlt.
  pose proof (unitMultipliers_pos (trafficUnit p)). lia.
Qed.

Lemma budgetOpen_step s e s' :
  budgetOpen s -> step s e = Some s' -> budgetOpen s'.
Proof.
  apply (step_preserves (fun _ => True)); [| | | | | | |exact I];
    unfold budgetOpen; intros.
  all: unfold_methods; split_cases; cbn; try (split; [tauto || lia|]);
    try discriminate; try tauto.
  all: intros; try congruence.
  all: try match goal with
         | E : Qle_bool _ _ = false |- _ => apply Qle_bool_false in E; exact E
         end.
  all: try match goal with
    | E : validateTestParams _ = inr _ |- _ =>
        apply targetBytesOf_pos; apply validateTestParams_accepts in E; tauto
    end.
  all: cbn in *;
    match goal with
    | H1 : isTesting ?s = true, H2 : negb (isTesting ?s) = true |- _ =>
        rewrite H1 in H2; discriminate
    end.
Qed.

(** ** Reachable states *)

Lemma wellFormed_initial : wellFormed initial.
Proof.
  split.
  - unfold historyBounded, speedSmoothingWindow. cbn. lia.
  - split; [reflexivity|discriminate].
  - constructor.
Qed.

Lemma wellFormed_step s e s' : wellFormed s -> step s e = Some s' -> wellFormed s'.
Proof.
  intros [H1 H2 H3] H. split;
    eauto using historyBounded_step, budgetOpen_step, noCancelled_step.
Qed.

Lemma wellFormed_run es s s' : wellFormed s -> run s es = Some s' -> wellFormed s'.
Proof.
  revert s. induction es as [|e es IH]; intros s HP H; cbn [run] in H.
  - inversion H; subst. exact HP.
  - destruct (step s e) as [s1|] eqn:E; [|discriminate].
    eapply IH; [|exact H]. eapply wellFormed_step; eauto.
Qed.

Lemma reachable_wellFormed es s : run initial es = Some s -> wellFormed s.
Proof. apply wellFormed_run, wellFormed_initial. Qed.

(** ** The traffic display *)

(** Divisions by the constants of the code, as fractions. *)
Lemma inv_k : (/ 1024 == 1 # 1024)%Q. Proof. reflexivity. Qed.
Lemma inv_kk : (/ (1024 * 1024) == 1 # 1048576)%Q. Proof. reflexivity. Qed.
Lemma inv_1000 : (/ 1000 == 1 # 1000)%Q. Proof. reflexivity. Qed.

Ltac qconst :=
  unfold Qdiv in *;
  repeat match goal with
    | H : context [(/ 1024)%Q] |- _ => rewrite inv_k in H
    | H : context [(/ (1024 * 1024))%Q] |- _ => rewrite inv_kk in H
    | H : context [(/ 1000)%Q] |- _ => rewrite inv_1000 in H
    | |- context [(/ 1024)%Q] => rewrite inv_k
    | |- context [(/ (1024 * 1024))%Q] => rewrite inv_kk
    | |- context [(/ 1000)%Q] => rewrite inv_1000
    end.

Lemma Qle_bool_spec (a b : Q) : reflect (a <= b)%Q (Qle_bool a b).
Proof.
  destruct (Qle_bool a b) eqn:E; constructor.
  - apply Qle_bool_iff, E.
  - intros H. apply Qle_bool_iff in H. congruence.
Qed.

(** The two loop tests of [formatTrafficDisplay], on the byte count. *)
Lemma above_1024_MB (b : Z) :
  Qle_bool 1024 (inject_Z b / (1024 * 1024)) = (2 ^ 30 <=? b).
Proof.
  assert (Hb : (inject_Z (2 ^ 30) <= inject_Z b)%Q <-> 2 ^ 30 <= b)
    by (rewrite <- Zle_Qle; reflexivity).
  change (inject_Z (2 ^ 30)) with 1073741824%Q in Hb.
  destruct (Qle_bool_spec 1024 (inject_Z b / (1024 * 1024))) as [H|H];
    destruct (Z.leb_spec (2 ^ 30) b) as [L|L]; try reflexivity; exfalso; qconst.
  - assert (~ (1073741824 <= inject_Z b)%Q) by (rewrite Hb; lia). lra.
  - apply Hb in L. lra.
Qed.

Lemma above_1024_GB (b : Z) :
  Qle_bool 1024 (inject_Z b / (1024 * 1024) / 1024) = (2 ^ 40 <=? b).
Proof.
  assert (Hb : (inject_Z (2 ^ 40) <= inject_Z b)%Q <-> 2 ^ 40 <= b)
    by (rewrite <- Zle_Qle; reflexivity).
  change (inject_Z (2 ^ 40)) with 1099511627776%Q in Hb.
  destruct (Qle_bool_spec 1024 (inject_Z b / (1024 * 1024) / 1024)) as [H|H];
    destruct (Z.leb_spec (2 ^ 40) b) as [L|L]; try reflexivity; exfalso; qconst.
  - assert (~ (1099511627776 <= inject_Z b)%Q) by (rewrite Hb; lia). lra.
  - apply Hb in L. lra.
Qed.

(** [formatTrafficDisplay] with its loop unrolled. *)
Lemma formatTrafficDisplay_unfold (bytes : Z) :
  formatTrafficDisplay bytes =
    if bytes =? 0 then (0%Q, MB)
    else if 2 ^ 30 <=? bytes then
      if 2 ^ 40 <=? bytes
      then ((inject_Z bytes / (1024 * 1024) / 1024 / 1024)%Q, TB)
      else ((inject_Z bytes / (1024 * 1024) / 1024)%Q, GB)
    else ((inject_Z bytes / (1024 * 1024))%Q, MB).
Proof.
  unfold formatTrafficDisplay. destruct (bytes =? 0); [reflexivity|].
  cbn [scaleUp]. rewrite above_1024_MB, above_1024_GB. reflexivity.
Qed.

Lemma formatTrafficDisplay_cases (bytes : Z) :
  let '(value, unit) := formatTrafficDisplay bytes in
  (value * inject_Z (unitMultipliers unit) == inject_Z bytes)%Q /\
  (unit = MB <-> bytes < 2 ^ 30) /\
  (unit = GB <-> 2 ^ 30 <= bytes < 2 ^ 40) /\
  (unit = TB <-> 2 ^ 40 <= bytes) /\
  (bytes < 2 ^ 50 -> (value < 1024)%Q) /\
  (2 ^ 50 <= bytes -> unit = TB /\ (1024 <= value)%Q).
Proof.
  assert (Hd : (inject_Z bytes < inject_Z (2 ^ 50))%Q <-> bytes < 2 ^ 50)
    by (rewrite <- Zlt_Qlt; reflexivity).
  assert (Hc : (inject_Z bytes < inject_Z (2 ^ 40))%Q <-> bytes < 2 ^ 40)
    by (rewrite <- Zlt_Qlt; reflexivity).
  assert (Hb : (inject_Z bytes < inject_Z (2 ^ 30))%Q <-> bytes < 2 ^ 30)
    by (rewrite <- Zlt_Qlt; reflexivity).
  change (inject_Z (2 ^ 50)) with 1125899906842624%Q in Hd.
  change (inject_Z (2 ^ 40)) with 1099511627776%Q in Hc.
  change (inject_Z (2 ^ 30)) with 1073741824%Q in Hb.
  rewrite formatTrafficDisplay_unfold.
  destruct (Z.eqb_spec bytes 0) as [->|Hne];
    [|destruct (Z.leb_spec (2 ^ 30) bytes) as [L1|L1];
      [destruct (Z.leb_spec (2 ^ 40) bytes) as [L2|L2]|]];
    cbn [unitMultipliers];
    change (inject_Z (1024*1024*1024*1024)) with 1099511627776%Q;
    change (inject_Z (1024*1024*1024)) with 1073741824%Q;
    change (inject_Z (1024*1024)) with 1048576%Q;
    (split; [first [reflexivity | qconst; lra]|]);
    (split; [split; [intros; try discriminate; lia | intros; try reflexivity; lia]|]);
    (split; [split; [intros; try discriminate; lia | intros; try reflexivity; lia]|]);
    (split; [split; [intros; try discriminate; lia | intros; try reflexivity; lia]|]);
    (split; [intros L; apply Hd in L; qconst; try lra
            |intros L; split; [reflexivity || lia|]]).
  all: try (assert (L' : bytes < 2 ^ 30) by lia; apply Hb in L'; lra).
  all: try (assert (L' : bytes < 2 ^ 40) by lia; apply Hc in L'; lra).
  all: try lia.
  assert (~ (inject_Z bytes < 1125899906842624)%Q) by (rewrite Hd; lia).
  qconst. lra.
Qed.

(** C9, counterexample. The loop of [formatTrafficDisplay] ends at the last
    unit: 2^50 bytes are displayed as 1024.00 TB, a magnitude that is not
    below 1024. *)
Lemma formatTrafficDisplay_unbounded_at_TB :
  snd (formatTrafficDisplay (2 ^ 50)) = TB /\
  (fst (formatTrafficDisplay (2 ^ 50)) == 1024)%Q /\
  ~ (fst (formatTrafficDisplay (2 ^ 50)) < 1024)%Q /\
  trafficUsedText (2 ^ 50) = "1024.00 TB"%string.
Proof.
  split; [reflexivity|]. split; [reflexivity|]. split; [|vm_compute; reflexivity].
  intros H. vm_compute in H. discriminate.
Qed.

Lemma Qfloor_lt_iff (x : Q) (m : Z) : Qfloor x < m <-> (x < inject_Z m)%Q.
Proof.
  pose proof (Qfloor_le x) as H1. pose proof (Qlt_floor x) as H2. split.
  - intros L. eapply Qlt_le_trans; [exact H2|]. rewrite <- Zle_Qle. lia.
  - intros L. rewrite Zlt_Qlt. eapply Qle_lt_trans; eauto.
Qed.

(** The text of [toFixed] for a number that is not negative. *)
Lemma toFixed_rounded (d : nat) (x : Q) :
  (0 <= x)%Q ->
  toFixed (S d) x =
    (dec (rounded (S d) x / 10 ^ Z.of_nat (S d)) ++ "." ++
     zeros (S d - String.length (dec (rounded (S d) x mod 10 ^ Z.of_nat (S d)))) ++
     dec (rounded (S d) x mod 10 ^ Z.of_nat (S d)))%string.
Proof.
  intros Hx. unfold toFixed, rounded. cbv zeta.
  assert (Hle : Qle_bool 0 x = true) by (apply Qle_bool_iff, Hx).
  rewrite Hle. reflexivity.
Qed.

(** When the rounded magnitude stays below 1024.00. *)
Lemma rounded_below (v : Q) :
  (0 <= v)%Q -> (rounded 2 v < 102400 <-> (v < 1023995 # 1000)%Q).
Proof.
  intros Hv. unfold rounded. rewrite Qfloor_lt_iff, Qabs_pos by exact Hv.
  change (inject_Z (10 ^ Z.of_nat 2)) with 100%Q.
  change (inject_Z 102400) with 102400%Q. split; intros H; lra.
Qed.

(** C9, amended. [formatTrafficDisplay] returns the byte count divided by
    the multiplier of the unit it picks: MB below 2^30 bytes, GB from 2^30
    up to 2^40 bytes and TB from 2^40 bytes on, so that 1024 of a unit
    steps up to the next one.  The magnitude it returns is below 1024 for
    every byte count below 2^50; from 2^50 bytes on the unit stays TB and
    the magnitude is 1024 or more.  [updateProgressUI] prints the magnitude
    rounded to two decimals, so the magnitude the page shows is below
    1024.00 exactly for the byte counts below 1073736582, from 2^30 up to
    1099506259066 and from 2^40 up to 1125894409284485: within 0.005 of a
    unit below a boundary, and from 2^50 bytes on, the page shows 1024.00
    or more.  1,048,576 bytes are displayed as 1.00 MB and 1,073,741,824
    bytes as 1.00 GB; 1,073,736,581 bytes as 1023.99 MB and one byte more
    as 1024.00 MB. *)
Theorem formatTrafficDisplay_scaled (bytes : Z) :
  ((fst (formatTrafficDisplay bytes)
     * inject_Z (unitMultipliers (snd (formatTrafficDisplay bytes)))
    == inject_Z bytes)%Q /\
   (snd (formatTrafficDisplay bytes) = MB <-> bytes < 2 ^ 30) /\
   (snd (formatTrafficDisplay bytes) = GB <-> 2 ^ 30 <= bytes < 2 ^ 40) /\
   (snd (formatTrafficDisplay bytes) = TB <-> 2 ^ 40 <= bytes) /\
   (bytes < 2 ^ 50 -> (fst (formatTrafficDisplay bytes) < 1024)%Q) /\
   (2 ^ 50 <= bytes ->
    snd (formatTrafficDisplay bytes) = TB /\
    (1024 <= fst (formatTrafficDisplay bytes))%Q)) /\
  (0 <= bytes ->
   let n := rounded 2 (fst (formatTrafficDisplay bytes)) in
   trafficUsedText bytes =
     ((dec (n / 100) ++ "." ++ zeros (2 - String.length (dec (n mod 100)))
         ++ dec (n mod 100))
        ++ " " ++ unitName (snd (formatTrafficDisplay bytes)))%string /\
   (n < 102400 <->
    bytes < 1073736582 \/ 2 ^ 30 <= bytes < 1099506259067 \/
    2 ^ 40 <= bytes < 1125894409284486)) /\
  (formatTrafficDisplay 1048576 = (1048576 / (1024 * 1024), MB)%Q /\
   (1048576 / (1024 * 1024) == 1)%Q /\
   trafficUsedText 1048576 = "1.00 MB"%string) /\
  (snd (formatTrafficDisplay 1073741824) = GB /\
   (fst (formatTrafficDisplay 1073741824) == 1)%Q /\
   trafficUsedText 1073741824 = "1.00 GB"%string) /\
  (trafficUsedText 1073736581 = "1023.99 MB"%string /\
   trafficUsedText 1073736582 = "1024.00 MB"%string /\
   trafficUsedText 1073741823 = "1024.00 MB"%string).
Proof.
  split.
  { pose proof (formatTrafficDisplay_cases bytes) as H.
    destruct (formatTrafficDisplay bytes) as [value unit]. exact H. }
  split.
  { intros Hb. cbv zeta.
    assert (Q0 : (0 <= inject_Z bytes)%Q).
    { change 0%Q with (inject_Z 0). rewrite <- Zle_Qle. exact Hb. }
    assert (In : forall m, (inject_Z bytes < inject_Z m)%Q <-> bytes < m).
    { intros m. rewrite <- Zlt_Qlt. reflexivity. }
    pose proof (In 1073736582) as T1. pose proof (In 1099506259067) as T2.
    pose proof (In 1125894409284486) as T3.
    change (inject_Z 1073736582) with 1073736582%Q in T1.
    change (inject_Z 1099506259067) with 1099506259067%Q in T2.
    change (inject_Z 1125894409284486) with 1125894409284486%Q in T3.
    assert (Hv : (0 <= fst (formatTrafficDisplay bytes))%Q).
    { rewrite formatTrafficDisplay_unfold.
      destruct (bytes =? 0); [apply Qle_refl|].
      destruct (2 ^ 30 <=? bytes); [destruct (2 ^ 40 <=? bytes)|];
        cbn [fst]; qconst; lra. }
    split.
    { unfold trafficUsedText.
      destruct (formatTrafficDisplay bytes) as [value unit] eqn:E. cbn [fst snd] in *.
      rewrite (toFixed_rounded 1 value Hv).
      reflexivity. }
    rewrite (rounded_below _ Hv). rewrite formatTrafficDisplay_unfold.
    destruct (Z.eqb_spec bytes 0) as [->|Hne].
    { cbn [fst]. split; [intros _; left; lia|intros _; reflexivity]. }
    destruct (Z.leb_spec (2 ^ 30) bytes) as [L1|L1];
      [destruct (Z.leb_spec (2 ^ 40) bytes) as [L2|L2]|]; cbn [fst].
    - split.
      + intros H. right. right. split; [exact L2|]. apply T3. qconst. lra.
      + intros [H|[H|[_ H]]]; try lia.
        assert (B : (inject_Z bytes <= inject_Z 1125894409284485)%Q)
          by (rewrite <- Zle_Qle; lia).
        change (inject_Z 1125894409284485) with 1125894409284485%Q in B. qconst. lra.
    - split.
      + intros H. right. left. split; [exact L1|]. apply T2. qconst. lra.
      + intros [H|[[_ H]|H]]; try lia.
        assert (B : (inject_Z bytes <= inject_Z 1099506259066)%Q)
          by (rewrite <- Zle_Qle; lia).
        change (inject_Z 1099506259066) with 1099506259066%Q in B. qconst. lra.
    - split.
      + intros H. left. apply T1. qconst. lra.
      + intros [H|[H|H]]; try lia.
        assert (B : (inject_Z bytes <= inject_Z 1073736581)%Q)
          by (rewrite <- Zle_Qle; lia).
        change (inject_Z 1073736581) with 1073736581%Q in B. qconst. lra. }
  split; [|split].
  - split; [reflexivity|]. split; [reflexivity | vm_compute; reflexivity].
  - split; [reflexivity|]. split; [reflexivity | vm_compute; reflexivity].
  - repeat split; vm_compute; reflexivity.
Qed.

(** ** The target budget *)

(** The multipliers as powers of two. *)
Lemma unitMultipliers_pow (u : TrafficUnit) :
  unitMultipliers u = match u with MB => 2 ^ 20 | GB => 2 ^ 30 | TB => 2 ^ 40 end.
Proof. destruct u; reflexivity. Qed.

(** C8, amended. For a form that validation accepts and whose limit times
    the multiplier of its unit does not exceed [Number.MAX_VALUE] (the
    product of the two doubles is then exact), the budget [startTest]
    stores is the limit multiplied by 2^20 for MB, 2^30 for GB or 2^40 for
    TB, and it is strictly positive; when the limit is a whole number the
    budget is an integer and at least 1. *)
Theorem startTest_budget_positive (f : FormInputs) (p : TestParams) (now : Z) (s : Tester) :
  validateTestParams f = inr p -> isTesting s = false ->
  (trafficLimit p * inject_Z (unitMultipliers (trafficUnit p)) <= maxValue)%Q ->
  trafficLimitInput f = Some (trafficLimit p) /\
  targetTrafficBytes (startTest f now s) =
    (trafficLimit p * inject_Z (match trafficUnitSelect f with
                                | MB => 2 ^ 20 | GB => 2 ^ 30 | TB => 2 ^ 40 end))%Q /\
  (0 < targetTrafficBytes (startTest f now s))%Q /\
  (targetTrafficBytes (startTest f now s) <= maxValue)%Q /\
  (isInteger (trafficLimit p) ->
   isInteger (targetTrafficBytes (startTest f now s)) /\
   (1 <= targetTrafficBytes (startTest f now s))%Q).
Proof.
  intros Hv Hs Hmax. destruct (validateTestParams_accepts f p Hv) as (Hl & Hu & _ & _ & Hpos).
  assert (Ht : targetTrafficBytes (startTest f now s) = targetBytesOf p).
  { unfold startTest. rewrite Hs, Hv. reflexivity. }
  rewrite Ht. split; [exact Hl|]. split.
  { unfold targetBytesOf. rewrite unitMultipliers_pow, Hu. reflexivity. }
  split; [apply targetBytesOf_pos, Hpos|].
  split; [exact Hmax|].
  intros [z Hz]. unfold targetBytesOf. split.
  - exists (z * unitMultipliers (trafficUnit p)). rewrite Hz, inject_Z_mult. reflexivity.
  - rewrite Hz in Hpos. rewrite Hz, <- inject_Z_mult.
    change 1%Q with (inject_Z 1). rewrite <- Zle_Qle.
    change 0%Q with (inject_Z 0) in Hpos. rewrite <- Zlt_Qlt in Hpos.
    pose proof (unitMultipliers_pos (trafficUnit p)). nia.
Qed.

(** A budget of 1.5 GB. *)
Lemma startTest_budget_positive_witness :
  (targetTrafficBytes (startTest (form "cn1" 4 (3 # 2) GB) 1000 initial)
     == 1610612736)%Q /\
  (0 < targetTrafficBytes (startTest (form "cn1" 4 (3 # 2) GB) 1000 initial))%Q.
Proof.
  destruct (startTest_budget_positive (form "cn1" 4 (3 # 2) GB)
              (mkTestParams
                 "https://issuecdn.baidupcs.com/issue/netdisk/apk/BaiduNetdisk_11.44.3.apk"
                 4 (3 # 2) GB) 1000 initial)
    as (_ & H1 & H2 & _);
    [vm_compute; reflexivity | reflexivity | vm_compute; discriminate |].
  split; [rewrite H1; reflexivity | exact H2].
Defined.

(** C8, counterexample. A limit of 0.0000001 MB passes validation and the
    session starts with a budget of 0.1048576 bytes, which is neither an
    integer nor at least 1. *)
Lemma fractional_budget_accepted :
  isTesting (startTest tinyForm 0 initial) = true /\
  (targetTrafficBytes (startTest tinyForm 0 initial) == 1048576 # 10000000)%Q /\
  ~ (1 <= targetTrafficBytes (startTest tinyForm 0 initial))%Q /\
  ~ isInteger (targetTrafficBytes (startTest tinyForm 0 initial)).
Proof.
  split; [reflexivity|]. split; [reflexivity|]. split.
  - intros H. vm_compute in H. apply H. reflexivity.
  - intros [z Hz].
    change (targetTrafficBytes (startTest tinyForm 0 initial))
      with (1048576 # 10000000)%Q in Hz.
    unfold Qeq in Hz. cbn [Qnum Qden inject_Z] in Hz. lia.
Qed.

(** ** The stop at the budget *)

Lemma mark_idem t : mark (mark t) = mark t.
Proof. reflexivity. Qed.

Lemma markAll_lookup_in (l : list nat) (ts : list TestThread) (r : nat) :
  r ∈ l -> markAll l ts !! r = mark <$> ts !! r.
Proof.
  revert ts. induction l as [|a l IH]; intros ts Hin; [inversion Hin|].
  change (markAll (a :: l) ts) with (markAll l (alter mark a ts)).
  destruct (decide (r ∈ l)) as [Hl|Hl].
  - rewrite IH by exact Hl. rewrite list_lookup_alter.
    case_decide; subst; [|reflexivity].
    destruct (ts !! r); reflexivity.
  - assert (r = a) as -> by (inversion Hin; subst; tauto).
    clear Hin IH. revert ts. induction l as [|b l IH]; intros ts.
    + cbn. apply list_lookup_alter_eq.
    + change (markAll (b :: l) (alter mark a ts))
        with (markAll l (alter mark b (alter mark a ts))).
      assert (a <> b) by (intros ->; apply Hl; left).
      rewrite list_alter_alter_ne by congruence.
      rewrite IH by (intros ?; apply Hl; right; assumption).
      rewrite list_lookup_alter_ne by congruence. reflexivity.
Qed.

Lemma markAll_lookup_notin (l : list nat) (ts : list TestThread) (r : nat) :
  r ∉ l -> markAll l ts !! r = ts !! r.
Proof.
  revert ts. induction l as [|a l IH]; intros ts Hin; [reflexivity|].
  change (markAll (a :: l) ts) with (markAll l (alter mark a ts)).
  rewrite IH by (intros ?; apply Hin; right; assumption).
  apply list_lookup_alter_ne. intros ->. apply Hin. left.
Qed.

Lemma not_cancelled_aborted th :
  cancelled th = false -> aborted th = true ->
  task th <> AwaitFetch /\ task th <> AwaitRead.
Proof.
  unfold cancelled. intros H Ha. rewrite Ha in H. cbn in H.
  apply orb_false_iff in H. destruct H as [H1 H2].
  apply bool_decide_eq_false in H1, H2. tauto.
Qed.

Lemma settleCancelled_fields th :
  id (settleCancelled th) = id th /\
  url (settleCancelled th) = url th /\
  aborted (settleCancelled th) = aborted th /\
  downloaded (settleCancelled th) = downloaded th /\
  (isActive th = false -> isActive (settleCancelled th) = false).
Proof.
  unfold settleCancelled, settle.
  destruct (cancelled th); destruct (task th); cbn; tauto.
Qed.

(** [readStream] on a chunk. *)
Lemma readStream_read_chunk s r th n now :
  threads s !! r = Some th ->
  readStream_read r (Chunk n) now s =
    let s1 := set_totalDownloaded (totalDownloaded s + Z.of_N n)
                (updThread r (fun t => set_downloaded (downloaded t + Z.of_N n) t) s) in
    if Qle_bool (targetTrafficBytes s) (inject_Z (totalDownloaded s + Z.of_N n))
    then updThread r (set_task Returned)
           (log (LogTargetReached (targetTrafficBytes (stopTest now s1)))
                (stopTest now s1))
    else readStream_loop r s1.
Proof. intros H. unfold readStream_read. rewrite H. reflexivity. Qed.

(** The stop at the budget, as far as the registered threads go.  In a
    running session, the step that handles a chunk adds its [byteLength]
    to [totalDownloaded].  If the total has then reached
    [targetTrafficBytes], the same step has ended the session: [isTesting]
    is false, [activeThreads] is empty, the update timer is cleared and
    every thread that was registered is aborted, inactive and no longer
    suspended; right after the step the total is below the budget plus the
    size of that chunk.  If the total is still below the budget the
    session keeps running. *)
Theorem budget_stop_is_synchronous es s r n now s' :
  run initial es = Some s ->
  isTesting s = true ->
  step s (ReadSettled r (Chunk n) now) = Some s' ->
  totalDownloaded s' = totalDownloaded s + Z.of_N n /\
  ((targetTrafficBytes s <= inject_Z (totalDownloaded s'))%Q ->
   isTesting s' = false /\
   activeThreads s' = [] /\
   updateTimer s' = None /\
   (forall r' th, r' ∈ activeThreads s -> threads s !! r' = Some th ->
      exists th', threads s' !! r' = Some th' /\
                  aborted th' = true /\ isActive th' = false /\
                  task th' <> AwaitFetch /\ task th' <> AwaitRead) /\
   (inject_Z (totalDownloaded s')
      < targetTrafficBytes s + inject_Z (Z.of_N n))%Q) /\
  ((inject_Z (totalDownloaded s') < targetTrafficBytes s)%Q ->
   isTesting s' = true).
Proof.
  intros Hrun Hs Hstep. apply reachable_wellFormed in Hrun.
  destruct Hrun as [_ [Hnn Hopen] Hclean]. specialize (Hopen Hs).
  unfold step in Hstep. destruct (dispatch _ s) as [s1|] eqn:Hd; [|discriminate].
  inversion Hstep; subst; clear Hstep. cbn [eventTime].
  pose proof (dispatch_noCancelled _ _ _ Hclean Hd) as Hq.
  cbn [dispatch] in Hd. destruct (awaiting AwaitRead s r) eqn:G; [|discriminate].
  apply awaiting_true in G. destruct G as (th0 & Hth0 & Htask0 & Hab0).
  assert (Hs1 : s1 = readStream_read r (Chunk n) now s) by congruence.
  clear Hd.
  rewrite (readStream_read_chunk _ _ _ _ _ Hth0) in Hs1. cbv zeta in Hs1.
  destruct (Qle_bool (targetTrafficBytes s)
              (inject_Z (totalDownloaded s + Z.of_N n))) eqn:Hle.
  - apply Qle_bool_iff in Hle.
    rewrite stopTest_eq in Hs1. fields in Hs1.
    rewrite Hs in Hs1. cbn [negb] in Hs1. cbv zeta in Hs1.
    assert (F : isTesting s1 = false /\
                totalDownloaded s1 = totalDownloaded s + Z.of_N n /\
                activeThreads s1 = [] /\ updateTimer s1 = None /\
                threads s1 =
                  alter (set_task Returned) r
                    (markAll (activeThreads s)
                       (alter (fun t => set_downloaded (downloaded t + Z.of_N n) t)
                              r (threads s)))).
    { rewrite Hs1. destruct (updateTimer s) eqn:E; fields; rewrite ?E; repeat split; reflexivity. }
    clear Hs1. destruct F as (Hi1 & Ht1 & Ha1 & Hu1 & Hth1).
    rewrite microtasks_idle by (exact Hi1 || apply pendingCancelled_le).
    fields. rewrite Ht1. split; [reflexivity|].
    split.
    + intros _. repeat (split; [assumption|]). split.
      * intros r' th Hin Hth. rewrite list_lookup_fmap, Hth1.
        assert (Hl : exists t1,
                   alter (set_task Returned) r
                     (markAll (activeThreads s)
                        (alter (fun t => set_downloaded (downloaded t + Z.of_N n) t)
                               r (threads s))) !! r' = Some t1 /\
                   aborted t1 = true /\ isActive t1 = false).
        { destruct (decide (r = r')) as [->|Hne].
          - rewrite list_lookup_alter_eq, markAll_lookup_in, list_lookup_alter_eq by exact Hin.
            rewrite Hth. cbn. eexists. split; [reflexivity|]. cbn. tauto.
          - rewrite list_lookup_alter_ne, markAll_lookup_in, list_lookup_alter_ne
              by (exact Hin || exact Hne).
            rewrite Hth. cbn. eexists. split; [reflexivity|]. cbn. tauto. }
        destruct Hl as (t1 & -> & Ha & Hi). cbn.
        eexists. split; [reflexivity|].
        pose proof (settleCancelled_fields t1) as (_ & _ & Ha' & _ & Hi').
        split; [congruence|]. split; [auto|].
        apply not_cancelled_aborted; [apply settleCancelled_clean|congruence].
      * rewrite inject_Z_plus. lra.
    + intros Hlt. exfalso. apply Qlt_not_le in Hlt. apply Hlt. exact Hle.
  - apply Qle_bool_false in Hle.
    assert (Hi1 : isTesting s1 = true /\
                  totalDownloaded s1 = totalDownloaded s + Z.of_N n).
    { rewrite Hs1. unfold readStream_loop. fields.
      repeat case_match; fields; auto. }
    destruct Hi1 as [Hi1 Ht1].
    rewrite microtasks_quiet by (apply Hq, Hi1).
    rewrite Ht1. split; [reflexivity|].
    split; [|intros _; exact Hi1].
    intros Hge. exfalso. apply Qlt_not_le in Hle. apply Hle. exact Hge.
Qed.

(** Two workers of a 1 MB session; the first chunk of 1048576 bytes
    reaches the budget. *)
Lemma budget_stop_is_synchronous_witness :
  isTesting demoRunning = true /\
  isTesting demoReached = false /\ activeThreads demoReached = [] /\
  totalDownloaded demoReached = 1048576.
Proof.
  split; [reflexivity|].
  destruct (budget_stop_is_synchronous demoTrace demoRunning 0%nat 1048576 1500
              demoReached)
    as (Htot & Hstop & _);
    [vm_compute; reflexivity | reflexivity | vm_compute; reflexivity |].
  destruct Hstop as (H1 & H2 & _); [vm_compute; discriminate|].
  split; [exact H1|]. split; [exact H2|exact Htot].
Defined.

(** C1, at the failing input. A session is stopped before its wake lock is
    there and is started again.  The worker that the first [startTest]
    created after the stop is dropped from [activeThreads] by the second
    start, unaborted, and reads on in the second session.  When the worker
    of the second session reads the byte that reaches the budget of
    1048576, [stopTest] aborts that worker alone: the other one is still
    suspended at its [read] and not aborted, and its next chunk of 5000
    bytes takes the total to 1053576, beyond the budget by more than the
    chunk of one byte that reached it. *)
Theorem budget_overrun_by_unregistered_worker :
  option_map budgetView (run initial (take 5 strayTrace))
    = Some (true, 0, 1048576%Q, [1%nat],
            [(0%nat, AwaitFetch, false, true); (0%nat, AwaitFetch, false, true)]) /\
  option_map budgetView (run initial (take 8 strayTrace))
    = Some (true, 1048575, 1048576%Q, [1%nat],
            [(0%nat, AwaitRead, false, true); (0%nat, AwaitRead, false, true)]) /\
  option_map budgetView (run initial (take 9 strayTrace))
    = Some (false, 1048576, 1048576%Q, [],
            [(0%nat, AwaitRead, false, true); (0%nat, Returned, true, false)]) /\
  option_map budgetView (run initial strayTrace)
    = Some (false, 1053576, 1048576%Q, [],
            [(0%nat, Returned, false, true); (0%nat, Returned, true, false)]).
Proof. repeat split; vm_compute; reflexivity. Qed.

(** ** Cancellation *)

Lemma keeps_refl r ts : keeps r ts ts.
Proof. intros th H. eauto. Qed.

Lemma keeps_trans r ts1 ts2 ts3 :
  keeps r ts1 ts2 -> keeps r ts2 ts3 -> keeps r ts1 ts3.
Proof.
  intros H1 H2 th H. destruct (H1 th H) as (th1 & Hl1 & E1).
  destruct (H2 th1 Hl1) as (th2 & Hl2 & E2). exists th2. split; [exact Hl2|].
  destruct E1 as [->| ->], E2 as [->| ->]; auto.
Qed.

Lemma keeps_alter_ne r r' f (ts : list TestThread) :
  r' <> r -> keeps r ts (alter f r' ts).
Proof. intros Hne th H. exists th. rewrite list_lookup_alter_ne by exact Hne. auto. Qed.

Lemma keeps_markAll r l (ts : list TestThread) : keeps r ts (markAll l ts).
Proof.
  intros th H. destruct (decide (r ∈ l)).
  - rewrite markAll_lookup_in, H by assumption. cbn. eauto.
  - rewrite markAll_lookup_notin, H by assumption. eauto.
Qed.

Lemma keeps_app r (ts ts' : list TestThread) : keeps r ts (ts ++ ts').
Proof. intros th H. exists th. split; [apply lookup_app_l_Some, H|auto]. Qed.

Lemma keeps_fmap_settle r (ts : list TestThread) :
  (forall th, ts !! r = Some th -> cancelled th = false) ->
  keeps r ts (settleCancelled <$> ts).
Proof.
  intros Hc th H. exists th. rewrite list_lookup_fmap, H. cbn.
  unfold settleCancelled. rewrite (Hc th H). auto.
Qed.

Lemma finishedWith_keeps d r ts ts' th :
  keeps r ts ts' -> ts !! r = Some th -> finishedWith d th ->
  exists th', ts' !! r = Some th' /\ finishedWith d th'.
Proof.
  intros Hk Hl Hf. destruct (Hk th Hl) as (th' & Hl' & [->| ->]); eauto.
  exists (mark th). split; [exact Hl'|]. unfold finishedWith in *. cbn. tauto.
Qed.

Ltac keeps :=
  lazymatch goal with
  | |- keeps ?r ?ts ?ts => apply keeps_refl
  | |- keeps ?r ?ts (alter ?f ?r' ?x) =>
      apply (keeps_trans r ts x); [keeps | apply keeps_alter_ne; congruence]
  | |- keeps ?r ?ts (markAll ?l ?x) =>
      apply (keeps_trans r ts x); [keeps | apply keeps_markAll]
  | |- keeps ?r ?ts (?x ++ ?y) =>
      apply (keeps_trans r ts x); [keeps | apply keeps_app]
  end.

(** No handler the network or a timer can start writes to a thread object
    whose controller is aborted. *)
Lemma dispatch_keeps r th s e s1 :
  threads s !! r = Some th -> aborted th = true ->
  dispatch e s = Some s1 -> keeps r (threads s) (threads s1).
Proof.
  intros Hth Hab H. destruct e; cbn [dispatch] in H.
  - inversion H; subst; clear H. unfold_methods. split_cases; fields; keeps.
  - destruct (acquiring s) as [|[sel p] rest]; inversion H; subst; clear H.
    unfold_methods. split_cases; fields; keeps.
  - inversion H; subst; clear H. split_cases; fields; keeps.
  - destruct (awaiting AwaitFetch s thread) eqn:G; inversion H; subst; clear H.
    apply awaiting_true in G. destruct G as (th0 & Hth0 & Htask0 & Hab0).
    assert (thread <> r) by congruence.
    unfold_methods. split_cases; fields; keeps.
  - destruct (awaiting AwaitRead s thread) eqn:G; inversion H; subst; clear H.
    apply awaiting_true in G. destruct G as (th0 & Hth0 & Htask0 & Hab0).
    assert (thread <> r) by congruence.
    unfold_methods. split_cases; fields; keeps.
  - destruct (timeouts s !! timer) as [tm|]; inversion H; subst; clear H.
    destruct (callback tm); unfold_methods; split_cases; fields; keeps.
Qed.

Lemma finished_not_cancelled d th : finishedWith d th -> cancelled th = false.
Proof.
  intros (Ha & H1 & H2 & _). unfold cancelled. rewrite Ha. cbn.
  apply orb_false_iff. split; apply bool_decide_eq_false; assumption.
Qed.

Lemma step_keeps_finished d r s e s' th :
  noCancelled s -> threads s !! r = Some th -> finishedWith d th ->
  step s e = Some s' ->
  exists th', threads s' !! r = Some th' /\ finishedWith d th'.
Proof.
  intros Hc Hth Hf H. unfold step in H.
  destruct (dispatch e s) as [s1|] eqn:Hd; inversion H; subst; clear H.
  pose proof (dispatch_keeps r th s e s1 Hth (proj1 Hf) Hd) as Hk.
  destruct (finishedWith_keeps d r _ _ th Hk Hth Hf) as (th1 & Hth1 & Hf1).
  destruct (isTesting s1) eqn:Et.
  - rewrite microtasks_quiet by (eapply dispatch_noCancelled; eauto). eauto.
  - rewrite microtasks_idle by (exact Et || apply pendingCancelled_le).
    fields. rewrite list_lookup_fmap, Hth1. cbn. unfold settleCancelled.
    rewrite (finished_not_cancelled d th1 Hf1). eauto.
Qed.

Lemma run_keeps_finished d r es s s' th :
  noCancelled s -> threads s !! r = Some th -> finishedWith d th ->
  run s es = Some s' ->
  exists th', threads s' !! r = Some th' /\ finishedWith d th'.
Proof.
  revert s th. induction es as [|e es IH]; intros s th Hc Hth Hf H; cbn [run] in H.
  - inversion H; subst. eauto.
  - destruct (step s e) as [s1|] eqn:E; [|discriminate].
    destruct (step_keeps_finished d r s e s1 th Hc Hth Hf E) as (th1 & Hth1 & Hf1).
    eapply (IH s1 th1); [eapply noCancelled_step; eauto|exact Hth1|exact Hf1|exact H].
Qed.

Lemma stoppedLines_quiet ts l :
  Forall (fun e => isThreadError e = false /\ isAllInterrupted e = false)
         (stoppedLines ts l).
Proof.
  unfold stoppedLines. induction l as [|r l IH]; cbn [flat_map]; [constructor|].
  apply Forall_app. split; [|exact IH].
  destruct (ts !! r); repeat constructor.
Qed.

(** The state [stopTest] leaves when a session was running. *)
Lemma stopTest_running now s :
  isTesting s = true ->
  let s1 := stopTest now s in
  let totalTime := (inject_Z (now - startTime s) / 1000)%Q in
  isTesting s1 = false /\
  totalDownloaded s1 = totalDownloaded s /\
  targetTrafficBytes s1 = targetTrafficBytes s /\
  activeThreads s1 = [] /\
  updateTimer s1 = None /\
  threads s1 = markAll (activeThreads s) (threads s) /\
  testLog s1 =
    testLog s ++ stoppedLines (threads s) (activeThreads s)
      ++ [LogStopped totalTime (avgSpeedOf (totalDownloaded s) totalTime)
                     (totalDownloaded s)] /\
  progress (display s1) = progressOf (totalDownloaded s) (targetTrafficBytes s).
Proof.
  intros Hs. cbv zeta. rewrite stopTest_eq, Hs. cbn [negb]. cbv zeta.
  destruct (updateTimer s) eqn:E; fields; rewrite <- ?app_assoc, ?E; repeat split; reflexivity.
Qed.

(** The state the chunk that reaches the budget leaves, before the
    microtask checkpoint. *)
Lemma chunk_crossing now s r th n :
  threads s !! r = Some th -> isTesting s = true ->
  Qle_bool (targetTrafficBytes s) (inject_Z (totalDownloaded s + Z.of_N n)) = true ->
  let s1 := readStream_read r (Chunk n) now s in
  let ts := alter (fun t => set_downloaded (downloaded t + Z.of_N n) t) r (threads s) in
  let totalTime := (inject_Z (now - startTime s) / 1000)%Q in
  isTesting s1 = false /\
  totalDownloaded s1 = totalDownloaded s + Z.of_N n /\
  targetTrafficBytes s1 = targetTrafficBytes s /\
  activeThreads s1 = [] /\
  updateTimer s1 = None /\
  threads s1 = alter (set_task Returned) r (markAll (activeThreads s) ts) /\
  testLog s1 =
    testLog s ++ stoppedLines ts (activeThreads s)
      ++ [LogStopped totalTime
            (avgSpeedOf (totalDownloaded s + Z.of_N n) totalTime)
            (totalDownloaded s + Z.of_N n);
          LogTargetReached (targetTrafficBytes s)] /\
  progress (display s1) =
    progressOf (totalDownloaded s + Z.of_N n) (targetTrafficBytes s).
Proof.
  intros Hth Hs Hle. cbv zeta.
  rewrite (readStream_read_chunk _ _ _ _ _ Hth). cbv zeta. rewrite Hle.
  set (s0 := set_totalDownloaded _ _).
  assert (Hs0 : isTesting s0 = true) by exact Hs.
  destruct (stopTest_running now s0 Hs0) as (H1 & H2 & H3 & H4 & H5 & H6 & H7 & H8).
  fields. rewrite H1, H2, H3, H4, H5, H6, H7, H8, <- !app_assoc.
  repeat split; reflexivity.
Qed.

(** A chunk below the budget leaves the session running. *)
Lemma chunk_below now s r th n :
  threads s !! r = Some th ->
  Qle_bool (targetTrafficBytes s) (inject_Z (totalDownloaded s + Z.of_N n)) = false ->
  let s1 := readStream_read r (Chunk n) now s in
  isTesting s1 = isTesting s /\
  totalDownloaded s1 = totalDownloaded s + Z.of_N n /\
  targetTrafficBytes s1 = targetTrafficBytes s /\
  activeThreads s1 = activeThreads s /\
  testLog s1 = testLog s /\
  display s1 = display s.
Proof.
  intros Hth Hle. cbv zeta.
  rewrite (readStream_read_chunk _ _ _ _ _ Hth). cbv zeta. rewrite Hle.
  unfold readStream_loop. fields. repeat case_match; fields; repeat split; reflexivity.
Qed.

Lemma settled_mark_finished th f d :
  aborted (f (mark th)) = true -> downloaded (f (mark th)) = d ->
  finishedWith d (settleCancelled (f (mark th))).
Proof.
  intros Ha Hd. pose proof (settleCancelled_fields (f (mark th))) as (_ & _ & Ha' & Hd' & _).
  unfold finishedWith. rewrite Ha', Hd'. split; [exact Ha|].
  destruct (not_cancelled_aborted (settleCancelled (f (mark th))))
    as [H1 H2]; [apply settleCancelled_clean|congruence|]. tauto.
Qed.

(** C3. When a running session is stopped, by the stop button or by the
    chunk that reaches the budget, the step adds to the log neither a
    thread error nor the line of the interrupted threads; [totalDownloaded]
    grows by the chunk that reached the budget and by nothing else; every
    thread that was registered is aborted and no longer suspended, and its
    byte count stays what it was at the stop in every state that follows. *)
Theorem cancellation_is_silent es s c now s2 r th :
  run initial es = Some s ->
  isTesting s = true ->
  step s (stopEvent c now) = Some s2 ->
  isTesting s2 = false ->
  r ∈ activeThreads s ->
  threads s !! r = Some th ->
  (exists lines,
      testLog s2 = testLog s ++ lines /\
      Forall (fun l => isThreadError l = false /\ isAllInterrupted l = false) lines) /\
  totalDownloaded s2 = totalDownloaded s + lastBytes c /\
  (exists th2,
      threads s2 !! r = Some th2 /\ aborted th2 = true /\
      task th2 <> AwaitFetch /\ task th2 <> AwaitRead /\
      downloaded th2 = downloaded th + lastChunk c r) /\
  (forall es' s3, run s2 es' = Some s3 ->
      exists th3, threads s3 !! r = Some th3 /\
                  downloaded th3 = downloaded th + lastChunk c r).
Proof.
  intros Hrun Hs Hstep Hs2 Hin Hth. apply reachable_wellFormed in Hrun.
  pose proof (wellFormed_step _ _ _ Hrun Hstep) as [_ _ Hclean2].
  destruct Hrun as [_ _ Hclean].
  assert (Hmain :
    (exists lines,
        testLog s2 = testLog s ++ lines /\
        Forall (fun l => isThreadError l = false /\ isAllInterrupted l = false) lines) /\
    totalDownloaded s2 = totalDownloaded s + lastBytes c /\
    exists th2, threads s2 !! r = Some th2 /\
                finishedWith (downloaded th + lastChunk c r) th2).
  { unfold step in Hstep.
    destruct (dispatch _ s) as [s1|] eqn:Hd; [|discriminate].
    assert (Hs2eq : microtasks (length (threads s1)) (eventTime (stopEvent c now)) s1 = s2)
      by congruence.
    clear Hstep.
    pose proof (dispatch_noCancelled _ _ _ Hclean Hd) as Hq.
    destruct c as [|r0 n]; cbn [stopEvent dispatch eventTime] in *.
    - assert (Hs1 : s1 = stopTest now s) by congruence. clear Hd.
      destruct (stopTest_running now s Hs) as (H1 & H2 & H3 & H4 & H5 & H6 & H7 & H8).
      rewrite <- Hs1 in *. clear Hs1.
      rewrite microtasks_idle in Hs2eq by (exact H1 || apply pendingCancelled_le).
      rewrite <- Hs2eq. fields. rewrite H2, H6, H7. split; [|split; [cbn; lia|]].
      + eexists. split; [reflexivity|]. apply Forall_app. split.
        * apply stoppedLines_quiet.
        * repeat constructor.
      + rewrite list_lookup_fmap, markAll_lookup_in, Hth by exact Hin. cbn.
        eexists. split; [reflexivity|].
        apply (settled_mark_finished th (fun t => t)); cbn; [reflexivity|lia].
    - destruct (awaiting AwaitRead s r0) eqn:G; [|discriminate].
      apply awaiting_true in G. destruct G as (th0 & Hth0 & Htask0 & Hab0).
      assert (Hs1 : s1 = readStream_read r0 (Chunk n) now s) by congruence. clear Hd.
      destruct (Qle_bool (targetTrafficBytes s)
                  (inject_Z (totalDownloaded s + Z.of_N n))) eqn:Hle.
      + destruct (chunk_crossing now s r0 th0 n Hth0 Hs Hle)
          as (H1 & H2 & H3 & H4 & H5 & H6 & H7 & H8).
        rewrite <- Hs1 in *. clear Hs1.
        rewrite microtasks_idle in Hs2eq by (exact H1 || apply pendingCancelled_le).
        rewrite <- Hs2eq. fields. rewrite H2, H6, H7. split; [|split; [reflexivity|]].
        * eexists. split; [reflexivity|]. apply Forall_app. split.
          -- apply stoppedLines_quiet.
          -- repeat constructor.
        * rewrite list_lookup_fmap. destruct (decide (r0 = r)) as [->|Hne].
          -- rewrite list_lookup_alter_eq, markAll_lookup_in, list_lookup_alter_eq, Hth
               by exact Hin.
             cbn. eexists. split; [reflexivity|].
             unfold lastChunk. rewrite decide_True by reflexivity.
             apply (settled_mark_finished _ (set_task Returned)); reflexivity.
          -- rewrite list_lookup_alter_ne, markAll_lookup_in, list_lookup_alter_ne, Hth
               by (exact Hin || exact Hne).
             cbn. eexists. split; [reflexivity|].
             unfold lastChunk. rewrite decide_False by exact Hne.
             apply (settled_mark_finished th (fun t => t)); cbn; [reflexivity|lia].
      + exfalso. destruct (chunk_below now s r0 th0 n Hth0 Hle) as (H1 & _).
        rewrite <- Hs1 in H1. rewrite Hs in H1.
        rewrite microtasks_quiet in Hs2eq by (apply Hq, H1). congruence. }
  destruct Hmain as (Hlog & Htot & th2 & Hth2 & Hf2).
  split; [exact Hlog|]. split; [exact Htot|]. split.
  - exists th2. unfold finishedWith in Hf2. tauto.
  - intros es' s3 Hrun'.
    destruct (run_keeps_finished _ r es' s2 s3 th2 Hclean2 Hth2 Hf2 Hrun')
      as (th3 & Hth3 & Hf3).
    exists th3. unfold finishedWith in Hf3. tauto.
Qed.

(** Two reading workers, stopped by the button. *)
Lemma cancellation_is_silent_witness :
  isTesting demoRunning = true /\ isTesting demoStopped = false /\
  totalDownloaded demoStopped = totalDownloaded demoRunning + 0.
Proof.
  split; [reflexivity|]. split; [reflexivity|].
  destruct (cancellation_is_silent demoTrace demoRunning ByUser 1500 demoStopped
              0%nat (mkThread 0 "https://issuecdn.baidupcs.com/issue/netdisk/apk/BaiduNetdisk_11.44.3.apk?thread=0&r=r0&t=1001" false 0 true AwaitRead))
    as (_ & H & _);
    [vm_compute; reflexivity | reflexivity | vm_compute; reflexivity | reflexivity
    | vm_compute; left | vm_compute; reflexivity | exact H].
Defined.

(** ** Progress *)









(** A tick of a running session. *)
Lemma tick_running s t tm rnd now s1 :
  noCancelled s -> isTesting s = true ->
  timeouts s !! t = Some tm -> callback tm = UpdateTick ->
  step s (TimeoutFired t rnd now) = Some s1 ->
  s1 = update now (clearTimeout t s) /\
  totalDownloaded s1 = totalDownloaded s /\
  targetTrafficBytes s1 = targetTrafficBytes s /\
  speedHistory s1 = speedHistory (updateProgress now s) /\
  display s1 = display (updateProgress now s).
Proof.
  intros Hc Hs Ht Hcb H. unfold step in H. cbn [dispatch eventTime] in H.
  rewrite Ht, Hcb in H. inversion H as [H1]; clear H.
  rewrite microtasks_quiet.
  - split; [reflexivity|]. unfold update, updateProgress. fields. rewrite Hs.
    cbn [negb]. unfold setTimeout. fields. repeat split; reflexivity.
  - unfold update, updateProgress. fields. rewrite Hs. cbn [negb].
    unfold setTimeout. fields. exact Hc.
Qed.



(** ** The speed estimate *)

Lemma Qsum_foldl (l : list Q) (a : Q) :
  (foldl Qplus a l == a + foldr Qplus 0 l)%Q.
Proof.
  revert a. induction l as [|x l IH]; intros a; cbn [foldl foldr].
  - ring.
  - rewrite IH. ring.
Qed.

Lemma pushSample_eq x h :
  (length h <= speedSmoothingWindow)%nat ->
  pushSample x h =
    (if decide (length h = speedSmoothingWindow) then tail h else h) ++ [x].
Proof.
  unfold pushSample, speedSmoothingWindow. intros H.
  rewrite length_app. cbn [length].
  destruct (Nat.ltb_spec 10 (length h + 1)) as [L|L];
    case_decide; try lia; try reflexivity.
  destruct h; [cbn in *; lia|reflexivity].
Qed.

(** What [update] does while a session runs. *)
Lemma update_running now s :
  isTesting s = true ->
  lastUpdateTime (update now s) = now /\
  lastDownloaded (update now s) = totalDownloaded s /\
  totalDownloaded (update now s) = totalDownloaded s /\
  speedHistory (update now s) = speedHistory (updateProgress now s) /\
  display (update now s) = display (updateProgress now s) /\
  threads (update now s) = threads s.
Proof.
  intros Hs. unfold update, updateProgress. rewrite Hs. cbn [negb].
  unfold setTimeout. fields. repeat split; reflexivity.
Qed.

Lemma update_isTesting now s : isTesting (update now s) = isTesting s.
Proof.
  unfold update. destruct (isTesting s) eqn:E; cbn [negb]; [|exact E].
  unfold updateProgress, setTimeout. fields. exact E.
Qed.

Lemma run_app es1 es2 s :
  run s (es1 ++ es2) = match run s es1 with Some s' => run s' es2 | None => None end.
Proof.
  revert s. induction es1 as [|e es1 IH]; intros s; cbn [run app]; [reflexivity|].
  destruct (step s e); [apply IH|reflexivity].
Qed.

Lemma runNoTick_app es1 es2 s :
  runNoTick s (es1 ++ es2)
    = match runNoTick s es1 with Some s' => runNoTick s' es2 | None => None end.
Proof.
  revert s. induction es1 as [|e es1 IH]; intros s; cbn [runNoTick app]; [reflexivity|].
  destruct (marks s e); [reflexivity|]. destruct (step s e); [apply IH|reflexivity].
Qed.

Lemma runNoTick_run es s s' : runNoTick s es = Some s' -> run s es = Some s'.
Proof.
  revert s. induction es as [|e es IH]; intros s H; cbn [runNoTick run] in *; [exact H|].
  destruct (marks s e); [discriminate|]. destruct (step s e); [apply IH, H|discriminate].
Qed.

(** The step of a mark leaves the time of the event in [lastUpdateTime]
    and the total in [lastDownloaded]. *)
Lemma mark_sets s e s1 :
  noCancelled s -> marks s e = true -> step s e = Some s1 ->
  lastUpdateTime s1 = eventTime e /\ lastDownloaded s1 = totalDownloaded s1 /\
  (ticks s e = true ->
   speedHistory s1 = speedHistory (updateProgress (eventTime e) s) /\
   display s1 = display (updateProgress (eventTime e) s)) /\
  (starts s e = true -> speedHistory s1 = [] /\ totalDownloaded s1 = 0).
Proof.
  intros Hc Hm H. unfold marks, ticks, starts in *.
  destruct e as [f now|rand now|now|r o now|r o now|t rnd now];
    cbn [eventTime]; rewrite ?andb_false_r in *; cbn [orb] in Hm; try discriminate.
  - (* the start *)
    apply andb_true_iff in Hm. destruct Hm as [Hs Hv].
    apply negb_true_iff in Hs.
    destruct (validateTestParams f) as [l|p] eqn:Ev; [discriminate|].
    unfold step in H. cbn [dispatch eventTime] in H.
    unfold startTest in H. rewrite Hs, Ev in H. cbv zeta in H. fields in H.
    rewrite microtasks_quiet in H by (fields; exact Hc).
    injection H as H. subst s1. fields. rewrite Hs.
    repeat split; try reflexivity; discriminate.
  - (* the lock is there *)
    rewrite orb_false_r, andb_true_r in Hm.
    unfold step in H. cbn [dispatch eventTime] in H.
    destruct (acquiring s) as [|[sel p] rest] eqn:Ea; [discriminate|].
    unfold startTest_resume in H. cbv zeta in H. rewrite createThreads_eq in H.
    match type of H with
    | Some (microtasks _ _ (update _ ?x)) = _ => set (X := x) in H
    end.
    assert (HX : isTesting X = true) by exact Hm.
    destruct (update_running now X HX) as (K1 & K2 & K3 & K4 & K5 & K6).
    rewrite microtasks_quiet in H.
    + injection H as H. subst s1. rewrite K1, K2, K3, K4, K5, Hm.
      split; [reflexivity|]. split; [reflexivity|]. split; [|discriminate].
      intros _. subst X. unfold updateProgress. fields. split; reflexivity.
    + rewrite K6. subst X. fields. apply Forall_app. split; [exact Hc|].
      apply Forall_fmap, Forall_forall. intros; reflexivity.
  - (* the timeout *)
    rewrite orb_false_r in Hm. apply andb_true_iff in Hm. destruct Hm as [Hs Ht].
    destruct (timeouts s !! t) as [tm|] eqn:Etm; [|discriminate].
    destruct (callback tm) eqn:Ecb; [|discriminate].
    destruct (tick_running s t tm rnd now s1 Hc Hs Etm Ecb H) as (E1 & E2 & _ & E4 & E5).
    assert (HX : isTesting (clearTimeout t s) = true) by exact Hs.
    destruct (update_running now _ HX) as (K1 & K2 & K3 & _).
    split; [rewrite E1, K1; reflexivity|].
    split; [rewrite E1, K2, K3; reflexivity|].
    split; [intros _; split; assumption|discriminate].
Qed.

Lemma estimateOf_fetched r o now s :
  estimateOf (downloadFile_fetched r o now s) = estimateOf s.
Proof. unfold estimateOf. unfold_methods. split_cases; fields; reflexivity. Qed.

Lemma estimateOf_read r o now s :
  estimateOf (readStream_read r o now s) = estimateOf s.
Proof. unfold estimateOf. unfold_methods. split_cases; fields; reflexivity. Qed.

(** No other event touches them. *)
Lemma untouched_step s e s1 :
  marks s e = false -> step s e = Some s1 -> estimateOf s1 = estimateOf s.
Proof.
  intros Hm H. unfold step in H.
  destruct (dispatch e s) as [s0|] eqn:Hd; [|discriminate].
  injection H as H. subst s1.
  apply (microtasks_preserves (fun x => estimateOf x = estimateOf s)).
  - intros r o now x Hx. rewrite estimateOf_fetched. exact Hx.
  - intros r o now x Hx. rewrite estimateOf_read. exact Hx.
  - unfold marks, ticks, starts in Hm. apply orb_false_iff in Hm. destruct Hm as [Ht Hst].
    destruct e as [f now|rand now|now|r o now|r o now|t rnd now]; cbn [dispatch] in Hd.
    + injection Hd as Hd. subst s0. unfold startTest.
      destruct (isTesting s) eqn:Hs; [reflexivity|]. cbn [negb andb] in Hst.
      destruct (validateTestParams f); [reflexivity|discriminate].
    + rewrite andb_true_r in Ht.
      destruct (acquiring s) as [|[sel p] rest]; [discriminate|].
      injection Hd as Hd. subst s0. unfold startTest_resume. cbv zeta.
      rewrite createThreads_eq. unfold update. fields. rewrite Ht. reflexivity.
    + injection Hd as Hd. subst s0. rewrite stopTest_eq.
      destruct (isTesting s); cbn [negb]; [|reflexivity]. cbv zeta.
      destruct (updateTimer s); reflexivity.
    + destruct (awaiting AwaitFetch s r); [|discriminate].
      injection Hd as Hd. subst s0. apply estimateOf_fetched.
    + destruct (awaiting AwaitRead s r); [|discriminate].
      injection Hd as Hd. subst s0. apply estimateOf_read.
    + destruct (timeouts s !! t) as [tm|]; [|discriminate].
      injection Hd as Hd. subst s0.
      destruct (callback tm).
      * rewrite andb_true_r in Ht. unfold update. fields. rewrite Ht. reflexivity.
      * unfold reconnectIfTesting, reconnectThread, createTestThread.
        destruct (isTesting _); [|reflexivity].
        destruct (threads _ !! thread); reflexivity.
Qed.

Lemma untouched_run es s s' :
  runNoTick s es = Some s' -> estimateOf s' = estimateOf s.
Proof.
  revert s. induction es as [|e es IH]; intros s H; cbn [runNoTick] in H.
  - injection H as H. subst s'. reflexivity.
  - destruct (marks s e) eqn:Hm; [discriminate|].
    destruct (step s e) as [s1|] eqn:E; [|discriminate].
    rewrite (IH _ H). eapply untouched_step; eauto.
Qed.

(** Only the start of a session sets [isTesting]. *)
Lemma testing_back s e s1 :
  step s e = Some s1 -> starts s e = false -> isTesting s1 = true -> isTesting s = true.
Proof.
  intros H Hst Hs1. destruct (isTesting s) eqn:Hs; [reflexivity|].
  exfalso.
  assert (Hf : isTesting s1 = false); [|congruence].
  apply (step_preserves
           (fun e => match e with
                     | StartClick f _ =>
                         match validateTestParams f with inl _ => True | inr _ => False end
                     | _ => True
                     end)
           (fun x => isTesting x = false)) with (s := s) (e := e); auto.
  - intros f now x Hv Hx. unfold startTest. rewrite Hx.
    destruct (validateTestParams f); [exact Hx|contradiction].
  - intros sel p rand now rest x Hx. unfold startTest_resume. cbv zeta.
    rewrite createThreads_eq. unfold update. fields. rewrite Hx. exact Hx.
  - intros now x Hx. unfold stopTest. rewrite Hx. exact Hx.
  - intros r o now x Hx. unfold_methods. split_cases; fields; auto.
  - intros r o now x Hx. unfold_methods. split_cases; fields; auto.
  - intros t now x Hx. unfold update. fields. rewrite Hx. exact Hx.
  - intros t r rand now x Hx. unfold reconnectIfTesting. fields. rewrite Hx. exact Hx.
  - destruct e as [f now| | | | |]; try exact I.
    unfold starts in Hst. rewrite Hs in Hst. cbn in Hst.
    destruct (validateTestParams f); [exact I|discriminate].
Qed.

(** Every state of a running session has a last mark behind it. *)
Lemma last_mark es2 s2 :
  run initial es2 = Some s2 -> isTesting s2 = true ->
  exists es s e1 s1 es',
    es2 = es ++ e1 :: es' /\ run initial es = Some s /\ marks s e1 = true /\
    step s e1 = Some s1 /\ runNoTick s1 es' = Some s2.
Proof.
  revert s2. induction es2 as [|e es0 IH] using rev_ind; intros s2 H Hs.
  - injection H as H. subst s2. discriminate.
  - rewrite run_app in H. destruct (run initial es0) as [sp|] eqn:E0; [|discriminate].
    cbn [run] in H. destruct (step sp e) as [s2'|] eqn:E; [|discriminate].
    injection H as H. subst s2'.
    destruct (marks sp e) eqn:Hm.
    + exists es0, sp, e, s2, []. repeat split; auto.
    + assert (Hsp : isTesting sp = true).
      { eapply testing_back; eauto. unfold marks in Hm.
        apply orb_false_iff in Hm. tauto. }
      destruct (IH sp eq_refl Hsp) as (es & s & e1 & s1 & es' & -> & Hr & Hm1 & Hst & Hn).
      exists es, s, e1, s1, (es' ++ [e]).
      split; [rewrite <- app_assoc; reflexivity|]. split; [exact Hr|].
      split; [exact Hm1|]. split; [exact Hst|].
      rewrite runNoTick_app, Hn. cbn [runNoTick]. rewrite Hm, E. reflexivity.
Qed.

(** C2. Every state of a running session has a last mark behind it: the
    last tick, or the start of the session when no tick has happened yet;
    no event since has written [lastUpdateTime], [lastDownloaded] or the
    history.  The sample [updateProgress] takes is the bytes downloaded
    since that mark divided by the seconds since that mark, or 0 when no
    time has passed.  The sample is appended to the history, whose oldest
    entry is dropped when it already holds 10, so the history never holds
    more than 10.  The displayed speed is the arithmetic mean of the
    history, in MB per second.  [updateProgress] leaves its own time and
    the total behind for the next tick, and the tick of the session, by
    the timeout or at the end of [startTest], does exactly this. *)
Theorem updateProgress_sample es2 s2 now :
  run initial es2 = Some s2 ->
  isTesting s2 = true ->
  (exists es s e1 s1 es',
      es2 = es ++ e1 :: es' /\ run initial es = Some s /\ marks s e1 = true /\
      step s e1 = Some s1 /\ runNoTick s1 es' = Some s2) /\
  forall es s e1 s1 es',
    run initial es = Some s -> marks s e1 = true ->
    step s e1 = Some s1 -> runNoTick s1 es' = Some s2 ->
    let interval := now - eventTime e1 in
    let bytes := totalDownloaded s2 - totalDownloaded s1 in
    let rate :=
      if decide (0 < interval)
      then (inject_Z bytes / (inject_Z interval / 1000))%Q else 0%Q in
    let s' := updateProgress now s2 in
    let h := speedHistory s1 in
    let h' := speedHistory s' in
    speedHistory s2 = h /\
    (length h <= 10)%nat /\
    h' = (if decide (length h = 10%nat) then tail h else h) ++ [rate] /\
    (length h' <= 10)%nat /\
    (exists mean,
        downloadSpeed (display s') = Fin (mean / (1024 * 1024)) /\
        (mean == foldr Qplus 0 h' / inject_Z (Z.of_nat (length h')))%Q) /\
    lastUpdateTime s' = now /\ lastDownloaded s' = totalDownloaded s2 /\
    forall e2 s3,
      ticks s2 e2 = true -> eventTime e2 = now -> step s2 e2 = Some s3 ->
      speedHistory s3 = h' /\ display s3 = display s' /\
      lastUpdateTime s3 = now /\ lastDownloaded s3 = totalDownloaded s3.
Proof.
  intros Hrun2 Hs2. split; [apply last_mark; assumption|].
  intros es s e1 s1 es' Hrun Hm Hst Hn. cbv zeta.
  pose proof (reachable_wellFormed _ _ Hrun) as [_ _ Hc].
  pose proof (reachable_wellFormed _ _ Hrun2) as [Hh _ Hc2].
  destruct (mark_sets s e1 s1 Hc Hm Hst) as (M1 & M2 & _).
  pose proof (untouched_run _ _ _ Hn) as U. unfold estimateOf in U.
  injection U as U1 U2 U3.
  assert (Hrate : currentSpeedOf (totalDownloaded s2 - lastDownloaded s2)
                                 (now - lastUpdateTime s2) =
                  if decide (0 < now - eventTime e1)
                  then (inject_Z (totalDownloaded s2 - totalDownloaded s1)
                        / (inject_Z (now - eventTime e1) / 1000))%Q
                  else 0%Q).
  { rewrite U1, U2, M1, M2. unfold currentSpeedOf.
    destruct (Z.ltb_spec 0 (now - eventTime e1)); case_decide; try lia; reflexivity. }
  unfold historyBounded in Hh. rewrite U3 in Hh.
  assert (Hh' : speedHistory (updateProgress now s2)
                = (if decide (length (speedHistory s1) = 10%nat)
                   then tail (speedHistory s1) else speedHistory s1)
                  ++ [if decide (0 < now - eventTime e1)
                      then (inject_Z (totalDownloaded s2 - totalDownloaded s1)
                            / (inject_Z (now - eventTime e1) / 1000))%Q
                      else 0%Q]).
  { unfold updateProgress. fields. rewrite Hrate, U3. apply pushSample_eq, Hh. }
  split; [exact U3|]. split; [exact Hh|]. split; [exact Hh'|].
  assert (Hl : (length (speedHistory (updateProgress now s2)) <= 10)%nat).
  { unfold updateProgress. fields. rewrite U3. apply pushSample_length, Hh. }
  split; [exact Hl|].
  split.
  { unfold updateProgress. fields. cbn [downloadSpeed scale].
    eexists. split; [reflexivity|]. unfold average.
    rewrite Qsum_foldl. field.
    rewrite U3, pushSample_eq by exact Hh. rewrite length_app. cbn [length].
    intros E. unfold Qeq in E. cbn [Qnum Qden inject_Z] in E. lia. }
  split; [unfold updateProgress; fields; reflexivity|].
  split; [unfold updateProgress; fields; reflexivity|].
  intros e2 s3 Ht <- Hst2.
  assert (Hm2 : marks s2 e2 = true) by (unfold marks; rewrite Ht; reflexivity).
  destruct (mark_sets s2 e2 s3 Hc2 Hm2 Hst2) as (N1 & N2 & N3 & _).
  destruct (N3 Ht) as (N4 & N5). auto.
Qed.

(** A tick at 1101 ms, then 500 bytes, then the sample of a tick at 1201 ms:
    500 bytes in 100 ms. *)
Lemma updateProgress_sample_witness :
  speedHistory (updateProgress 1201 demoFed)
    = [0%Q; (1000 # 1) / ((100 # 1) / 1000); (500 # 1) / ((100 # 1) / 1000)]%Q.
Proof.
  destruct (updateProgress_sample
              (demoTrace ++ [ReadSettled 0%nat (Chunk 1000) 1100;
                             TimeoutFired 1%nat "" 1101;
                             ReadSettled 0%nat (Chunk 500) 1150])
              demoFed 1201) as (_ & H).
  - vm_compute. reflexivity.
  - vm_compute. reflexivity.
  - destruct (H (demoTrace ++ [ReadSettled 0%nat (Chunk 1000) 1100])
                (default initial
                   (run initial (demoTrace ++ [ReadSettled 0%nat (Chunk 1000) 1100])))
                (TimeoutFired 1%nat "" 1101)
                (default initial
                   (run initial (demoTrace ++ [ReadSettled 0%nat (Chunk 1000) 1100;
                                               TimeoutFired 1%nat "" 1101])))
                [ReadSettled 0%nat (Chunk 500) 1150])
      as (_ & _ & H3 & _).
    + vm_compute. reflexivity.
    + vm_compute. reflexivity.
    + vm_compute. reflexivity.
    + vm_compute. reflexivity.
    + rewrite H3. vm_compute. reflexivity.
Defined.

(** ** The summary of [stopTest] *)

Lemma stoppedLines_all ts l :
  Forall (fun e => exists i, e = LogThreadStopped i) (stoppedLines ts l).
Proof.
  unfold stoppedLines. induction l as [|r l IH]; cbn [flat_map]; [constructor|].
  apply Forall_app. split; [|exact IH].
  destruct (ts !! r); repeat constructor. eauto.
Qed.

Lemma avgSpeedOf_guard total t0 now :
  avgSpeedOf total (inject_Z (now - t0) / 1000) =
    if decide (t0 < now)
    then (inject_Z total / (inject_Z (now - t0) / 1000) / (1024 * 1024))%Q else 0%Q.
Proof.
  unfold avgSpeedOf, ltb.
  destruct (Qle_bool (inject_Z (now - t0) / 1000) 0) eqn:E; cbn [negb].
  - apply Qle_bool_iff in E. rewrite decide_False; [reflexivity|].
    intros L. unfold Qle in E. cbn in E. lia.
  - apply Qle_bool_false in E. rewrite decide_True; [reflexivity|].
    unfold Qlt in E. cbn in E. lia.
Qed.

Lemma stoppedLines_plain ts l :
  Forall (fun x => isSummary x = false) (stoppedLines ts l).
Proof.
  eapply Forall_impl; [apply stoppedLines_all|]. intros x [i ->]. reflexivity.
Qed.

(** [stopTest] on a running session. *)
Lemma stopTest_line now s :
  isTesting s = true ->
  testLog (stopTest now s) =
    testLog s ++ stoppedLines (threads s) (activeThreads s)
      ++ [summaryLine (startTime s) now (totalDownloaded s)] /\
  totalDownloaded (stopTest now s) = totalDownloaded s.
Proof.
  intros Hs. destruct (stopTest_running now s Hs) as (_ & H2 & _ & _ & _ & _ & H7 & _).
  split; [|exact H2]. rewrite H7. unfold summaryLine. cbv zeta.
  rewrite avgSpeedOf_guard. reflexivity.
Qed.

(** The [.catch] of a worker, when it ends the session. *)
Lemma catch_summary r error now s :
  isTesting s = true ->
  isTesting (downloadFile_catch r error now s) = false ->
  oneSummary (testLog s) (testLog (downloadFile_catch r error now s))
    (summaryLine (startTime s) now (totalDownloaded (downloadFile_catch r error now s))).
Proof.
  intros Hs. unfold downloadFile_catch.
  destruct (threads s !! r) as [th|]; [|congruence].
  cbv zeta. unfold checkAllThreadsCompleted.
  match goal with
  | |- context [forallb (inactive ?x) (activeThreads ?x)] => set (X := x)
  end.
  assert (HX : isTesting X = true).
  { subst X. fields. destruct (negb _); exact Hs. }
  assert (HS : startTime X = startTime s).
  { subst X. fields. destruct (negb _); reflexivity. }
  assert (HL : exists pre, testLog X = testLog s ++ pre /\
                           Forall (fun x => isSummary x = false) pre).
  { subst X. fields. destruct (negb _); fields.
    - eexists. split; [reflexivity|]. repeat constructor.
    - exists []. rewrite app_nil_r. split; [reflexivity|constructor]. }
  destruct HL as (pre & HL & Hpre).
  destruct (forallb (inactive X) (activeThreads X) && isTesting X) eqn:E.
  - intros _.
    assert (HX' : isTesting (log LogAllInterrupted X) = true) by exact HX.
    destruct (stopTest_line now _ HX') as (H1 & H2).
    rewrite H1, H2. fields. rewrite HL, HS.
    exists (pre ++ [LogAllInterrupted]
              ++ stoppedLines (threads X) (activeThreads X)), [].
    split; [rewrite <- !app_assoc; reflexivity|].
    split; [|constructor].
    apply Forall_app. split; [exact Hpre|].
    apply Forall_app. split; [repeat constructor|apply stoppedLines_plain].
  - congruence.
Qed.

(** The handler that ends a session leaves one summary. *)
Lemma dispatch_summary s e s1 :
  isTesting s = true -> dispatch e s = Some s1 -> isTesting s1 = false ->
  oneSummary (testLog s) (testLog s1)
    (summaryLine (startTime s) (eventTime e) (totalDownloaded s1)).
Proof.
  intros Hs Hd Hs1.
  destruct e as [f now|rand now|now|r o now|r o now|t rnd now];
    cbn [dispatch eventTime] in *.
  - injection Hd as Hd. subst s1. unfold startTest in Hs1. rewrite Hs in Hs1. congruence.
  - destruct (acquiring s) as [|[sel p] rest]; [discriminate|].
    injection Hd as Hd. subst s1. exfalso.
    unfold startTest_resume in Hs1. cbv zeta in Hs1. rewrite createThreads_eq in Hs1.
    match type of Hs1 with
    | isTesting (update _ ?x) = _ => set (X := x) in Hs1
    end.
    rewrite update_isTesting in Hs1. subst X. fields in Hs1. congruence.
  - injection Hd as Hd. subst s1.
    destruct (stopTest_line now s Hs) as (H1 & H2). rewrite H1, H2.
    exists (stoppedLines (threads s) (activeThreads s)), [].
    split; [reflexivity|]. split; [apply stoppedLines_plain|constructor].
  - destruct (awaiting AwaitFetch s r); [|discriminate].
    injection Hd as Hd. subst s1. unfold downloadFile_fetched in *.
    destruct (threads s !! r) as [th|] eqn:Hth; [|congruence].
    destruct o as [[|] status|error]; try (apply catch_summary; assumption).
    destruct (nullBodyStatus status); [apply catch_summary; assumption|].
    exfalso. unfold readStream_loop in Hs1. fields in Hs1. rewrite Hth in Hs1.
    fields in Hs1. destruct (isTesting s && isActive th); fields in Hs1; congruence.
  - destruct (awaiting AwaitRead s r); [|discriminate].
    injection Hd as Hd. subst s1.
    destruct (threads s !! r) as [th|] eqn:Hth;
      [|unfold readStream_read in Hs1; rewrite Hth in Hs1; congruence].
    destruct o as [n| |error].
    + destruct (Qle_bool (targetTrafficBytes s)
                  (inject_Z (totalDownloaded s + Z.of_N n))) eqn:Hle.
      * destruct (chunk_crossing now s r th n Hth Hs Hle)
          as (_ & H2 & _ & _ & _ & _ & H7 & _).
        rewrite H7, H2. unfold summaryLine. cbv zeta. rewrite avgSpeedOf_guard.
        eexists _, [LogTargetReached (targetTrafficBytes s)].
        split; [reflexivity|]. split; [apply stoppedLines_plain|repeat constructor].
      * exfalso. rewrite (readStream_read_chunk _ _ _ _ _ Hth) in Hs1.
        cbv zeta in Hs1. rewrite Hle in Hs1. unfold readStream_loop in Hs1.
        fields in Hs1. rewrite list_lookup_alter_eq, Hth in Hs1. cbn [fmap option_fmap option_map] in Hs1.
        destruct (isTesting s && _); fields in Hs1; congruence.
    + exfalso. unfold readStream_read, setTimeout in Hs1. rewrite Hth in Hs1.
      fields in Hs1. congruence.
    + unfold readStream_read in *. rewrite Hth in *.
      destruct (negb (err_name error =? "AbortError")%string).
      * apply catch_summary; assumption.
      * exfalso. fields in Hs1. congruence.
  - destruct (timeouts s !! t) as [tm|]; [|discriminate].
    injection Hd as Hd. subst s1. exfalso. destruct (callback tm).
    + rewrite update_isTesting in Hs1. fields in Hs1. congruence.
    + unfold reconnectIfTesting, reconnectThread, createTestThread in Hs1.
      fields in Hs1. rewrite Hs in Hs1.
      destruct (threads s !! thread); fields in Hs1; congruence.
Qed.

Lemma step_summary s e s1 :
  noCancelled s ->
  isTesting s = true -> step s e = Some s1 -> isTesting s1 = false ->
  oneSummary (testLog s) (testLog s1)
    (summaryLine (startTime s) (eventTime e) (totalDownloaded s1)).
Proof.
  intros Hc Hs H Hs1. unfold step in H.
  destruct (dispatch e s) as [s0|] eqn:Hd; [|discriminate].
  injection H as H.
  assert (Hs0 : isTesting s0 = false).
  { destruct (isTesting s0) eqn:E; [|reflexivity].
    rewrite microtasks_quiet in H by (eapply dispatch_noCancelled; eauto).
    congruence. }
  rewrite microtasks_idle in H by (try exact Hs0; apply pendingCancelled_le).
  subst s1. fields. apply dispatch_summary; assumption.
Qed.

(** The start of a session leaves its time in [startTime]. *)
Lemma start_sets s0 f t0 s1 :
  noCancelled s0 -> starts s0 (StartClick f t0) = true ->
  step s0 (StartClick f t0) = Some s1 ->
  startTime s1 = t0 /\ isTesting s1 = true /\ totalDownloaded s1 = 0.
Proof.
  intros Hc Hst H. unfold starts in Hst.
  apply andb_true_iff in Hst. destruct Hst as [Hs Hv].
  apply negb_true_iff in Hs.
  destruct (validateTestParams f) as [l|p] eqn:Ev; [discriminate|].
  unfold step in H. cbn [dispatch eventTime] in H.
  unfold startTest in H. rewrite Hs, Ev in H. cbv zeta in H. fields in H.
  rewrite microtasks_quiet in H by (fields; exact Hc).
  injection H as H. subst s1. fields. repeat split; reflexivity.
Qed.

Lemma runNoStart_app es1 es2 s :
  runNoStart s (es1 ++ es2)
    = match runNoStart s es1 with Some s' => runNoStart s' es2 | None => None end.
Proof.
  revert s. induction es1 as [|e es1 IH]; intros s; cbn [runNoStart app]; [reflexivity|].
  destruct (starts s e); [reflexivity|]. destruct (step s e); [apply IH|reflexivity].
Qed.

Lemma runNoStart_run es s s' : runNoStart s es = Some s' -> run s es = Some s'.
Proof.
  revert s. induction es as [|e es IH]; intros s H; cbn [runNoStart run] in *; [exact H|].
  destruct (starts s e); [discriminate|]. destruct (step s e); [apply IH, H|discriminate].
Qed.

(** No event but the start of a session writes [startTime]. *)
Lemma startTime_step s e s' :
  starts s e = false -> step s e = Some s' -> startTime s' = startTime s.
Proof.
  intros Hst H. unfold step in H.
  destruct (dispatch e s) as [s0|] eqn:Hd; [|discriminate].
  injection H as H. subst s'.
  apply (microtasks_preserves (fun x => startTime x = startTime s)).
  - intros r o now x Hx. unfold_methods. split_cases; fields; exact Hx.
  - intros r o now x Hx. unfold_methods. split_cases; fields; exact Hx.
  - destruct e as [f now|rand now|now|r o now|r o now|t rnd now]; cbn [dispatch] in Hd.
    + injection Hd as Hd. subst s0. unfold starts in Hst. unfold startTest.
      destruct (isTesting s); [reflexivity|]. cbn [negb andb] in Hst.
      destruct (validateTestParams f); [reflexivity|discriminate].
    + destruct (acquiring s) as [|[sel p] rest]; [discriminate|].
      injection Hd as Hd. subst s0. unfold startTest_resume. cbv zeta.
      rewrite createThreads_eq. unfold update, updateProgress, setTimeout. fields.
      destruct (isTesting s); reflexivity.
    + injection Hd as Hd. subst s0. rewrite stopTest_eq.
      destruct (isTesting s); cbn [negb]; [|reflexivity]. cbv zeta.
      destruct (updateTimer s); reflexivity.
    + destruct (awaiting AwaitFetch s r); [|discriminate].
      injection Hd as Hd. subst s0. unfold_methods. split_cases; fields; reflexivity.
    + destruct (awaiting AwaitRead s r); [|discriminate].
      injection Hd as Hd. subst s0. unfold_methods. split_cases; fields; reflexivity.
    + destruct (timeouts s !! t) as [tm|]; [|discriminate].
      injection Hd as Hd. subst s0.
      destruct (callback tm); unfold_methods; split_cases; fields; reflexivity.
Qed.

Lemma startTime_runNoStart es s s' :
  runNoStart s es = Some s' -> startTime s' = startTime s.
Proof.
  revert s. induction es as [|e es IH]; intros s H; cbn [runNoStart] in H.
  - injection H as H. subst s'. reflexivity.
  - destruct (starts s e) eqn:Hst; [discriminate|].
    destruct (step s e) as [s1|] eqn:E; [|discriminate].
    rewrite (IH _ H). eapply startTime_step; eauto.
Qed.

(** Every state of a running session has behind it the click that began
    the session. *)
Lemma last_start es2 s :
  run initial es2 = Some s -> isTesting s = true ->
  exists es0 s0 f t0 s1 es,
    es2 = es0 ++ StartClick f t0 :: es /\ run initial es0 = Some s0 /\
    starts s0 (StartClick f t0) = true /\
    step s0 (StartClick f t0) = Some s1 /\ runNoStart s1 es = Some s.
Proof.
  revert s. induction es2 as [|e es1 IH] using rev_ind; intros s H Hs.
  - injection H as H. subst s. discriminate.
  - rewrite run_app in H. destruct (run initial es1) as [sp|] eqn:E0; [|discriminate].
    cbn [run] in H. destruct (step sp e) as [s'|] eqn:E; [|discriminate].
    injection H as H. subst s'.
    destruct (starts sp e) eqn:Hst.
    + destruct e as [f now| | | | |]; try discriminate Hst.
      exists es1, sp, f, now, s, []. repeat split; auto.
    + assert (Hsp : isTesting sp = true) by (eapply testing_back; eauto).
      destruct (IH sp eq_refl Hsp)
        as (es0 & s0 & f & t0 & s1 & es & -> & Hr & Hst0 & Hstep & Hn).
      exists es0, s0, f, t0, s1, (es ++ [e]).
      split; [rewrite <- app_assoc; reflexivity|]. split; [exact Hr|].
      split; [exact Hst0|]. split; [exact Hstep|].
      rewrite runNoStart_app, Hn. cbn [runNoStart]. rewrite Hst, E. reflexivity.
Qed.

(** C10. Every state of a running session has behind it the click on
    start, at some [t0], that began the session, and [startTime] is that
    [t0] whatever has happened since.  [stopTest] appends the stop lines of
    the threads and then one summary line; its elapsed time is
    (now - t0) / 1000 and its mean speed is
    totalDownloaded / elapsed / 2^20 when the elapsed time is positive and
    0 otherwise, in particular when the session is stopped at the instant
    [t0] it was started.  Whatever event ends the session (the stop button,
    the chunk that reaches the budget, the failure of the last worker), its
    step leaves exactly one summary line in the log, with the time of that
    event and the total the step leaves. *)
Theorem stopTest_summary es2 s :
  run initial es2 = Some s ->
  isTesting s = true ->
  (exists es0 s0 f t0 s1 es,
      es2 = es0 ++ StartClick f t0 :: es /\ run initial es0 = Some s0 /\
      starts s0 (StartClick f t0) = true /\
      step s0 (StartClick f t0) = Some s1 /\ runNoStart s1 es = Some s) /\
  forall es0 s0 f t0 s1 es,
    run initial es0 = Some s0 ->
    starts s0 (StartClick f t0) = true ->
    step s0 (StartClick f t0) = Some s1 ->
    runNoStart s1 es = Some s ->
    startTime s = t0 /\
    (forall now,
       let elapsed := (inject_Z (now - t0) / 1000)%Q in
       let mean :=
         if decide (t0 < now)
         then (inject_Z (totalDownloaded s) / elapsed / (1024 * 1024))%Q
         else 0%Q in
       ((0 < elapsed)%Q <-> t0 < now) /\
       testLog (stopTest now s) =
         testLog s ++ stoppedLines (threads s) (activeThreads s)
           ++ [LogStopped elapsed mean (totalDownloaded s)]) /\
    testLog (stopTest t0 s) =
      testLog s ++ stoppedLines (threads s) (activeThreads s)
        ++ [LogStopped (0 / 1000) 0 (totalDownloaded s)] /\
    (forall e s',
       step s e = Some s' -> isTesting s' = false ->
       let elapsed := (inject_Z (eventTime e - t0) / 1000)%Q in
       let mean :=
         if decide (t0 < eventTime e)
         then (inject_Z (totalDownloaded s') / elapsed / (1024 * 1024))%Q
         else 0%Q in
       exists pre post,
         testLog s' =
           testLog s ++ pre ++ [LogStopped elapsed mean (totalDownloaded s')] ++ post /\
         Forall (fun l => isSummary l = false) pre /\
         Forall (fun l => isSummary l = false) post).
Proof.
  intros Hrun2 Hs. split; [apply last_start; assumption|].
  intros es0 s0 f t0 s1 es Hrun0 Hst Hstep Hrun.
  pose proof (reachable_wellFormed _ _ Hrun0) as [_ _ Hc0].
  pose proof (reachable_wellFormed _ _ Hrun2) as [_ _ Hc].
  destruct (start_sets s0 f t0 s1 Hc0 Hst Hstep) as (Ht0 & _ & _).
  pose proof (startTime_runNoStart es s1 s Hrun) as Ht. rewrite Ht0 in Ht.
  split; [exact Ht|]. split; [|split].
  - intros now. cbv zeta. split.
    + unfold Qlt. cbn. lia.
    + destruct (stopTest_line now s Hs) as (H1 & _). rewrite H1, Ht. reflexivity.
  - destruct (stopTest_line t0 s Hs) as (H1 & _). rewrite H1, Ht.
    unfold summaryLine. cbv zeta. rewrite Z.sub_diag, decide_False by lia. reflexivity.
  - intros e s' Hstep' Hs'. cbv zeta.
    pose proof (step_summary s e s' Hc Hs Hstep' Hs') as (pre & post & H1 & H2 & H3).
    rewrite Ht in H1. exists pre, post. auto.
Qed.

(** The session of two workers, stopped at the instant it was started. *)
Lemma stopTest_summary_witness :
  startTime demoRunning = 1000 /\
  testLog (stopTest 1000 demoRunning) =
    testLog demoRunning
      ++ [LogThreadStopped 0; LogThreadStopped 1; LogStopped (0 / 1000) 0 0].
Proof.
  destruct (stopTest_summary demoTrace demoRunning) as (_ & H).
  - vm_compute. reflexivity.
  - vm_compute. reflexivity.
  - destruct (H [] initial (form "cn1" 2 1 MB) 1000
                (default initial (run initial (take 1 demoTrace)))
                (drop 1 demoTrace)) as (H1 & _ & H3 & _).
    + reflexivity.
    + vm_compute. reflexivity.
    + vm_compute. reflexivity.
    + vm_compute. reflexivity.
    + split; [exact H1|]. rewrite H3. vm_compute. reflexivity.
Defined.

(** ** All workers fail *)

(** How the steps of a running session move [structure]. *)
Section Structure.
Variable N : nat.
Variables (ts : list TestThread) (act : list nat) (tmo : gmap nat Timeout)
          (F : list nat).
Hypothesis St : structure N ts act tmo F.

Lemma slotIn_alter (f : TestThread -> TestThread) (r : nat) :
  (forall th, id (f th) = id th) ->
  forall r', slotIn (alter f r ts) r' = slotIn ts r'.
Proof.
  intros Hid r'. unfold slotIn. rewrite list_lookup_alter.
  case_decide; subst; [|reflexivity].
  destruct (ts !! r'); cbn; [apply Hid|reflexivity].
Qed.

Lemma slots_alter (f : TestThread -> TestThread) (r : nat) (l : list nat) :
  (forall th, id (f th) = id th) ->
  slotIn (alter f r ts) <$> l = slotIn ts <$> l.
Proof.
  intros Hid. apply list_fmap_ext. intros i r' _. apply slotIn_alter, Hid.
Qed.

(** A pending thread is registered, active and has no reconnect timer. *)
Lemma pending_active r th :
  ts !! r = Some th -> pendingTask (task th) = true ->
  r ∈ act /\ isActive th = true /\ aborted th = false /\ (r ∉ F) /\ (id th < N)%nat.
Proof.
  intros Hth Hp. pose proof (st_pending _ _ _ _ _ St r th Hth Hp) as Hin.
  destruct (st_act _ _ _ _ _ St r Hin) as (th' & Hth' & Hid & Hab & Hiff & Hthrown).
  rewrite Hth in Hth'. inversion Hth'; subst th'. clear Hth'.
  assert (Ha : isActive th = true).
  { destruct (isActive th) eqn:E; [reflexivity|].
    rewrite (Hthrown eq_refl) in Hp. discriminate. }
  repeat split; auto. intros HF. apply Hiff in HF. congruence.
Qed.

Lemma pending_no_timer r th t tm :
  ts !! r = Some th -> pendingTask (task th) = true ->
  tmo !! t = Some tm -> callback tm <> ReconnectIfTesting r.
Proof.
  intros Hth Hp Ht Hcb.
  destruct (st_timers _ _ _ _ _ St t tm r Ht Hcb) as (_ & th' & Hth' & _ & Htask).
  rewrite Hth in Hth'. inversion Hth'; subst. rewrite Htask in Hp. discriminate.
Qed.

(** Writes that leave id, abort flag, activity and task alone. *)
Lemma structure_alter_data (f : TestThread -> TestThread) (r : nat) :
  (forall th, id (f th) = id th /\ aborted (f th) = aborted th /\
              isActive (f th) = isActive th /\ task (f th) = task th) ->
  structure N (alter f r ts) act tmo F.
Proof.
  intros Hf. destruct St as [S1 S2 S3 S4 S5 S6]. split.
  - rewrite slots_alter by (intros; apply Hf). exact S1.
  - intros r' Hin. destruct (S2 r' Hin) as (th & Hth & H).
    rewrite list_lookup_alter. case_decide; subst.
    + rewrite Hth. cbn. eexists. split; [reflexivity|].
      destruct (Hf th) as (-> & -> & -> & ->). exact H.
    + eauto.
  - exact S3.
  - intros r' th. rewrite list_lookup_alter. case_decide; subst.
    + destruct (ts !! r') as [th0|] eqn:E; cbn; [|discriminate].
      intros H; inversion H; subst. destruct (Hf th0) as (_ & _ & _ & ->).
      apply (S4 r' th0 E).
    + apply S4.
  - intros t tm r' Ht Hcb. destruct (S5 t tm r' Ht Hcb) as (Hin & th & Hth & H).
    split; [exact Hin|]. rewrite list_lookup_alter. case_decide; subst.
    + rewrite Hth. cbn. eexists. split; [reflexivity|].
      destruct (Hf th) as (_ & _ & -> & ->). exact H.
    + eauto.
  - exact S6.
Qed.

(** A pending thread moves on to its next suspension. *)
Lemma structure_alter_task (r : nat) (th : TestThread) (k : Task) :
  ts !! r = Some th -> pendingTask (task th) = true -> pendingTask k = true ->
  structure N (alter (set_task k) r ts) act tmo F.
Proof.
  intros Hth Hp Hk.
  destruct (pending_active r th Hth Hp) as (Hin & Hact & Hab & HF & Hid).
  pose proof (pending_no_timer r th) as Hnt.
  destruct St as [S1 S2 S3 S4 S5 S6]. split.
  - rewrite slots_alter by reflexivity. exact S1.
  - intros r' Hin'. rewrite list_lookup_alter. case_decide; subst.
    + rewrite Hth. cbn. eexists. split; [reflexivity|]. cbn.
      repeat split; auto; intros; first [congruence | exfalso; auto].
    + auto.
  - exact S3.
  - intros r' th'. rewrite list_lookup_alter. case_decide; subst; [auto|apply S4].
  - intros t tm r' Ht Hcb. destruct (S5 t tm r' Ht Hcb) as (Hin' & th' & Hth' & H).
    split; [exact Hin'|]. rewrite list_lookup_alter. case_decide; subst.
    + exfalso. eapply Hnt; eauto.
    + eauto.
  - exact S6.
Qed.

(** The stream of a pending thread ends: a reconnect is scheduled. *)
Lemma structure_done (r : nat) (th : TestThread) (t : nat) (d : Z) :
  ts !! r = Some th -> pendingTask (task th) = true ->
  structure N (alter (set_task Returned) r ts) act
            (<[t := mkTimeout d (ReconnectIfTesting r)]> tmo) F.
Proof.
  intros Hth Hp.
  destruct (pending_active r th Hth Hp) as (Hin & Hact & Hab & HF & Hid).
  pose proof (pending_no_timer r th) as Hnt.
  destruct St as [S1 S2 S3 S4 S5 S6]. split.
  - rewrite slots_alter by reflexivity. exact S1.
  - intros r' Hin'. rewrite list_lookup_alter. case_decide; subst.
    + rewrite Hth. cbn. eexists. split; [reflexivity|]. cbn.
      repeat split; auto; intros; first [congruence | exfalso; auto].
    + auto.
  - exact S3.
  - intros r' th'. rewrite list_lookup_alter. case_decide; subst; [|apply S4].
    rewrite Hth. cbn. intros H; inversion H; subst. cbn. discriminate.
  - intros t' tm r' Ht Hcb. apply lookup_insert_Some in Ht.
    destruct Ht as [[-> <-]|[Hne Ht]].
    + cbn in Hcb. inversion Hcb; subst. split; [exact Hin|].
      rewrite list_lookup_alter_eq, Hth. cbn. eexists. split; [reflexivity|].
      cbn. auto.
    + destruct (S5 t' tm r' Ht Hcb) as (Hin' & th' & Hth' & H).
      split; [exact Hin'|]. rewrite list_lookup_alter. case_decide; subst.
      * exfalso. eapply Hnt; eauto.
      * eauto.
  - intros t1 t2 tm1 tm2 r' H1 H2 C1 C2.
    apply lookup_insert_Some in H1, H2.
    destruct H1 as [[-> <-]|[Hne1 H1]], H2 as [[-> <-]|[Hne2 H2]]; cbn in *.
    + reflexivity.
    + inversion C1; subst. exfalso. eapply Hnt; eauto.
    + inversion C2; subst. exfalso. eapply Hnt; eauto.
    + eapply S6; eauto.
Qed.

(** A pending thread fails. *)
Lemma structure_fail (r : nat) (th : TestThread) :
  ts !! r = Some th -> pendingTask (task th) = true ->
  structure N (alter (fun t => set_task Thrown (set_isActive false t)) r ts)
            act tmo (F ++ [r]).
Proof.
  intros Hth Hp.
  destruct (pending_active r th Hth Hp) as (Hin & Hact & Hab & HF & Hid).
  pose proof (pending_no_timer r th) as Hnt.
  destruct St as [S1 S2 S3 S4 S5 S6]. split.
  - rewrite slots_alter by reflexivity. exact S1.
  - intros r' Hin'. rewrite list_lookup_alter. case_decide; subst.
    + rewrite Hth. cbn. eexists. split; [reflexivity|]. cbn.
      repeat split; auto. intros _. apply elem_of_app. right. left.
    + destruct (S2 r' Hin') as (th' & Hth' & Hid' & Hab' & Hiff & Hthr).
      exists th'. repeat split; auto.
      * intros Hi. apply elem_of_app. left. apply Hiff, Hi.
      * intros HF'. apply elem_of_app in HF'. destruct HF' as [HF'|HF'].
        -- apply Hiff, HF'.
        -- apply list_elem_of_singleton in HF'. congruence.
  - intros r' HF'. apply elem_of_app in HF'. destruct HF' as [HF'|HF'].
    + apply S3, HF'.
    + apply list_elem_of_singleton in HF'. subst. exact Hin.
  - intros r' th'. rewrite list_lookup_alter. case_decide; subst; [|apply S4].
    rewrite Hth. cbn. intros H; inversion H; subst. cbn. discriminate.
  - intros t tm r' Ht Hcb. destruct (S5 t tm r' Ht Hcb) as (Hin' & th' & Hth' & H).
    split; [exact Hin'|]. rewrite list_lookup_alter. case_decide; subst.
    + exfalso. eapply Hnt; eauto.
    + eauto.
  - exact S6.
Qed.

Lemma structure_delete (t : nat) : structure N ts act (delete t tmo) F.
Proof.
  destruct St as [S1 S2 S3 S4 S5 S6]. split; auto.
  - intros t' tm r Ht. apply lookup_delete_Some in Ht. destruct Ht as [_ Ht]. eauto.
  - intros t1 t2 tm1 tm2 r H1 H2.
    apply lookup_delete_Some in H1, H2. destruct H1 as [_ H1], H2 as [_ H2]. eauto.
Qed.
End Structure.

(** A tick replaces the update timer. *)
Lemma structure_tick N ts act tmo F t d :
  structure N ts act tmo F ->
  structure N ts act (<[t := mkTimeout d UpdateTick]> tmo) F.
Proof.
  intros [S1 S2 S3 S4 S5 S6]. split; auto.
  - intros t' tm r Ht Hcb. apply lookup_insert_Some in Ht.
    destruct Ht as [[-> <-]|[_ Ht]]; [discriminate|eauto].
  - intros t1 t2 tm1 tm2 r H1 H2 C1 C2. apply lookup_insert_Some in H1, H2.
    destruct H1 as [[-> <-]|[_ H1]]; [discriminate|].
    destruct H2 as [[-> <-]|[_ H2]]; [discriminate|]. eauto.
Qed.

Lemma NoDup_fmap_eq {A B} (f : A -> B) (l : list A) (x y : A) :
  NoDup (f <$> l) -> x ∈ l -> y ∈ l -> f x = f y -> x = y.
Proof.
  induction l as [|a l IH]; intros Hnd Hx Hy E; [inversion Hx|].
  cbn in Hnd. apply NoDup_cons in Hnd. destruct Hnd as [Hna Hnd].
  apply elem_of_cons in Hx, Hy.
  destruct Hx as [->|Hx], Hy as [->|Hy]; auto.
  - exfalso. apply Hna. rewrite E. apply list_elem_of_fmap_2, Hy.
  - exfalso. apply Hna. rewrite <- E. apply list_elem_of_fmap_2, Hx.
Qed.

Lemma NoDup_fmap_filter {A B} (f : A -> B) (p : A -> bool) (l : list A) :
  NoDup (f <$> l) -> NoDup (f <$> List.filter p l).
Proof.
  induction l as [|a l IH]; intros Hnd; [constructor|].
  cbn in Hnd. apply NoDup_cons in Hnd. destruct Hnd as [Hna Hnd].
  cbn [List.filter]. destruct (p a); [|auto].
  cbn. apply NoDup_cons. split; [|auto].
  intros Hin. apply Hna. apply list_elem_of_fmap in Hin.
  destruct Hin as (x & -> & Hx). apply list_elem_of_fmap_2.
  apply list_elem_of_In, filter_In in Hx. apply list_elem_of_In. tauto.
Qed.

Lemma elem_of_filter_bool {A} (p : A -> bool) (l : list A) (x : A) :
  x ∈ List.filter p l <-> x ∈ l /\ p x = true.
Proof. rewrite !list_elem_of_In. apply filter_In. Qed.

(** The reconnect of the thread a timer was waiting for. *)
Lemma structure_reconnect N ts act tmo F t tm r th u :
  structure N ts act tmo F ->
  tmo !! t = Some tm -> callback tm = ReconnectIfTesting r ->
  ts !! r = Some th ->
  let keep (t : nat) : bool :=
    match ts !! t with
    | Some th' => negb (id th' =? id th)%nat
    | None => true
    end in
  structure N (ts ++ [mkThread (id th) u false 0 true AwaitFetch])
            (List.filter keep act ++ [length ts]) (delete t tmo) F.
Proof.
  intros St Ht Hcb Hth keep.
  destruct (st_timers _ _ _ _ _ St t tm r Ht Hcb) as (Hin & th0 & Hth0 & Hact & Htask).
  rewrite Hth in Hth0. inversion Hth0; subst th0. clear Hth0.
  destruct (st_act _ _ _ _ _ St r Hin) as (th0 & Hth0 & Hid & Hab & Hiff & _).
  rewrite Hth in Hth0. inversion Hth0; subst th0. clear Hth0.
  assert (Hvalid : forall r', r' ∈ act -> (r' < length ts)%nat).
  { intros r' Hr'. destruct (st_act _ _ _ _ _ St r' Hr') as (th' & Hth' & _).
    eapply lookup_lt_Some, Hth'. }
  assert (Hkeep : forall r', r' ∈ act -> r' <> r -> keep r' = true).
  { intros r' Hr' Hne. unfold keep.
    destruct (ts !! r') as [th'|] eqn:E; [|reflexivity].
    apply negb_true_iff, Nat.eqb_neq. intros Heq. apply Hne.
    apply (NoDup_fmap_eq (slotIn ts) act r' r (st_slots _ _ _ _ _ St) Hr' Hin).
    unfold slotIn. rewrite E, Hth. exact Heq. }
  assert (Hold : forall r', (r' < length ts)%nat ->
            (ts ++ [mkThread (id th) u false 0 true AwaitFetch]) !! r' = ts !! r').
  { intros r' Hlt. apply lookup_app_l, Hlt. }
  assert (Hnew : (ts ++ [mkThread (id th) u false 0 true AwaitFetch]) !! length ts
                 = Some (mkThread (id th) u false 0 true AwaitFetch)).
  { rewrite lookup_app_r by lia. rewrite Nat.sub_diag. reflexivity. }
  split.
  - rewrite fmap_app. apply NoDup_app. split; [|split].
    + erewrite list_fmap_ext; [apply NoDup_fmap_filter, (st_slots _ _ _ _ _ St)|].
      intros i r' Hr'. apply list_elem_of_lookup_2, elem_of_filter_bool in Hr'.
      unfold slotIn. rewrite Hold by (apply Hvalid; tauto). reflexivity.
    + intros i Hi Hi'. cbn in Hi'. apply list_elem_of_singleton in Hi'. subst i.
      apply list_elem_of_fmap in Hi. destruct Hi as (r' & E & Hr').
      apply elem_of_filter_bool in Hr'. destruct Hr' as [Hr' Hk].
      destruct (st_act _ _ _ _ _ St r' Hr') as (th' & Hth' & _).
      unfold slotIn in E. rewrite Hnew, Hold, Hth' in E by auto. cbn in E.
      unfold keep in Hk. rewrite Hth' in Hk.
      apply negb_true_iff, Nat.eqb_neq in Hk. congruence.
    + cbn. apply NoDup_singleton.
  - intros r' Hr'. apply elem_of_app in Hr'. destruct Hr' as [Hr'|Hr'].
    + apply elem_of_filter_bool in Hr'. destruct Hr' as [Hr' _].
      rewrite Hold by auto. apply (st_act _ _ _ _ _ St), Hr'.
    + apply list_elem_of_singleton in Hr'. subst r'. rewrite Hnew.
      eexists. split; [reflexivity|]. cbn. repeat split; auto; try discriminate.
      intros HF. apply (st_failed _ _ _ _ _ St), Hvalid in HF. lia.
  - intros r' HF. pose proof (st_failed _ _ _ _ _ St r' HF) as Hr'.
    apply elem_of_app. left. apply elem_of_filter_bool. split; [exact Hr'|].
    apply Hkeep; [exact Hr'|]. intros E. rewrite E in HF. apply Hiff in HF. congruence.
  - intros r' th' Hth' Hp. apply lookup_app_Some in Hth'.
    destruct Hth' as [Hth'|[Hge Hth']].
    + apply elem_of_app. left. apply elem_of_filter_bool.
      pose proof (st_pending _ _ _ _ _ St r' th' Hth' Hp) as Hr'.
      split; [exact Hr'|]. apply Hkeep; [exact Hr'|].
      intros E. rewrite E, Hth in Hth'. inversion Hth' as [E']. rewrite <- E' in Hp.
      rewrite Htask in Hp. discriminate.
    + apply elem_of_app. right. apply list_elem_of_singleton.
      apply lookup_lt_Some in Hth'. cbn in Hth'. lia.
  - intros t' tm' r' Ht' Hcb'. apply lookup_delete_Some in Ht'.
    destruct Ht' as [Hne Ht'].
    destruct (st_timers _ _ _ _ _ St t' tm' r' Ht' Hcb') as (Hr' & H).
    split.
    + apply elem_of_app. left. apply elem_of_filter_bool. split; [exact Hr'|].
      apply Hkeep; [exact Hr'|]. intros E. rewrite E in Hcb'. apply Hne.
      eapply (st_timer_uniq _ _ _ _ _ St); eauto.
    + rewrite Hold by auto. exact H.
  - intros t1 t2 tm1 tm2 r' H1 H2.
    apply lookup_delete_Some in H1, H2. destruct H1 as [_ H1], H2 as [_ H2].
    eapply (st_timer_uniq _ _ _ _ _ St); eauto.
Qed.

(** The threads [startTest] creates, on top of a store with nothing
    suspended and no reconnect waiting. *)
Lemma structure_start N ts0 tmo0 u rand now :
  Forall (fun th => pendingTask (task th) = false) ts0 ->
  (forall t tm, tmo0 !! t = Some tm -> callback tm = UpdateTick) ->
  structure N (ts0 ++ (newThread u rand now <$> seq 0 N))
            (seq (length ts0) N) tmo0 [].
Proof.
  intros Hts Htmo.
  assert (Hnew : forall i, (i < N)%nat ->
            (ts0 ++ (newThread u rand now <$> seq 0 N)) !! (length ts0 + i)%nat
            = Some (newThread u rand now i)).
  { intros i Hi. rewrite lookup_app_r by lia.
    replace (length ts0 + i - length ts0)%nat with i by lia.
    rewrite list_lookup_fmap, lookup_seq_lt by exact Hi. reflexivity. }
  split.
  - replace (slotIn (ts0 ++ (newThread u rand now <$> seq 0 N)) <$> seq (length ts0) N)
      with (seq 0 N); [apply NoDup_seq|].
    apply list_eq. intros i. rewrite list_lookup_fmap.
    destruct (decide (i < N)%nat) as [Hi|Hi].
    + rewrite !lookup_seq_lt by exact Hi. cbn. unfold slotIn.
      rewrite Hnew by exact Hi. reflexivity.
    + rewrite !lookup_seq_ge by lia. reflexivity.
  - intros r Hr. apply elem_of_seq in Hr.
    replace r with (length ts0 + (r - length ts0))%nat by lia.
    rewrite Hnew by lia. eexists. split; [reflexivity|]. cbn.
    repeat split; try lia; try discriminate. intros HF. inversion HF.
  - intros r HF. inversion HF.
  - intros r th Hth Hp. apply lookup_app_Some in Hth.
    destruct Hth as [Hth|[Hge Hth]].
    + exfalso. rewrite Forall_lookup in Hts. rewrite (Hts r th Hth) in Hp. discriminate.
    + apply elem_of_seq. apply lookup_lt_Some in Hth.
      rewrite length_fmap, length_seq in Hth. lia.
  - intros t tm r Ht Hcb. rewrite (Htmo t tm Ht) in Hcb. discriminate.
  - intros t1 t2 tm1 tm2 r H1 _ C1. rewrite (Htmo t1 tm1 H1) in C1. discriminate.
Qed.

Lemma countLog_app f l l' : countLog f (l ++ l') = (countLog f l + countLog f l')%nat.
Proof. unfold countLog. rewrite List.filter_app, length_app. reflexivity. Qed.

Lemma countLog_stoppedLines ts l : countLog isAllInterrupted (stoppedLines ts l) = 0%nat.
Proof.
  unfold countLog, stoppedLines. induction l as [|r l IH]; cbn [flat_map]; [reflexivity|].
  rewrite List.filter_app, length_app, IH. destruct (ts !! r); reflexivity.
Qed.

Lemma markAll_pending_aborted N ts act tmo F :
  structure N ts act tmo F ->
  Forall (fun th => pendingTask (task th) = true -> aborted th = true)
         (markAll act ts).
Proof.
  intros St. apply Forall_lookup. intros r th Hth Hp.
  destruct (decide (r ∈ act)) as [Hin|Hin].
  - rewrite markAll_lookup_in in Hth by exact Hin.
    destruct (ts !! r); cbn in Hth; inversion Hth; subst. reflexivity.
  - rewrite markAll_lookup_notin in Hth by exact Hin.
    exfalso. apply Hin. eapply (st_pending _ _ _ _ _ St); eauto.
Qed.

Lemma forallb_inactive_false s :
  forallb (inactive s) (activeThreads s) = false ->
  exists r th, r ∈ activeThreads s /\ threads s !! r = Some th /\ isActive th = true.
Proof.
  induction (activeThreads s) as [|r l IH]; cbn [forallb]; [discriminate|].
  intros H. apply andb_false_iff in H. destruct H as [H|H].
  - unfold inactive in H. destruct (threads s !! r) as [th|] eqn:E; [|discriminate].
    exists r, th. split; [left|]. split; [exact E|].
    apply negb_false_iff, H.
  - destruct (IH H) as (r' & th & Hin & Hth & Ha). exists r', th.
    split; [right; exact Hin|auto].
Qed.

(** The [.catch] of a pending thread of a running session. *)
Lemma catch_running N c0 F s r th error now :
  running N c0 F s ->
  threads s !! r = Some th -> pendingTask (task th) = true ->
  err_name error <> "AbortError"%string ->
  let s1 := downloadFile_catch r error now s in
  running N c0 (F ++ [r]) s1 \/ halted (S c0) s1.
Proof.
  intros (Hs & Hacq & Hc & St & Halive) Hth Hp Hname. cbv zeta.
  unfold downloadFile_catch. rewrite Hth.
  assert (Hn : negb (err_name error =? "AbortError")%string = true).
  { apply negb_true_iff, String.eqb_neq, Hname. }
  rewrite Hn. unfold checkAllThreadsCompleted.
  set (s' := updThread r _ (log _ s)).
  assert (Hs' : isTesting s' = true) by exact Hs.
  assert (St' : structure N (threads s') (activeThreads s') (timeouts s') (F ++ [r])).
  { subst s'. fields. apply (structure_fail _ _ _ _ _ St r th Hth Hp). }
  assert (Hc' : countLog isAllInterrupted (testLog s') = c0).
  { subst s'. fields. rewrite countLog_app, Hc. cbn. lia. }
  rewrite Hs', andb_true_r.
  destruct (forallb (inactive s') (activeThreads s')) eqn:Hall.
  - right.
    assert (Hs'' : isTesting (log LogAllInterrupted s') = true) by exact Hs.
    destruct (stopTest_running now _ Hs'') as (H1 & _ & _ & _ & _ & H6 & H7 & _).
    split; [exact H1|]. split.
    { rewrite stopTest_eq, Hs''. cbn [negb]. cbv zeta. fields.
      destruct (updateTimer s'); fields; subst s'; fields; exact Hacq. }
    split.
    + rewrite H7. fields. rewrite !countLog_app, countLog_stoppedLines, Hc'. cbn. lia.
    + rewrite H6. fields. eapply markAll_pending_aborted, St'.
  - left. split; [exact Hs'|]. split; [subst s'; fields; exact Hacq|].
    split; [exact Hc'|]. split; [exact St'|].
    apply forallb_inactive_false, Hall.
Qed.

Lemma awaiting_pending k s r :
  awaiting k s r = true -> pendingTask k = true ->
  exists th, threads s !! r = Some th /\ pendingTask (task th) = true.
Proof.
  intros H Hk. apply awaiting_true in H. destruct H as (th & Hth & <- & _). eauto.
Qed.

Lemma slotIn_markAll l ts r : slotIn (markAll l ts) r = slotIn ts r.
Proof.
  unfold slotIn. destruct (decide (r ∈ l)).
  - rewrite markAll_lookup_in by assumption. destruct (ts !! r); reflexivity.
  - rewrite markAll_lookup_notin by assumption. reflexivity.
Qed.

(** One handler run on a running session: it goes on, or it was stopped
    because every worker failed, or it was stopped by the budget while a
    worker that never failed was reading. *)
Lemma dispatch_running N c0 F s e s1 :
  running N c0 F s -> workerEvent e -> dispatch e s = Some s1 ->
  running N c0 (F ++ failedBy e) s1 \/ halted (S c0) s1 \/
  (halted c0 s1 /\ unfailedSlot N (threads s1) (F ++ failedBy e)).
Proof.
  intros Hrun Hev Hd. pose proof Hrun as (Hs & Hacq & Hc & St & Halive).
  destruct e as [| | |r o now|r o now|t rnd now]; cbn [workerEvent] in Hev;
    try contradiction; cbn [dispatch failedBy] in Hd |- *.
  - (* fetch settled *)
    destruct (awaiting AwaitFetch s r) eqn:G; [|discriminate].
    destruct (awaiting_pending _ _ _ G eq_refl) as (th & Hth & Hp).
    inversion Hd; subst s1; clear Hd.
    destruct (pending_active _ _ _ _ _ St r th Hth Hp) as (Hin & Hact & Hab & HF & Hid).
    unfold downloadFile_fetched. rewrite Hth.
    destruct o as [[|] status|error].
    + destruct (nullBodyStatus status).
      { destruct (catch_running N c0 F s r th nullBodyError now Hrun Hth Hp)
          as [H|H]; [discriminate|auto..]. }
      left. rewrite app_nil_r. unfold readStream_loop. fields.
      rewrite Hth, Hs, Hact. cbn [andb]. unfold running. fields.
      split; [exact Hs|]. split; [exact Hacq|].
      split; [rewrite countLog_app, Hc; cbn; lia|].
      split; [apply (structure_alter_task _ _ _ _ _ St r th); auto|].
      exists r. rewrite list_lookup_alter_eq, Hth. cbn.
      eexists. split; [exact Hin|]. split; [reflexivity|exact Hact].
    + destruct (catch_running N c0 F s r th
                  (mkJsError "Error" ("HTTP error! status: " ++ dec status)) now
                  Hrun Hth Hp) as [H|H]; [discriminate|auto..].
    + destruct (catch_running N c0 F s r th error now Hrun Hth Hp Hev) as [H|H]; auto.
  - (* read settled *)
    destruct (awaiting AwaitRead s r) eqn:G; [|discriminate].
    destruct (awaiting_pending _ _ _ G eq_refl) as (th & Hth & Hp).
    inversion Hd; subst s1; clear Hd.
    destruct (pending_active _ _ _ _ _ St r th Hth Hp) as (Hin & Hact & Hab & HF & Hid).
    destruct o as [n| |error].
    + (* chunk *)
      rewrite app_nil_r.
      destruct (Qle_bool (targetTrafficBytes s)
                  (inject_Z (totalDownloaded s + Z.of_N n))) eqn:Hle.
      * right. right.
        destruct (chunk_crossing now s r th n Hth Hs Hle)
          as (H1 & _ & _ & _ & _ & H6 & H7 & _).
        assert (Hacq1 : acquiring (readStream_read r (Chunk n) now s) = []).
        { rewrite (readStream_read_chunk _ _ _ _ _ Hth). cbv zeta. rewrite Hle.
          rewrite stopTest_eq. fields. rewrite Hs. cbn [negb]. cbv zeta.
          destruct (updateTimer s); fields; exact Hacq. }
        assert (St' : structure N
                        (alter (fun t => set_downloaded (downloaded t + Z.of_N n) t)
                               r (threads s))
                        (activeThreads s) (timeouts s) F).
        { apply structure_alter_data; [exact St|]. intros; cbn; auto. }
        split.
        -- split; [exact H1|]. split; [exact Hacq1|]. split.
           ++ rewrite H7, !countLog_app, countLog_stoppedLines, Hc. cbn. lia.
           ++ rewrite H6. apply Forall_alter.
              ** eapply markAll_pending_aborted, St'.
              ** intros x _ _. cbn. discriminate.
        -- exists (id th). split; [exact Hid|]. intros r' HF' E.
           rewrite H6 in E.
           rewrite slotIn_alter, slotIn_markAll, slotIn_alter in E by reflexivity.
           assert (r' = r); [|congruence].
           apply (NoDup_fmap_eq (slotIn (threads s)) (activeThreads s) r' r
                    (st_slots _ _ _ _ _ St)); auto.
           ++ apply (st_failed _ _ _ _ _ St), HF'.
           ++ rewrite E. unfold slotIn. rewrite Hth. reflexivity.
      * left. rewrite (readStream_read_chunk _ _ _ _ _ Hth). cbv zeta. rewrite Hle.
        unfold readStream_loop. fields. rewrite list_lookup_alter_eq, Hth. cbn.
        rewrite Hs, Hact. cbn [andb]. unfold running. fields.
        split; [exact Hs|]. split; [exact Hacq|]. split; [exact Hc|].
        split.
        -- eapply structure_alter_task.
           ++ apply structure_alter_data; [exact St|]. intros; cbn; auto.
           ++ rewrite list_lookup_alter_eq, Hth. reflexivity.
           ++ exact Hp.
           ++ reflexivity.
        -- exists r. rewrite !list_lookup_alter_eq, Hth. cbn.
           eexists. split; [exact Hin|]. split; [reflexivity|exact Hact].
    + (* end of stream *)
      left. rewrite app_nil_r. unfold readStream_read. rewrite Hth.
      unfold running, setTimeout. fields.
      split; [exact Hs|]. split; [exact Hacq|].
      split; [rewrite countLog_app, Hc; cbn; lia|].
      split; [apply (structure_done _ _ _ _ _ St r th); auto|].
      exists r. rewrite list_lookup_alter_eq, Hth. cbn.
      eexists. split; [exact Hin|]. split; [reflexivity|exact Hact].
    + (* read error *)
      unfold readStream_read. rewrite Hth.
      assert (Hn : negb (err_name error =? "AbortError")%string = true).
      { apply negb_true_iff, String.eqb_neq, Hev. }
      rewrite Hn.
      destruct (catch_running N c0 F s r th error now Hrun Hth Hp Hev) as [H|H]; auto.
  - (* timeout *)
    destruct (timeouts s !! t) as [tm|] eqn:Ht; [|discriminate].
    inversion Hd; subst s1; clear Hd. left. rewrite app_nil_r.
    destruct (callback tm) as [|r] eqn:Hcb.
    + unfold update, updateProgress, setTimeout. fields. rewrite Hs. cbn [negb].
      unfold running. fields.
      split; [exact Hs|]. split; [exact Hacq|]. split; [exact Hc|].
      split; [apply structure_tick, structure_delete, St|exact Halive].
    + destruct (st_timers _ _ _ _ _ St t tm r Ht Hcb) as (Hin & th & Hth & Hact & Htask).
      unfold reconnectIfTesting, reconnectThread, createTestThread. fields.
      rewrite Hs, Hth. unfold running. fields.
      split; [exact Hs|]. split; [exact Hacq|]. split; [exact Hc|].
      split; [apply (structure_reconnect N _ _ _ F t tm r th); auto|].
      exists (length (threads s)). eexists.
      split; [apply elem_of_app; right; left|].
      rewrite lookup_app_r by lia. rewrite Nat.sub_diag. split; reflexivity.
Qed.

Lemma running_noCancelled N c0 F s : running N c0 F s -> noCancelled s.
Proof.
  intros (_ & _ & _ & St & _). apply Forall_lookup. intros r th Hth.
  unfold cancelled. destruct (aborted th) eqn:Ha; [|reflexivity]. cbn.
  destruct (pendingTask (task th)) eqn:Hp.
  - destruct (pending_active _ _ _ _ _ St r th Hth Hp) as (_ & _ & Hab & _). congruence.
  - destruct (task th); try discriminate; reflexivity.
Qed.

Lemma notPending_not_cancelled th :
  pendingTask (task th) = false -> cancelled th = false.
Proof.
  unfold cancelled. destruct (task th); try discriminate; intros _;
    cbn; apply andb_false_r.
Qed.

Lemma idle_noCancelled c s : idle c s -> noCancelled s.
Proof.
  intros (_ & _ & _ & H). eapply Forall_impl; [exact H|].
  intros th Hp. apply notPending_not_cancelled, Hp.
Qed.

Lemma slotIn_settle ts r : slotIn (settleCancelled <$> ts) r = slotIn ts r.
Proof.
  unfold slotIn. rewrite list_lookup_fmap. destruct (ts !! r) as [th|]; [|reflexivity].
  cbn. apply settleCancelled_fields.
Qed.

Lemma settle_not_pending th :
  (pendingTask (task th) = true -> aborted th = true) ->
  pendingTask (task (settleCancelled th)) = false.
Proof.
  intros H. pose proof (settleCancelled_clean th) as Hc.
  pose proof (settleCancelled_fields th) as (_ & _ & Ha & _).
  destruct (pendingTask (task (settleCancelled th))) eqn:Ep; [|reflexivity].
  exfalso. unfold cancelled in Hc.
  assert (Hab : aborted (settleCancelled th) = true).
  { rewrite Ha. apply H. unfold settleCancelled, settle in Ep.
    destruct (cancelled th); [|exact Ep].
    destruct (task th) eqn:Et; cbn in Ep; rewrite ?Et in Ep; try discriminate; reflexivity. }
  rewrite Hab in Hc. cbn [andb] in Hc. apply orb_false_iff in Hc.
  destruct Hc as [H1 H2]. apply bool_decide_eq_false in H1, H2.
  destruct (task (settleCancelled th)); try discriminate; congruence.
Qed.

(** The microtask checkpoint after [stopTest]. *)
Lemma halted_settles c s now :
  halted c s ->
  let s' := microtasks (length (threads s)) now s in
  idle c s' /\ forall r, slotIn (threads s') r = slotIn (threads s) r.
Proof.
  intros (Hs & Hacq & Hc & Hp). cbv zeta.
  rewrite microtasks_idle by (exact Hs || apply pendingCancelled_le).
  fields. split; [|apply slotIn_settle].
  split; [exact Hs|]. split; [exact Hacq|]. split; [exact Hc|].
  apply Forall_fmap. eapply Forall_impl; [exact Hp|]. intros th Hab.
  apply settle_not_pending, Hab.
Qed.

(** Without a session nothing is suspended, so the network has nothing to
    settle and the timers find [isTesting] false. *)
Lemma idle_step c s e s' :
  idle c s -> workerEvent e -> step s e = Some s' ->
  idle c s' /\ threads s' = threads s /\ failedBy e = [].
Proof.
  intros Hidle Hev H. pose proof Hidle as (Hs & Hacq & Hc & Hp).
  assert (Hoff : forall k r, pendingTask k = true -> awaiting k s r = false).
  { intros k r Hk. destruct (awaiting k s r) eqn:G; [|reflexivity].
    destruct (awaiting_pending _ _ _ G Hk) as (th & Hth & Hpt).
    rewrite Forall_lookup in Hp. rewrite (Hp r th Hth) in Hpt. discriminate. }
  unfold step in H.
  destruct e as [| | |r o now|r o now|t rnd now]; cbn [workerEvent] in Hev;
    try contradiction; cbn [dispatch] in H.
  - rewrite Hoff in H by reflexivity. discriminate.
  - rewrite Hoff in H by reflexivity. discriminate.
  - destruct (timeouts s !! t) as [tm|]; [|discriminate].
    assert (Hsame : (match callback tm with
                     | UpdateTick => update now (clearTimeout t s)
                     | ReconnectIfTesting r =>
                         reconnectIfTesting r rnd now (clearTimeout t s)
                     end) = clearTimeout t s).
    { destruct (callback tm); unfold update, reconnectIfTesting; fields;
        rewrite Hs; reflexivity. }
    rewrite Hsame in H. rewrite microtasks_quiet in H by (fields; apply (idle_noCancelled c s Hidle)).
    inversion H; subst s'. fields. split; [|split; reflexivity].
    split; [exact Hs|]. split; [exact Hacq|]. split; [exact Hc|exact Hp].
Qed.

(** [phase] is kept by the events of the network and the timers. *)
Lemma phase_step N c0 F s e s' :
  phase N c0 F s -> workerEvent e -> step s e = Some s' ->
  phase N c0 (F ++ failedBy e) s'.
Proof.
  intros [Hrun|[Hidle|[Hidle Hslot]]] Hev Hstep.
  - unfold step in Hstep. destruct (dispatch e s) as [s1|] eqn:Hd; [|discriminate].
    inversion Hstep; subst s'; clear Hstep.
    destruct (dispatch_running N c0 F s e s1 Hrun Hev Hd) as [H|[H|[H Hslot]]].
    + left. rewrite microtasks_quiet by (eapply running_noCancelled, H). exact H.
    + right. left. apply halted_settles, H.
    + right. right. destruct (halted_settles _ _ (eventTime e) H) as [Hi Hsl].
      split; [exact Hi|]. destruct Hslot as (i & Hi' & Hne).
      exists i. split; [exact Hi'|]. intros r Hr. rewrite Hsl. apply Hne, Hr.
  - destruct (idle_step _ _ _ _ Hidle Hev Hstep) as (H & _ & _). right. left. exact H.
  - destruct (idle_step _ _ _ _ Hidle Hev Hstep) as (H & Hts & HF).
    right. right. rewrite HF, app_nil_r, Hts. auto.
Qed.

Lemma phase_run N c0 es F s s' :
  phase N c0 F s -> Forall workerEvent es -> run s es = Some s' ->
  phase N c0 (F ++ flat_map failedBy es) s'.
Proof.
  revert F s. induction es as [|e es IH]; intros F s Hph Hev Hrun; cbn [run] in Hrun.
  - inversion Hrun; subst. cbn. rewrite app_nil_r. exact Hph.
  - destruct (step s e) as [s1|] eqn:E; [|discriminate].
    inversion Hev; subst. cbn [flat_map]. rewrite app_assoc.
    eapply IH; [|assumption|exact Hrun]. eapply phase_step; eauto.
Qed.

Lemma quiet_initial : quiet initial.
Proof.
  split; [reflexivity|]. split; [reflexivity|]. split; [constructor|].
  intros t tm H. cbn in H. rewrite lookup_empty in H. discriminate.
Qed.

(** A start from a quiet state leaves a running session of [N] workers. *)
Lemma session_start s form p t0 rand t1 s0 :
  quiet s -> validateTestParams form = inr p ->
  run s [StartClick form t0; WakeLockAcquired rand t1] = Some s0 ->
  running (Z.to_nat (threadCount p))
          (countLog isAllInterrupted (testLog s)) [] s0 /\
  targetTrafficBytes s0 = targetBytesOf p /\ totalDownloaded s0 = 0.
Proof.
  intros (Hs & Hacq & Hp & Htmo) Hv Hrun.
  assert (Hnc : noCancelled s).
  { eapply Forall_impl; [exact Hp|]. intros th Hpt.
    apply notPending_not_cancelled, Hpt. }
  cbn [run step dispatch eventTime] in Hrun.
  assert (Hst : startTest form t0 s =
                set_acquiring [(speedNode form, p)]
                  (updateUIState true
                     (set_activeThreads []
                        (set_lastUpdateTime t0
                           (set_startTime t0
                              (set_speedHistory []
                                 (set_lastDownloaded 0
                                    (set_totalDownloaded 0
                                       (set_isTesting true
                                          (set_targetTrafficBytes (targetBytesOf p) s)))))))))).
  { unfold startTest. rewrite Hs, Hv. fields. rewrite Hacq. reflexivity. }
  rewrite Hst in Hrun. rewrite microtasks_quiet in Hrun by (fields; exact Hnc).
  unfold step in Hrun. cbn [dispatch eventTime] in Hrun. fields in Hrun.
  unfold startTest_resume, update, updateProgress, setTimeout in Hrun.
  rewrite createThreads_eq in Hrun. fields in Hrun. cbn [negb] in Hrun. fields in Hrun.
  destruct (validateTestParams_accepts _ _ Hv) as (_ & _ & _ & Hn & _).
  set (N := Z.to_nat (threadCount p)) in *.
  assert (St : structure N
                 (threads s ++ (newThread (testUrl p) rand t1 <$> seq 0 N))
                 (seq (length (threads s)) N)
                 (<[nextTimeoutId s := mkTimeout updateInterval UpdateTick]> (timeouts s))
                 []).
  { apply structure_tick, structure_start; assumption. }
  assert (Hrunning : forall s1,
             isTesting s1 = true -> acquiring s1 = [] ->
             countLog isAllInterrupted (testLog s1)
               = countLog isAllInterrupted (testLog s) ->
             threads s1 = threads s ++ (newThread (testUrl p) rand t1 <$> seq 0 N) ->
             activeThreads s1 = seq (length (threads s)) N ->
             timeouts s1 = <[nextTimeoutId s := mkTimeout updateInterval UpdateTick]>
                             (timeouts s) ->
             running N (countLog isAllInterrupted (testLog s)) [] s1).
  { intros s1 H1 H2 H3 H4 H5 H6. split; [exact H1|]. split; [exact H2|].
    split; [exact H3|]. rewrite H4, H5, H6. split; [exact St|].
    exists (length (threads s)), (newThread (testUrl p) rand t1 0).
    split; [apply elem_of_seq; lia|].
    split; [|reflexivity].
    rewrite lookup_app_r by lia. rewrite Nat.sub_diag, list_lookup_fmap.
    rewrite lookup_seq_lt by lia. reflexivity. }
  match type of Hrun with
  | Some (microtasks _ _ ?x) = _ =>
      assert (Hx : running N (countLog isAllInterrupted (testLog s)) [] x)
  end.
  { apply Hrunning; fields; try reflexivity.
    rewrite countLog_app. cbn. lia. }
  rewrite microtasks_quiet in Hrun by (eapply running_noCancelled, Hx).
  inversion Hrun; subst s0. split; [exact Hx|]. fields. split; reflexivity.
Qed.



(** ** Reconnection *)

(** The end of a stream schedules one reconnect, 1000 ms later. *)
Lemma readStream_done s r th now :
  threads s !! r = Some th ->
  let s' := readStream_read r Done now s in
  timeouts s' = <[nextTimeoutId s := mkTimeout 1000 (ReconnectIfTesting r)]> (timeouts s) /\
  threads s' = alter (set_task Returned) r (threads s) /\
  activeThreads s' = activeThreads s /\
  testLog s' = testLog s ++ [LogReconnecting (id th)].
Proof.
  intros Hth. cbv zeta. unfold readStream_read, setTimeout. rewrite Hth. fields.
  repeat split; reflexivity.
Qed.

(** The callback does nothing when no session runs. *)
Lemma reconnect_suppressed s r rnd now :
  isTesting s = false -> reconnectIfTesting r rnd now s = s.
Proof. intros H. unfold reconnectIfTesting. rewrite H. reflexivity. Qed.

(** The reconnect keeps the thread id and builds its URL from [split]. *)
Lemma reconnect_same_id s r th rnd now :
  isTesting s = true -> threads s !! r = Some th ->
  let s' := reconnectIfTesting r rnd now s in
  threads s' =
    threads s ++
      [mkThread (id th)
         (splitHead "?" (url th) ++ "?thread=" ++ dec (Z.of_nat (id th))
            ++ "&r=" ++ rnd ++ "&t=" ++ dec now)%string
         false 0 true AwaitFetch] /\
  last (activeThreads s') = Some (length (threads s)).
Proof.
  intros Hs Hth. cbv zeta.
  unfold reconnectIfTesting, reconnectThread, createTestThread. rewrite Hs, Hth. fields.
  split; [reflexivity|]. apply last_snoc.
Qed.

(** A base without a query is recovered by [split]. *)
Lemma splitHead_base (base rest : string) :
  hasChar "?" base = false ->
  splitHead "?" (base ++ String "?" rest) = base.
Proof.
  induction base as [|c base IH]; cbn [hasChar]; intros H.
  - reflexivity.
  - apply orb_false_iff in H. destruct H as [H1 H2].
    rewrite Ascii.eqb_sym in H1.
    change (String c base ++ String "?" rest)%string
      with (String c (base ++ String "?" rest))%string.
    cbn [splitHead]. rewrite H1, IH by exact H2. reflexivity.
Qed.

(** C5, at the failing input. [stopTest] is called while the reconnect of
    worker 0 waits for its delay, and a new session is started before the
    delay expires: the callback finds [isTesting] true and reconnects.  The
    new session's own worker 0 (reference 1) is dropped from
    [activeThreads] unaborted, and a third thread object takes its place. *)
Theorem reconnect_after_restart :
  option_map (fun s => (isTesting s, activeThreads s, threadView <$> threads s))
             (run initial (take 5 restartTrace))
    = Some (false, [], [(0%nat, Returned, true, false)]) /\
  option_map (fun s => (isTesting s, activeThreads s, threadView <$> threads s))
             (run initial restartTrace)
    = Some (true, [2%nat],
            [(0%nat, Returned, true, false);
             (0%nat, AwaitFetch, false, true);
             (0%nat, AwaitFetch, false, true)]).
Proof. split; vm_compute; reflexivity. Qed.

(** C6, at the failing input. The Cloudflare node is configured with the
    query [bytes=1073741824]; the first connection carries it, the
    reconnect cuts the URL at its first [?] and asks for the bare path. *)
Theorem reconnect_drops_query :
  node_url <$> findNode "us1"
    = Some "https://speed.cloudflare.com/__down?bytes=1073741824"%string /\
  option_map (fun s => url <$> threads s) (run initial queryTrace)
    = Some ["https://speed.cloudflare.com/__down?bytes=1073741824?thread=0&r=r0&t=1001";
            "https://speed.cloudflare.com/__down?thread=0&r=k&t=3000"]%string.
Proof. split; vm_compute; reflexivity. Qed.

(** * Further properties of [js/network-tester.js] *)

(** ** The controls and the timers *)

Lemma controlsFollow_step s e s' :
  controlsFollow s -> step s e = Some s' -> controlsFollow s'.
Proof.
  apply (step_preserves (fun _ => True)); [| | | | | | |exact I];
    unfold controlsFollow; intros.
  all: unfold_methods; split_cases; cbn; auto; congruence.
Qed.

(** X1. The form controls follow the session: in every state the tester
    reaches, [updateUIState] was last called with the value [isTesting]
    has, so the start button and the inputs are disabled exactly while a
    session runs. *)
Theorem controls_locked_while_testing es s :
  run initial es = Some s -> controlsLocked (display s) = isTesting s.
Proof.
  intros H.
  assert (G : forall es s0 s1, controlsFollow s0 -> run s0 es = Some s1 -> controlsFollow s1).
  { clear. induction es as [|e es IH]; intros s0 s1 H0 H; cbn [run] in H.
    - congruence.
    - destruct (step s0 e) as [s2|] eqn:E; [|discriminate].
      eapply IH; [|exact H]. eapply controlsFollow_step; eauto. }
  apply (G es initial s); [reflexivity|exact H].
Qed.

Lemma controls_locked_while_testing_witness :
  controlsLocked (display demoRunning) = true /\
  controlsLocked (display demoStopped) = false.
Proof.
  split.
  - rewrite (controls_locked_while_testing demoTrace demoRunning); vm_compute; reflexivity.
  - rewrite (controls_locked_while_testing (demoTrace ++ [StopClick 1500]) demoStopped);
      vm_compute; reflexivity.
Defined.

Ltac fields_all :=
  fields; repeat match goal with H : _ |- _ => progress fields in H end.

Ltac tidy_hyps :=
  repeat match goal with
    | H : _ /\ _ |- _ => destruct H
    | H : <[_:=_]> _ !! _ = Some _ |- _ =>
        apply lookup_insert_Some in H; destruct H as [[? ?]|[? ?]]; subst
    | H : delete _ _ !! _ = Some _ |- _ =>
        apply lookup_delete_Some in H; destruct H
    | H : negb _ = false |- _ => apply negb_false_iff in H
    | H : negb _ = true |- _ => apply negb_true_iff in H
    | H : Some _ = Some _ |- _ => inversion H; clear H; subst
    | H : Some _ = None |- _ => discriminate H
    | H : None = Some _ |- _ => discriminate H
    | H : true = false |- _ => discriminate H
    | H : false = true |- _ => discriminate H
    end.

Ltac tidy_goal H1 H2 H3 :=
  fields_all; repeat split; intros; tidy_hyps; try congruence; try lia;
  try solve [ auto
            | edestruct H3 as [? ?]; [eassumption|]; first [lia|assumption|eauto]
            | right; eauto
            | rewrite lookup_insert_eq; reflexivity
            | rewrite lookup_insert_ne;
              [ eauto
              | let E := fresh in
                intros E; subst;
                edestruct H3 as [? _]; [apply H2; eassumption|]; lia ] ].

Lemma timersTidy_fetched r o now s :
  timersTidy s -> timersTidy (downloadFile_fetched r o now s).
Proof.
  unfold timersTidy. intros (H1 & H2 & H3).
  unfold_methods. split_cases; fields.
  all: tidy_goal H1 H2 H3.
Qed.

Lemma timersTidy_read r o now s :
  timersTidy s -> timersTidy (readStream_read r o now s).
Proof.
  unfold timersTidy. intros (H1 & H2 & H3).
  unfold_methods. split_cases; fields.
  all: tidy_goal H1 H2 H3.
Qed.

Lemma timersTidy_dispatch s e s' :
  timersTidy s -> dispatch e s = Some s' -> timersTidy s'.
Proof.
  intros HP H.
  destruct e; cbn [dispatch] in H;
    try (destruct (awaiting _ s thread); inversion H; subst;
         auto using timersTidy_fetched, timersTidy_read; fail).
  all: destruct HP as (H1 & H2 & H3); unfold timersTidy.
  - inversion H; subst; clear H. unfold_methods. split_cases; fields.
    all: tidy_goal H1 H2 H3.
  - destruct (acquiring s) as [|[sel p] rest]; inversion H; subst; clear H.
    unfold_methods. split_cases; fields.
    all: tidy_goal H1 H2 H3.
  - inversion H; subst; clear H. rewrite stopTest_eq. split_cases; fields.
    all: tidy_goal H1 H2 H3.
  - destruct (timeouts s !! timer) as [tm|] eqn:Htm; inversion H; subst; clear H.
    destruct (callback tm) eqn:Hcb; unfold_methods; split_cases; fields.
    all: tidy_goal H1 H2 H3.
    all: try (specialize (H1 ltac:(assumption)); congruence).
    all: rewrite lookup_delete_ne; [apply H2; assumption|].
    all: intros ->; rewrite (H2 _ ltac:(eassumption)) in Htm;
      inversion Htm; subst; discriminate.
Qed.

Lemma timersTidy_step s e s' :
  timersTidy s -> step s e = Some s' -> timersTidy s'.
Proof.
  unfold step. intros HP H.
  destruct (dispatch e s) as [s1|] eqn:E; inversion H; subst.
  apply microtasks_preserves;
    auto using timersTidy_fetched, timersTidy_read.
  eapply timersTidy_dispatch; eauto.
Qed.

Lemma timersTidy_run es s s' :
  timersTidy s -> run s es = Some s' -> timersTidy s'.
Proof.
  revert s. induction es as [|e es IH]; intros s HP H; cbn [run] in H.
  - congruence.
  - destruct (step s e) as [s1|] eqn:E; [|discriminate].
    eapply IH; [|exact H]. eapply timersTidy_step; eauto.
Qed.

(** X2. The timeouts of the session code, which are those [timeouts]
    holds ([log], the help dialog and [copyToClipboard] set others, which
    touch no field of the tester).  When no session runs [updateTimer] is
    null.  When it is set it names a timeout that is still pending, the
    next progress tick, due after [updateInterval].  Each pending timeout
    of [startProgressUpdate] and [readStream] is such a tick or a
    reconnect due after 1000 ms, and its id has been handed out. *)
Theorem timers_accounted es s :
  run initial es = Some s ->
  (isTesting s = false -> updateTimer s = None) /\
  (forall t, updateTimer s = Some t ->
     timeouts s !! t = Some (mkTimeout updateInterval UpdateTick)) /\
  (forall t tm, timeouts s !! t = Some tm ->
     (t < nextTimeoutId s)%nat /\
     (tm = mkTimeout updateInterval UpdateTick \/
      exists r, tm = mkTimeout 1000 (ReconnectIfTesting r))).
Proof.
  apply (timersTidy_run es initial s).
  repeat split; try discriminate; intros t tm H; cbn in H;
    rewrite lookup_empty in H; discriminate.
Qed.

Lemma timers_accounted_witness :
  updateTimer demoStopped = None /\
  timeouts demoRunning !! 1%nat = Some (mkTimeout 100 UpdateTick).
Proof.
  split.
  - destruct (timers_accounted (demoTrace ++ [StopClick 1500]) demoStopped) as (H & _);
      [vm_compute; reflexivity|]. apply H. vm_compute. reflexivity.
  - destruct (timers_accounted demoTrace demoRunning) as (_ & H & _);
      [vm_compute; reflexivity|]. apply H. vm_compute. reflexivity.
Defined.

(** ** Clicks without effect, and the failure of one worker *)

Lemma step_StopClick s now s1 :
  step s (StopClick now) = Some s1 ->
  isTesting s1 = false /\
  s1 = set_threads (settleCancelled <$> threads (stopTest now s)) (stopTest now s).
Proof.
  unfold step. cbn [dispatch eventTime]. intros H. inversion H as [H1]; clear H.
  assert (Hs : isTesting (stopTest now s) = false).
  { rewrite stopTest_eq. destruct (isTesting s) eqn:E; cbn [negb]; [|exact E].
    cbv zeta. destruct (updateTimer s); reflexivity. }
  rewrite microtasks_idle by (try exact Hs; apply pendingCancelled_le).
  split; [exact Hs|reflexivity].
Qed.

(** X3. A click on start while a session runs changes nothing, and neither
    does a click on stop while none runs; in particular a second stop after
    a stop changes nothing. *)
Theorem redundant_clicks_ignored es s :
  run initial es = Some s ->
  (isTesting s = true -> forall f now, step s (StartClick f now) = Some s) /\
  (isTesting s = false -> forall now, step s (StopClick now) = Some s) /\
  (forall t1 t2 s1,
     step s (StopClick t1) = Some s1 -> step s1 (StopClick t2) = Some s1).
Proof.
  intros Hrun. pose proof (reachable_wellFormed _ _ Hrun) as [_ _ Hclean].
  assert (Hidle : forall s0 now, noCancelled s0 -> isTesting s0 = false ->
                    step s0 (StopClick now) = Some s0).
  { intros s0 now Hc Hs. unfold step. cbn [dispatch eventTime].
    unfold stopTest. rewrite Hs. cbn [negb]. rewrite microtasks_quiet by exact Hc.
    reflexivity. }
  split; [|split].
  - intros Hs f now. unfold step. cbn [dispatch eventTime].
    unfold startTest. rewrite Hs. rewrite microtasks_quiet by exact Hclean.
    reflexivity.
  - intros Hs now. apply Hidle; assumption.
  - intros t1 t2 s1 H1. apply Hidle.
    + eapply noCancelled_step; eauto.
    + apply step_StopClick in H1. tauto.
Qed.

Lemma redundant_clicks_ignored_witness :
  step demoRunning (StartClick (form "cn2" 4 1 GB) 1200) = Some demoRunning /\
  step demoStopped (StopClick 1600) = Some demoStopped.
Proof.
  split.
  - destruct (redundant_clicks_ignored demoTrace demoRunning) as (H & _);
      [vm_compute; reflexivity|]. apply H. vm_compute. reflexivity.
  - destruct (redundant_clicks_ignored demoTrace demoRunning) as (_ & _ & H);
      [vm_compute; reflexivity|]. apply (H 1500). vm_compute. reflexivity.
Defined.

Lemma forallb_inactive_other s r' th' l :
  r' ∈ l -> threads s !! r' = Some th' -> isActive th' = true ->
  forallb (inactive s) l = false.
Proof.
  intros Hin Hth Hact. induction l as [|x l IH]; [inversion Hin|].
  apply elem_of_cons in Hin. cbn [forallb]. destruct Hin as [<-|Hin].
  - unfold inactive. rewrite Hth, Hact. reflexivity.
  - rewrite (IH Hin). apply andb_false_r.
Qed.

Lemma catch_with_survivor s r th error now r' th' :
  isTesting s = true ->
  threads s !! r = Some th ->
  err_name error <> "AbortError"%string ->
  r' ∈ activeThreads s -> r' <> r ->
  threads s !! r' = Some th' -> isActive th' = true ->
  downloadFile_catch r error now s =
    updThread r (fun t => set_task Thrown (set_isActive false t))
      (log (LogThreadError (id th) (err_message error)) s).
Proof.
  intros Hs Hth Hname Hin Hne Hth' Hact.
  unfold downloadFile_catch. rewrite Hth.
  assert (Hn : negb (err_name error =? "AbortError")%string = true).
  { apply negb_true_iff, String.eqb_neq, Hname. }
  rewrite Hn. unfold checkAllThreadsCompleted.
  rewrite (forallb_inactive_other _ r' th').
  - reflexivity.
  - exact Hin.
  - fields. rewrite list_lookup_alter_ne by congruence. exact Hth'.
  - exact Hact.
Qed.

(** X4. A worker fails with a transport error (a rejected [fetch] or
    [read] that is no [AbortError], or a response that is not [ok]) while
    another registered worker is still active: the session goes on.  The
    step logs the error of that thread and nothing else, marks the thread
    inactive, leaves [activeThreads] as it is (the failed thread stays
    registered), sets no timeout (the worker is not reconnected) and
    counts no bytes. *)
Theorem single_failure_keeps_session es s e r message th r' th' s' :
  run initial es = Some s ->
  isTesting s = true ->
  reportedError e = Some (r, message) ->
  threads s !! r = Some th ->
  r' ∈ activeThreads s -> r' <> r ->
  threads s !! r' = Some th' -> isActive th' = true ->
  step s e = Some s' ->
  isTesting s' = true /\
  testLog s' = testLog s ++ [LogThreadError (id th) message] /\
  activeThreads s' = activeThreads s /\
  threads s' = alter (fun t => set_task Thrown (set_isActive false t)) r (threads s) /\
  timeouts s' = timeouts s /\
  totalDownloaded s' = totalDownloaded s.
Proof.
  intros Hrun Hs He Hth Hin Hne Hth' Hact Hstep.
  pose proof (reachable_wellFormed _ _ Hrun) as [_ _ Hclean].
  assert (Hs1 : exists error now,
             err_name error <> "AbortError"%string /\
             message = err_message error /\
             dispatch e s = Some (downloadFile_catch r error now s)).
  { destruct e as [| | |r0 o now|r0 o now|]; try discriminate He.
    - destruct o as [[|] status|error]; cbn in He; try discriminate.
      + inversion He; subst.
        exists (mkJsError "Error" ("HTTP error! status: " ++ dec status)), now.
        split; [discriminate|]. split; [reflexivity|].
        unfold step in Hstep. cbn [dispatch] in *.
        destruct (awaiting AwaitFetch s r); [|discriminate].
        unfold downloadFile_fetched. rewrite Hth. reflexivity.
      + destruct (String.eqb_spec (err_name error) "AbortError"); [discriminate|].
        inversion He; subst. exists error, now.
        split; [assumption|]. split; [reflexivity|].
        unfold step in Hstep. cbn [dispatch] in *.
        destruct (awaiting AwaitFetch s r); [|discriminate].
        unfold downloadFile_fetched. rewrite Hth. reflexivity.
    - destruct o as [n| |error]; cbn in He; try discriminate.
      destruct (String.eqb_spec (err_name error) "AbortError") as [|Hn]; [discriminate|].
      inversion He; subst. exists error, now.
      split; [assumption|]. split; [reflexivity|].
      unfold step in Hstep. cbn [dispatch] in *.
      destruct (awaiting AwaitRead s r); [|discriminate].
      unfold readStream_read. rewrite Hth.
      apply String.eqb_neq in Hn. rewrite Hn. reflexivity. }
  destruct Hs1 as (error & now & Hname & -> & Hd).
  unfold step in Hstep. rewrite Hd in Hstep.
  rewrite (catch_with_survivor s r th error now r' th') in Hstep by assumption.
  rewrite microtasks_quiet in Hstep.
  - inversion Hstep; subst s'. fields. repeat split; try reflexivity. exact Hs.
  - fields. apply Forall_alter; [exact Hclean|].
    intros x Hx _. unfold cancelled. cbn.
    rewrite andb_false_r. reflexivity.
Qed.

Lemma single_failure_keeps_session_witness :
  isTesting demoOneFailed = true /\
  testLog demoOneFailed = testLog demoStarted ++ [LogThreadError 0 "Failed to fetch"].
Proof.
  destruct (single_failure_keeps_session (take 2 demoTrace) demoStarted
              (FetchSettled 0%nat (FetchRejected networkDown) 1100) 0%nat "Failed to fetch"
              (newThread "https://issuecdn.baidupcs.com/issue/netdisk/apk/BaiduNetdisk_11.44.3.apk"
                 rand0 1001 0)
              1%nat
              (newThread "https://issuecdn.baidupcs.com/issue/netdisk/apk/BaiduNetdisk_11.44.3.apk"
                 rand0 1001 1)
              demoOneFailed)
    as (H1 & H2 & _).
  - vm_compute. reflexivity.
  - vm_compute. reflexivity.
  - vm_compute. reflexivity.
  - vm_compute. reflexivity.
  - vm_compute. right. left.
  - discriminate.
  - vm_compute. reflexivity.
  - reflexivity.
  - vm_compute. reflexivity.
  - split; assumption.
Defined.

(** ** The speed [stopTest] displays *)

Lemma stopTest_display now s :
  isTesting s = true ->
  display (stopTest now s) =
    mkDisplay
      (scale (fun q => q / (1024 * 1024))%Q
         (div (inject_Z (totalDownloaded s)) (inject_Z (now - startTime s) / 1000)))
      (formatTrafficDisplay (totalDownloaded s))
      (progressOf (totalDownloaded s) (targetTrafficBytes s))
      false.
Proof.
  intros Hs. rewrite stopTest_eq, Hs. cbn [negb]. cbv zeta.
  destruct (updateTimer s); fields; reflexivity.
Qed.

Lemma elapsed_zero (a b : Z) :
  Qeq_bool (inject_Z (a - b) / 1000) 0 = true <-> a = b.
Proof.
  rewrite Qeq_bool_iff. split.
  - intros H. unfold Qeq in H. cbn in H. lia.
  - intros ->. rewrite Z.sub_diag. reflexivity.
Qed.

(** X5. The speed [stopTest] displays.  [stopTest] passes
    [totalDownloaded / totalTime] to [updateProgressUI] without the guard
    it applies to the mean of its log line.  When a session is stopped at
    the instant [t0] it began, the speed widget shows [NaN MB/s] when
    nothing was downloaded and [Infinity MB/s] otherwise, while the summary
    line reports a mean of 0; stopped at any other instant the widget
    shows a finite number. *)
Theorem stopTest_speed_unguarded es0 s0 f t0 s1 es s :
  run initial es0 = Some s0 ->
  starts s0 (StartClick f t0) = true ->
  step s0 (StartClick f t0) = Some s1 ->
  runNoStart s1 es = Some s ->
  isTesting s = true ->
  downloadSpeedText (display (stopTest t0 s)) =
    (if decide (totalDownloaded s = 0) then "NaN MB/s" else "Infinity MB/s")%string /\
  (exists totalTime,
      last (testLog (stopTest t0 s)) = Some (LogStopped totalTime 0 (totalDownloaded s))) /\
  forall now, now <> t0 ->
    exists speed, downloadSpeed (display (stopTest now s)) = Fin speed.
Proof.
  intros Hrun0 Hst Hstep Hrun Hs.
  pose proof (reachable_wellFormed _ _ Hrun0) as [_ _ Hc0].
  destruct (start_sets s0 f t0 s1 Hc0 Hst Hstep) as (Ht0 & _ & _).
  pose proof (startTime_runNoStart es s1 s Hrun) as Ht. rewrite Ht0 in Ht.
  assert (Hreach : run initial (es0 ++ StartClick f t0 :: es) = Some s).
  { rewrite run_app, Hrun0. cbn [run]. rewrite Hstep. apply runNoStart_run, Hrun. }
  pose proof (reachable_wellFormed _ _ Hreach) as [_ [Hnn _] _].
  split; [|split].
  - rewrite stopTest_display by exact Hs. unfold downloadSpeedText. cbn [downloadSpeed].
    rewrite Ht, Z.sub_diag. unfold div.
    change (Qeq_bool (inject_Z 0 / 1000) 0) with true. cbv iota.
    destruct (Qeq_bool (inject_Z (totalDownloaded s)) 0) eqn:E0.
    + apply Qeq_bool_iff in E0. unfold Qeq in E0. cbn in E0.
      rewrite decide_True by lia. reflexivity.
    + assert (totalDownloaded s <> 0).
      { intros H0. rewrite H0 in E0. discriminate. }
      rewrite decide_False by assumption.
      assert (Hle : Qle_bool 0 (inject_Z (totalDownloaded s)) = true).
      { apply Qle_bool_iff. change 0%Q with (inject_Z 0). rewrite <- Zle_Qle. exact Hnn. }
      rewrite Hle. reflexivity.
  - destruct (stopTest_line t0 s Hs) as (H1 & _). rewrite H1, Ht.
    unfold summaryLine. cbv zeta. rewrite decide_False by lia.
    eexists. rewrite app_assoc, last_snoc. reflexivity.
  - intros now Hne. rewrite stopTest_display by exact Hs. cbn [downloadSpeed].
    unfold div.
    destruct (Qeq_bool (inject_Z (now - startTime s) / 1000) 0) eqn:E.
    + apply elapsed_zero in E. congruence.
    + eexists. reflexivity.
Qed.

Lemma stopTest_speed_unguarded_witness :
  downloadSpeedText (display (stopTest 1000 demoStarted)) = "NaN MB/s"%string.
Proof.
  destruct (stopTest_speed_unguarded [] initial (form "cn1" 2 1 MB) 1000
              (default initial (run initial (take 1 demoTrace)))
              [WakeLockAcquired rand0 1001] demoStarted) as (H & _).
  - reflexivity.
  - vm_compute. reflexivity.
  - vm_compute. reflexivity.
  - vm_compute. reflexivity.
  - vm_compute. reflexivity.
  - rewrite H. reflexivity.
Defined.

(** ** The samples of the speed *)

Lemma currentSpeedOf_nonneg (bytes interval : Z) :
  0 <= bytes -> (0 <= currentSpeedOf bytes interval)%Q.
Proof.
  intros Hb. unfold currentSpeedOf.
  destruct (Z.ltb_spec 0 interval) as [L|L]; [|apply Qle_refl].
  apply Qle_shift_div_l.
  - apply Qlt_shift_div_l; [reflexivity|]. rewrite Qmult_0_l.
    change 0%Q with (inject_Z 0). rewrite <- Zlt_Qlt. exact L.
  - rewrite Qmult_0_l. change 0%Q with (inject_Z 0). rewrite <- Zle_Qle. exact Hb.
Qed.

Lemma pushSample_Forall (P : Q -> Prop) x h :
  P x -> Forall P h -> Forall P (pushSample x h).
Proof.
  intros Hx Hh. unfold pushSample. cbv zeta.
  assert (Ha : Forall P (h ++ [x])) by (apply Forall_app; auto).
  destruct (_ <? _)%nat; [|exact Ha].
  destruct (h ++ [x]) as [|y l]; [constructor|]. inversion Ha; assumption.
Qed.

Lemma samplesSound_step s e s' :
  samplesSound s -> step s e = Some s' -> samplesSound s'.
Proof.
  apply (step_preserves (fun _ => True)); [| | | | | | |exact I];
    unfold samplesSound; intros.
  all: unfold_methods; split_cases; fields; try assumption.
  all: try (split; [lia|]); try constructor.
  all: repeat match goal with H : _ /\ _ |- _ => destruct H end.
  all: try lia; try assumption.
  all: try (split; [lia|]).
  all: try (apply pushSample_Forall; [apply currentSpeedOf_nonneg; lia|]);
    try assumption; try constructor.
Qed.

Lemma foldl_Qplus_nonneg (l : list Q) (a : Q) :
  (0 <= a)%Q -> Forall (fun x => (0 <= x)%Q) l -> (0 <= foldl Qplus a l)%Q.
Proof.
  revert a. induction l as [|x l IH]; intros a Ha Hl; cbn [foldl]; [exact Ha|].
  inversion Hl; subst. apply IH; [|assumption].
  rewrite <- (Qplus_0_l 0). apply Qplus_le_compat; assumption.
Qed.

Lemma average_nonneg (l : list Q) :
  Forall (fun x => (0 <= x)%Q) l -> (0 <= average l)%Q.
Proof.
  intros Hl. unfold average.
  destruct l as [|x l]; [cbn; apply Qle_refl|].
  apply Qle_shift_div_l.
  - change 0%Q with (inject_Z 0). rewrite <- Zlt_Qlt. cbn [length]. lia.
  - rewrite Qmult_0_l. apply foldl_Qplus_nonneg; [apply Qle_refl|exact Hl].
Qed.

Lemma samplesSound_run es s s' :
  samplesSound s -> run s es = Some s' -> samplesSound s'.
Proof.
  revert s. induction es as [|e es IH]; intros s HP H; cbn [run] in H.
  - inversion H; subst. exact HP.
  - destruct (step s e) as [s1|] eqn:E; [|discriminate].
    eapply IH; [|exact H]. eapply samplesSound_step; eauto.
Qed.

(** X6. In every state the tester reaches, the bytes the last tick has
    accounted for are at most the bytes downloaded, and no sample of
    [speedHistory] is negative; so the sample [updateProgress] adds is not
    negative, whatever the clock reads, and the speed it displays is a
    finite number that is not negative. *)
Theorem samples_never_negative es s now :
  run initial es = Some s ->
  0 <= lastDownloaded s <= totalDownloaded s /\
  Forall (fun x => (0 <= x)%Q) (speedHistory s) /\
  Forall (fun x => (0 <= x)%Q) (speedHistory (updateProgress now s)) /\
  exists speed,
    downloadSpeed (display (updateProgress now s)) = Fin speed /\ (0 <= speed)%Q.
Proof.
  intros H.
  assert (HS : samplesSound s).
  { eapply samplesSound_run; [|exact H]. split; [cbn; lia|constructor]. }
  destruct HS as [Hb Hh]. split; [exact Hb|]. split; [exact Hh|].
  assert (Hh' : Forall (fun x => (0 <= x)%Q) (speedHistory (updateProgress now s))).
  { unfold updateProgress. fields.
    apply pushSample_Forall; [apply currentSpeedOf_nonneg; lia|exact Hh]. }
  split; [exact Hh'|].
  unfold updateProgress in *. fields. fields in Hh'. cbn [scale downloadSpeed].
  eexists. split; [reflexivity|].
  apply Qle_shift_div_l; [reflexivity|]. rewrite Qmult_0_l.
  apply average_nonneg, Hh'.
Qed.

Lemma samples_never_negative_witness :
  Forall (fun x => (0 <= x)%Q) (speedHistory (updateProgress 1200 demoRunning)).
Proof.
  destruct (samples_never_negative demoTrace demoRunning 1200) as (_ & _ & H & _);
    [vm_compute; reflexivity|exact H].
Defined.

(** ** [formatTime] *)

Lemma Qfloor_unique (q : Q) (n : Z) :
  (inject_Z n <= q)%Q -> (q < inject_Z (n + 1))%Q -> Qfloor q = n.
Proof.
  intros Hlo Hhi.
  pose proof (Qfloor_le q) as H1. pose proof (Qlt_floor q) as H2.
  assert (n < Qfloor q + 1).
  { rewrite Zlt_Qlt. eapply Qle_lt_trans; eauto. }
  assert (Qfloor q < n + 1).
  { rewrite Zlt_Qlt. eapply Qle_lt_trans; eauto. }
  lia.
Qed.

Lemma toFixed_0 (x : Q) :
  (0 <= x)%Q -> toFixed 0 x = dec (Qfloor (x + (1 # 2))).
Proof.
  intros Hx. unfold toFixed. cbv zeta.
  assert (Hle : Qle_bool 0 x = true) by (apply Qle_bool_iff, Hx).
  rewrite Hle. change (10 ^ Z.of_nat 0) with 1. rewrite Z.div_1_r.
  assert (E : (Qabs x * inject_Z 1 + (1 # 2) == x + (1 # 2))%Q).
  { rewrite Qabs_pos by exact Hx. change (inject_Z 1) with 1%Q. ring. }
  rewrite (Qfloor_comp _ _ E).
  change ("" ++ dec (Qfloor (x + (1 # 2))) ++ "")%string
    with (dec (Qfloor (x + (1 # 2))) ++ "")%string.
  generalize (dec (Qfloor (x + (1 # 2)))). intros str.
  induction str as [|c str IH]; [reflexivity|].
  change (String c str ++ "")%string with (String c (str ++ ""))%string.
  rewrite IH. reflexivity.
Qed.

Lemma remainder_pos (a : Q) (b : Z) :
  (0 <= a)%Q -> 0 < b ->
  (remainder a (inject_Z b) == a - inject_Z b * inject_Z (Qfloor (a / inject_Z b)))%Q /\
  (0 <= remainder a (inject_Z b))%Q /\ (remainder a (inject_Z b) < inject_Z b)%Q.
Proof.
  intros Ha Hb. unfold remainder. cbv zeta.
  assert (Hb' : (0 < inject_Z b)%Q) by (change 0%Q with (inject_Z 0); rewrite <- Zlt_Qlt; exact Hb).
  assert (Hq : (0 <= a / inject_Z b)%Q).
  { apply Qle_shift_div_l; [exact Hb'|]. rewrite Qmult_0_l. exact Ha. }
  assert (Hle : Qle_bool 0 (a / inject_Z b) = true) by (apply Qle_bool_iff, Hq).
  rewrite Hle. split; [reflexivity|].
  pose proof (Qfloor_le (a / inject_Z b)) as H1.
  pose proof (Qlt_floor (a / inject_Z b)) as H2.
  set (k := Qfloor (a / inject_Z b)) in *.
  assert (E : (a == inject_Z b * (a / inject_Z b))%Q).
  { field. intros H0. rewrite H0 in Hb'. apply (Qlt_irrefl 0), Hb'. }
  rewrite inject_Z_plus in H2. change (inject_Z 1) with 1%Q in H2.
  split.
  - assert (inject_Z b * inject_Z k <= inject_Z b * (a / inject_Z b))%Q.
    { rewrite !(Qmult_comm (inject_Z b)). apply Qmult_le_compat_r; [exact H1|].
      apply Qlt_le_weak, Hb'. }
    lra.
  - assert (inject_Z b * (a / inject_Z b) < inject_Z b * (inject_Z k + 1))%Q.
    { rewrite !(Qmult_comm (inject_Z b)). apply Qmult_lt_compat_r; assumption. }
    lra.
Qed.

Lemma ltb_false (a b : Q) : ltb a b = false <-> (b <= a)%Q.
Proof.
  unfold ltb. rewrite negb_false_iff. apply Qle_bool_iff.
Qed.

Lemma ltb_true (a b : Q) : ltb a b = true <-> (a < b)%Q.
Proof.
  unfold ltb. rewrite negb_true_iff. apply Qle_bool_false.
Qed.

Lemma Qfloor_div_bounds (a : Q) (b lo hi : Z) :
  0 < b -> (inject_Z (lo * b) <= a)%Q -> (a < inject_Z (hi * b))%Q ->
  lo <= Qfloor (a / inject_Z b) < hi.
Proof.
  intros Hb Hlo Hhi.
  assert (Hb' : (0 < inject_Z b)%Q) by (change 0%Q with (inject_Z 0); rewrite <- Zlt_Qlt; exact Hb).
  rewrite inject_Z_mult in Hlo, Hhi.
  assert (H1 : (inject_Z lo <= a / inject_Z b)%Q) by (apply Qle_shift_div_l; assumption).
  assert (H2 : (a / inject_Z b < inject_Z hi)%Q) by (apply Qlt_shift_div_r; assumption).
  split.
  - rewrite <- (Qfloor_Z lo). apply Qfloor_resp_le, H1.
  - rewrite Zlt_Qlt. eapply Qle_lt_trans; [apply Qfloor_le|exact H2].
Qed.

Lemma rounded_seconds (x : Q) :
  (0 <= x)%Q -> (x < 60)%Q ->
  0 <= Qfloor (x + (1 # 2)) <= 60 /\
  (Qfloor (x + (1 # 2)) = 60 <-> ((119 # 2) <= x)%Q).
Proof.
  intros H0 H60.
  pose proof (Qfloor_le (x + (1 # 2))) as H1.
  pose proof (Qlt_floor (x + (1 # 2))) as H2.
  set (r := Qfloor (x + (1 # 2))) in *.
  rewrite inject_Z_plus in H2. change (inject_Z 1) with 1%Q in H2.
  assert (Hlo : -1 < r).
  { rewrite Zlt_Qlt. change (inject_Z (-1)) with (-1)%Q. lra. }
  assert (Hhi : r < 61).
  { rewrite Zlt_Qlt. change (inject_Z 61) with 61%Q. lra. }
  split; [lia|]. split.
  - intros E. rewrite E in H1. change (inject_Z 60) with 60%Q in H1. lra.
  - intros Hx. assert (59 < r); [|lia].
    rewrite Zlt_Qlt. change (inject_Z 59) with 59%Q. lra.
Qed.

(** X7. [formatTime] from a minute on.  Below an hour it prints the whole
    minutes, 1 to 59, and the remaining seconds rounded to an integer; from
    an hour on it prints the hours, the minutes 0 to 59 and the rounded
    seconds.  The seconds are rounded after the minutes are taken and
    nothing is carried: the seconds field is between 0 and 60, and it is 60
    exactly when the rest is 59.5 s or more, so 119.5 s is printed as
    1 minute 60 seconds and 7199.5 s as 1 hour 59 minutes 60 seconds. *)
Theorem formatTime_fields (seconds : Q) :
  ((60 <= seconds)%Q -> (seconds < 3600)%Q ->
   let m := Qfloor (seconds / 60) in
   let rest := (seconds - 60 * inject_Z m)%Q in
   let r := Qfloor (rest + (1 # 2)) in
   formatTime seconds = (dec m ++ "分" ++ dec r ++ "秒")%string /\
   1 <= m <= 59 /\ (0 <= rest)%Q /\ (rest < 60)%Q /\ 0 <= r <= 60 /\
   (r = 60 <-> ((119 # 2) <= rest)%Q)) /\
  ((3600 <= seconds)%Q ->
   let h := Qfloor (seconds / 3600) in
   let inHour := (seconds - 3600 * inject_Z h)%Q in
   let m := Qfloor (inHour / 60) in
   let rest := (seconds - 60 * inject_Z (Qfloor (seconds / 60)))%Q in
   let r := Qfloor (rest + (1 # 2)) in
   formatTime seconds = (dec h ++ "时" ++ dec m ++ "分" ++ dec r ++ "秒")%string /\
   1 <= h /\ 0 <= m <= 59 /\ (0 <= rest)%Q /\ (rest < 60)%Q /\ 0 <= r <= 60 /\
   (r = 60 <-> ((119 # 2) <= rest)%Q)) /\
  formatTime (239 # 2) = "1分60秒"%string /\
  formatTime (14399 # 2) = "1时59分60秒"%string.
Proof.
  split; [|split; [|split; vm_compute; reflexivity]].
  - intros Hlo Hhi. cbv zeta.
    assert (H0 : (0 <= seconds)%Q) by lra.
    destruct (remainder_pos seconds 60 H0 ltac:(lia)) as (E & R0 & R60).
    change (inject_Z 60) with 60%Q in *.
    unfold formatTime.
    assert (L1 : ltb seconds 60 = false) by (apply ltb_false, Hlo).
    assert (L2 : ltb seconds 3600 = true) by (apply ltb_true, Hhi).
    rewrite L1, L2. cbv zeta.
    rewrite toFixed_0 by exact R0.
    assert (E' : (remainder seconds 60 + (1 # 2)
                  == seconds - 60 * inject_Z (Qfloor (seconds / 60)) + (1 # 2))%Q).
    { rewrite E. reflexivity. }
    rewrite (Qfloor_comp _ _ E'). split; [reflexivity|].
    split.
    { pose proof (Qfloor_div_bounds seconds 60 1 60 ltac:(lia)) as Hb.
      change (inject_Z (1 * 60)) with 60%Q in Hb.
      change (inject_Z (60 * 60)) with 3600%Q in Hb.
      change (inject_Z 60) with 60%Q in Hb.
      specialize (Hb Hlo Hhi). lia. }
    rewrite <- E. split; [exact R0|]. split; [exact R60|].
    apply rounded_seconds; assumption.
  - intros Hlo. cbv zeta.
    assert (H0 : (0 <= seconds)%Q) by lra.
    destruct (remainder_pos seconds 60 H0 ltac:(lia)) as (E & R0 & R60).
    destruct (remainder_pos seconds 3600 H0 ltac:(lia)) as (Eh & Rh0 & Rh).
    change (inject_Z 60) with 60%Q in *. change (inject_Z 3600) with 3600%Q in *.
    unfold formatTime.
    assert (L1 : ltb seconds 60 = false) by (apply ltb_false; lra).
    assert (L2 : ltb seconds 3600 = false) by (apply ltb_false, Hlo).
    rewrite L1, L2. cbv zeta.
    rewrite toFixed_0 by exact R0.
    assert (E' : (remainder seconds 60 + (1 # 2)
                  == seconds - 60 * inject_Z (Qfloor (seconds / 60)) + (1 # 2))%Q).
    { rewrite E. reflexivity. }
    rewrite (Qfloor_comp _ _ E').
    assert (Em : (remainder seconds 3600 / 60
                  == (seconds - 3600 * inject_Z (Qfloor (seconds / 3600))) / 60)%Q).
    { rewrite Eh. reflexivity. }
    rewrite (Qfloor_comp _ _ Em). split; [reflexivity|].
    split.
    { rewrite <- (Qfloor_Z 1). apply Qfloor_resp_le.
      apply Qle_shift_div_l; [reflexivity|]. change (inject_Z 1) with 1%Q. lra. }
    split.
    { assert (A0 : (0 <= seconds - 3600 * inject_Z (Qfloor (seconds / 3600)))%Q)
        by (rewrite <- Eh; exact Rh0).
      assert (A1 : (seconds - 3600 * inject_Z (Qfloor (seconds / 3600)) < 3600)%Q)
        by (rewrite <- Eh; exact Rh).
      pose proof (Qfloor_div_bounds _ 60 0 60 ltac:(lia) A0 A1) as Hb.
      change (inject_Z 60) with 60%Q in Hb. lia. }
    rewrite <- E. split; [exact R0|]. split; [exact R60|].
    apply rounded_seconds; assumption.
Qed.

(** ** The traffic text below a unit boundary *)

Lemma toFixed_2_1024 (v : Q) :
  ((1023995 # 1000) <= v)%Q -> (v < 1024)%Q -> toFixed 2 v = "1024.00"%string.
Proof.
  intros Hlo Hhi. unfold toFixed. cbv zeta.
  assert (Hle : Qle_bool 0 v = true) by (apply Qle_bool_iff; lra).
  rewrite Hle. change (10 ^ Z.of_nat 2) with 100.
  assert (E : Qfloor (Qabs v * inject_Z 100 + (1 # 2)) = 102400).
  { apply Qfloor_unique; rewrite Qabs_pos by lra.
    - change (inject_Z 102400) with 102400%Q. change (inject_Z 100) with 100%Q. lra.
    - change (inject_Z (102400 + 1)) with 102401%Q. change (inject_Z 100) with 100%Q. lra. }
  rewrite E. vm_compute. reflexivity.
Qed.

(** X8. The traffic text just below a unit boundary.  [formatTrafficDisplay]
    steps up at a magnitude of 1024, but [updateProgressUI] rounds the
    magnitude to two decimals afterwards: from 1073736582 bytes up to 2^30
    the unit is MB, the magnitude is below 1024 and the text is
    [1024.00 MB]; from 1099506259067 bytes up to 2^40 the text is
    [1024.00 GB]. *)
Theorem trafficUsedText_rounds_to_1024 (bytes : Z) :
  (1073736582 <= bytes < 2 ^ 30 ->
   snd (formatTrafficDisplay bytes) = MB /\
   (fst (formatTrafficDisplay bytes) < 1024)%Q /\
   trafficUsedText bytes = "1024.00 MB"%string) /\
  (1099506259067 <= bytes < 2 ^ 40 ->
   snd (formatTrafficDisplay bytes) = GB /\
   (fst (formatTrafficDisplay bytes) < 1024)%Q /\
   trafficUsedText bytes = "1024.00 GB"%string) /\
  trafficUsedText (2 ^ 30 - 1) = "1024.00 MB"%string /\
  trafficUsedText (2 ^ 40 - 1) = "1024.00 GB"%string.
Proof.
  split; [|split; [|split; vm_compute; reflexivity]];
    unfold trafficUsedText; rewrite formatTrafficDisplay_unfold; intros [Hlo Hhi].
  - destruct (Z.eqb_spec bytes 0); [lia|].
    destruct (Z.leb_spec (2 ^ 30) bytes); [lia|]. cbn [fst snd unitName].
    assert (L : (inject_Z 1073736582 <= inject_Z bytes)%Q) by (rewrite <- Zle_Qle; exact Hlo).
    assert (U : (inject_Z bytes < inject_Z (2 ^ 30))%Q) by (rewrite <- Zlt_Qlt; exact Hhi).
    change (inject_Z 1073736582) with 1073736582%Q in L.
    change (inject_Z (2 ^ 30)) with 1073741824%Q in U.
    assert (V : (inject_Z bytes / (1024 * 1024) < 1024)%Q) by (qconst; lra).
    split; [reflexivity|]. split; [exact V|].
    rewrite toFixed_2_1024; [reflexivity| |exact V]. qconst. lra.
  - destruct (Z.eqb_spec bytes 0); [lia|].
    destruct (Z.leb_spec (2 ^ 30) bytes); [|lia].
    destruct (Z.leb_spec (2 ^ 40) bytes); [lia|]. cbn [fst snd unitName].
    assert (L : (inject_Z 1099506259067 <= inject_Z bytes)%Q) by (rewrite <- Zle_Qle; exact Hlo).
    assert (U : (inject_Z bytes < inject_Z (2 ^ 40))%Q) by (rewrite <- Zlt_Qlt; exact Hhi).
    change (inject_Z 1099506259067) with 1099506259067%Q in L.
    change (inject_Z (2 ^ 40)) with 1099511627776%Q in U.
    assert (V : (inject_Z bytes / (1024 * 1024) / 1024 < 1024)%Q) by (qconst; lra).
    split; [reflexivity|]. split; [exact V|].
    rewrite toFixed_2_1024; [reflexivity| |exact V]. qconst. lra.
Qed.

(** ** The URL of a reconnect *)

Lemma splitHead_query (base rest : string) :
  splitHead "?" (base ++ String "?" rest) = splitHead "?" base.
Proof.
  induction base as [|c base IH].
  - reflexivity.
  - change (String c base ++ String "?" rest)%string
      with (String c (base ++ String "?" rest))%string.
    cbn [splitHead]. destruct (Ascii.eqb c "?"); [reflexivity|].
    rewrite IH. reflexivity.
Qed.

Lemma splitHead_plain (base : string) :
  hasChar "?" base = false -> splitHead "?" base = base.
Proof.
  induction base as [|c base IH]; cbn [hasChar splitHead]; intros H.
  - reflexivity.
  - apply orb_false_iff in H. destruct H as [H1 H2].
    rewrite Ascii.eqb_sym in H1. rewrite H1, IH by exact H2. reflexivity.
Qed.

Lemma splitHead_clean (s : string) : hasChar "?" (splitHead "?" s) = false.
Proof.
  induction s as [|c s IH]; cbn [splitHead]; [reflexivity|].
  destruct (Ascii.eqb c "?") eqn:E; [reflexivity|].
  cbn [hasChar]. rewrite Ascii.eqb_sym, E, IH. reflexivity.
Qed.

Lemma sameThreads_refl ts : sameThreads ts ts.
Proof. intros r th H. eauto. Qed.

Lemma sameThreads_trans ts1 ts2 ts3 :
  sameThreads ts1 ts2 -> sameThreads ts2 ts3 -> sameThreads ts1 ts3.
Proof.
  intros H1 H2 r th H. destruct (H1 r th H) as (th1 & Hl1 & Hi1 & Hu1).
  destruct (H2 r th1 Hl1) as (th2 & Hl2 & Hi2 & Hu2).
  exists th2. split; [exact Hl2|]. split; congruence.
Qed.

Lemma sameThreads_alter f k (ts : list TestThread) :
  (forall th, id (f th) = id th /\ url (f th) = url th) ->
  sameThreads ts (alter f k ts).
Proof.
  intros Hf r th H. destruct (decide (k = r)) as [->|Hne].
  - exists (f th). rewrite list_lookup_alter_eq, H. split; [reflexivity|apply Hf].
  - exists th. rewrite list_lookup_alter_ne by exact Hne. auto.
Qed.

Lemma sameThreads_markAll l (ts : list TestThread) : sameThreads ts (markAll l ts).
Proof.
  revert ts. induction l as [|k l IH]; intros ts; [apply sameThreads_refl|].
  change (markAll (k :: l) ts) with (markAll l (alter mark k ts)).
  eapply sameThreads_trans; [|apply IH].
  apply sameThreads_alter. intros th. split; reflexivity.
Qed.

Lemma sameThreads_app (ts ts' : list TestThread) : sameThreads ts (ts ++ ts').
Proof. intros r th H. exists th. split; [apply lookup_app_l_Some, H|auto]. Qed.

Lemma sameThreads_settle (ts : list TestThread) :
  sameThreads ts (settleCancelled <$> ts).
Proof.
  intros r th H. exists (settleCancelled th). rewrite list_lookup_fmap, H.
  split; [reflexivity|]. pose proof (settleCancelled_fields th). tauto.
Qed.

Ltac sameThreads :=
  lazymatch goal with
  | |- sameThreads ?ts ?ts => apply sameThreads_refl
  | |- sameThreads ?ts (alter ?f ?r' ?x) =>
      apply (sameThreads_trans ts x);
      [sameThreads | apply sameThreads_alter; intros; split; reflexivity]
  | |- sameThreads ?ts (markAll ?l ?x) =>
      apply (sameThreads_trans ts x); [sameThreads | apply sameThreads_markAll]
  | |- sameThreads ?ts (?x ++ ?y) =>
      apply (sameThreads_trans ts x); [sameThreads | apply sameThreads_app]
  end.

Lemma sameThreads_step ts s e s' :
  sameThreads ts (threads s) -> step s e = Some s' -> sameThreads ts (threads s').
Proof.
  apply (step_preserves (fun _ => True) (fun s => sameThreads ts (threads s)));
    [| | | | | | |exact I]; intros;
    (eapply sameThreads_trans; [eassumption|]).
  all: unfold_methods; split_cases; fields; sameThreads.
Qed.

Lemma sameThreads_run es s s' :
  run s es = Some s' -> sameThreads (threads s) (threads s').
Proof.
  assert (G : forall ts s0, sameThreads ts (threads s0) -> run s0 es = Some s' ->
                sameThreads ts (threads s')).
  { induction es as [|e es IH]; intros ts s0 H0 H; cbn [run] in H.
    - inversion H; subst. exact H0.
    - destruct (step s0 e) as [s1|] eqn:E; [|discriminate].
      eapply IH; [|exact H]. eapply sameThreads_step; eauto. }
  intros H. eapply G; [apply sameThreads_refl|exact H].
Qed.

(** X9. The URL of a reconnect.  A thread that [createTestThread] made for
    [base] keeps its id and URL whatever happens afterwards, and while a
    session runs its reconnect makes a new thread object with the same id
    whose URL is [base] cut at its first [?], followed by fresh
    [thread], [r] and [t] parameters.  The cut leaves [base] whole when it
    holds no [?], and what is left never holds one. *)
Theorem reconnect_base_of_created s i base rnd0 t0 es s2 rnd now :
  run (createTestThread i base rnd0 t0 s) es = Some s2 ->
  isTesting s2 = true ->
  threads (reconnectIfTesting (length (threads s)) rnd now s2) =
    threads s2 ++
      [mkThread i
         (splitHead "?" base ++ "?thread=" ++ dec (Z.of_nat i)
            ++ "&r=" ++ rnd ++ "&t=" ++ dec now)%string
         false 0 true AwaitFetch] /\
  (hasChar "?" base = false -> splitHead "?" base = base) /\
  hasChar "?" (splitHead "?" base) = false.
Proof.
  intros Hrun Hs. split; [|split; [apply splitHead_plain|apply splitHead_clean]].
  apply sameThreads_run in Hrun.
  destruct (Hrun (length (threads s))
              (mkThread i (base ++ "?thread=" ++ dec (Z.of_nat i) ++ "&r=" ++ rnd0
                                ++ "&t=" ++ dec t0)%string false 0 true AwaitFetch))
    as (th & Hth & Hid & Hurl).
  { unfold createTestThread. fields. rewrite lookup_app_r by lia.
    rewrite Nat.sub_diag. reflexivity. }
  cbn [id url] in Hid, Hurl.
  unfold reconnectIfTesting, reconnectThread, createTestThread.
  rewrite Hs, Hth. fields. rewrite Hid, Hurl.
  change ("?thread=" ++ dec (Z.of_nat i) ++ "&r=" ++ rnd0 ++ "&t=" ++ dec t0)%string
    with (String "?" ("thread=" ++ dec (Z.of_nat i) ++ "&r=" ++ rnd0 ++ "&t=" ++ dec t0))%string.
  rewrite splitHead_query. reflexivity.
Qed.

Lemma reconnect_base_of_created_witness :
  url <$> last (threads (reconnectIfTesting 0 "k" 3000 demoCreated))
    = Some "https://speed.cloudflare.com/__down?thread=0&r=k&t=3000"%string.
Proof.
  destruct (reconnect_base_of_created demoAcquiring 0
              "https://speed.cloudflare.com/__down?bytes=1073741824" "r0" 1001
              [] demoCreated "k" 3000) as (H & _).
  - reflexivity.
  - vm_compute. reflexivity.
  - change (length (threads demoAcquiring)) with 0%nat in H. rewrite H.
    rewrite last_snoc. vm_compute. reflexivity.
Defined.

(** ** The registered workers *)

Lemma NoDup_bounded_length (l : list nat) (N : nat) :
  NoDup l -> (forall x, x ∈ l -> (x < N)%nat) -> (length l <= N)%nat.
Proof.
  intros Hnd Hb.
  assert (H : l ⊆+ seq 0 N).
  { apply NoDup_submseteq; [exact Hnd|].
    intros x Hx. apply elem_of_seq. specialize (Hb x Hx). lia. }
  apply submseteq_length in H. rewrite length_seq in H. exact H.
Qed.

(** X10. The registered workers of a session.  After a valid start from a
    quiet state with N workers and any worker events, while the session
    runs: [activeThreads] holds at most N thread objects, N is at most 16,
    no two of them have the same id, and each has an id below N and is not
    aborted. *)
Theorem registered_workers_bounded s f p t0 rand t1 s0 es s' :
  quiet s ->
  validateTestParams f = inr p ->
  run s [StartClick f t0; WakeLockAcquired rand t1] = Some s0 ->
  Forall workerEvent es ->
  run s0 es = Some s' ->
  isTesting s' = true ->
  (length (activeThreads s') <= Z.to_nat (threadCount p))%nat /\
  (Z.to_nat (threadCount p) <= 16)%nat /\
  NoDup (slotIn (threads s') <$> activeThreads s') /\
  (forall r, r ∈ activeThreads s' ->
     exists th, threads s' !! r = Some th /\ (id th < Z.to_nat (threadCount p))%nat /\
                aborted th = false).
Proof.
  intros Hq Hv Hstart Hev Hrun Hs.
  destruct (session_start _ _ _ _ _ _ _ Hq Hv Hstart) as (Hr & _ & _).
  assert (Hph : phase (Z.to_nat (threadCount p))
                  (countLog isAllInterrupted (testLog s)) [] s0) by (left; exact Hr).
  pose proof (phase_run _ _ _ _ _ _ Hph Hev Hrun) as Hph'.
  destruct Hph' as [Hrun'|[Hidle|[Hidle _]]];
    try (destruct Hidle as (Hf & _); congruence).
  destruct Hrun' as (_ & _ & _ & St & _).
  assert (Hact : forall r, r ∈ activeThreads s' ->
     exists th, threads s' !! r = Some th /\ (id th < Z.to_nat (threadCount p))%nat /\
                aborted th = false).
  { intros r Hin. destruct (st_act _ _ _ _ _ St r Hin) as (th & Hth & Hid & Hab & _).
    eauto. }
  split; [|split; [|split; [exact (st_slots _ _ _ _ _ St)|exact Hact]]].
  - rewrite <- (length_fmap (slotIn (threads s'))).
    apply NoDup_bounded_length; [exact (st_slots _ _ _ _ _ St)|].
    intros x Hx. apply list_elem_of_fmap in Hx. destruct Hx as (r & -> & Hin).
    destruct (Hact r Hin) as (th & Hth & Hid & _).
    unfold slotIn. rewrite Hth. exact Hid.
  - apply validateTestParams_accepts in Hv. lia.
Qed.

Lemma registered_workers_bounded_witness :
  (length (activeThreads demoRunning) <= 2)%nat.
Proof.
  destruct (registered_workers_bounded initial (form "cn1" 2 1 MB)
              (mkTestParams "https://issuecdn.baidupcs.com/issue/netdisk/apk/BaiduNetdisk_11.44.3.apk" 2 1 MB)
              1000 rand0 1001 demoStarted (drop 2 demoTrace) demoRunning) as (H & _).
  - apply quiet_initial.
  - vm_compute. reflexivity.
  - vm_compute. reflexivity.
  - repeat constructor.
  - vm_compute. reflexivity.
  - vm_compute. reflexivity.
  - exact H.
Defined.

(** ** The start of a session in closed form *)

Lemma validateTestParams_unknown f p :
  findNode (speedNode f) = None -> validateTestParams f = inr p -> testUrl p = ""%string.
Proof.
  intros Hn. unfold validateTestParams.
  destruct (String.eqb_spec (speedNode f) "") as [|_]; [discriminate|].
  destruct (String.eqb_spec (speedNode f) "custom") as [E|_].
  { rewrite E in Hn. discriminate. }
  rewrite Hn. cbv zeta.
  destruct (threadCountInput f); [|discriminate].
  destruct ((z <? 1) || (16 <? z)); [discriminate|].
  destruct (trafficLimitInput f); [|discriminate].
  destruct (Qle_bool q 0); [discriminate|].
  intros H. inversion H. reflexivity.
Qed.

(** A valid start of an idle tester, up to the wake lock. *)
Lemma step_StartClick s f p t0 :
  noCancelled s -> isTesting s = false -> acquiring s = [] ->
  validateTestParams f = inr p ->
  step s (StartClick f t0) =
    Some (set_acquiring [(speedNode f, p)]
      (updateUIState true
        (set_activeThreads []
          (set_lastUpdateTime t0
            (set_startTime t0
              (set_speedHistory []
                (set_lastDownloaded 0
                  (set_totalDownloaded 0
                    (set_isTesting true
                      (set_targetTrafficBytes (targetBytesOf p) s)))))))))).
Proof.
  intros Hclean Hs Hacq Hv. unfold step. cbn [dispatch eventTime].
  unfold startTest. rewrite Hs, Hv. cbv zeta. fields. rewrite Hacq.
  rewrite microtasks_quiet by (fields; exact Hclean). reflexivity.
Qed.

(** A tick leaves the threads, the log and the session flags alone. *)
Lemma update_keeps now s :
  threads (update now s) = threads s /\
  activeThreads (update now s) = activeThreads s /\
  testLog (update now s) = testLog s /\
  isTesting (update now s) = isTesting s /\
  acquiring (update now s) = acquiring s /\
  totalDownloaded (update now s) = totalDownloaded s /\
  (isTesting s = false -> updateTimer (update now s) = updateTimer s).
Proof.
  unfold update. destruct (isTesting s) eqn:E; cbn [negb].
  - unfold updateProgress, setTimeout. fields. rewrite E.
    repeat split; try reflexivity. discriminate.
  - rewrite E. repeat split; reflexivity.
Qed.

(** The threads and the log line of [startTest] once the lock is there. *)
Lemma step_WakeLockAcquired s sel p rest rand t1 s' :
  noCancelled s -> acquiring s = (sel, p) :: rest ->
  step s (WakeLockAcquired rand t1) = Some s' ->
  threads s' =
    threads s ++ (newThread (testUrl p) rand t1 <$> seq 0 (Z.to_nat (threadCount p))) /\
  activeThreads s' =
    activeThreads s ++ seq (length (threads s)) (Z.to_nat (threadCount p)) /\
  testLog s' =
    testLog s ++ [LogStart (getSelectedNodeName sel) (threadCount p) (trafficLimit p)
                           (trafficUnit p)] /\
  isTesting s' = isTesting s /\ acquiring s' = rest /\
  totalDownloaded s' = totalDownloaded s /\
  (isTesting s = false -> updateTimer s' = updateTimer s).
Proof.
  intros Hclean Hacq H. unfold step in H. cbn [dispatch eventTime] in H.
  rewrite Hacq in H. unfold startTest_resume in H. rewrite createThreads_eq in H.
  cbv zeta in H.
  match type of H with
  | Some (microtasks _ _ (update _ ?x)) = _ => set (X := x) in H
  end.
  destruct (update_keeps t1 X) as (Kt & Ka & Kl & Ki & Kq & Kd & Ku).
  rewrite microtasks_quiet in H.
  - injection H as H. subst s'. rewrite Kt, Ka, Kl, Ki, Kq, Kd.
    split; [subst X; reflexivity|]. split; [subst X; reflexivity|].
    split; [subst X; reflexivity|]. split; [subst X; reflexivity|].
    split; [subst X; reflexivity|]. split; [subst X; reflexivity|].
    intros Hs. rewrite Ku by (subst X; exact Hs). subst X. reflexivity.
  - rewrite Kt. subst X. fields. apply Forall_app. split; [exact Hclean|].
    apply Forall_fmap, Forall_forall. intros; reflexivity.
Qed.

(** X11. A node the tester does not know.  When the selected node id is
    neither [custom] nor the id of a node in [testNodes], a form that
    validation accepts carries the empty test URL: the session starts, the
    log names the node as unknown, and each worker fetches the relative URL
    that consists of the query alone. *)
Theorem unknown_node_fetches_relative es s f p t0 rand t1 s1 :
  run initial es = Some s ->
  isTesting s = false -> acquiring s = [] ->
  findNode (speedNode f) = None ->
  validateTestParams f = inr p ->
  run s [StartClick f t0; WakeLockAcquired rand t1] = Some s1 ->
  threads s1 =
    threads s ++
      ((fun i => mkThread i ("?thread=" ++ dec (Z.of_nat i) ++ "&r=" ++ rand i
                                ++ "&t=" ++ dec t1)%string false 0 true AwaitFetch)
         <$> seq 0 (Z.to_nat (threadCount p))) /\
  testLog s1 =
    testLog s ++ [LogStart "未知节点" (threadCount p) (trafficLimit p) (trafficUnit p)] /\
  isTesting s1 = true.
Proof.
  intros Hrun Hs Hacq Hn Hv H.
  pose proof (reachable_wellFormed _ _ Hrun) as [_ _ Hclean].
  pose proof (validateTestParams_unknown f p Hn Hv) as Hurl.
  cbn [run] in H.
  rewrite (step_StartClick s f p t0 Hclean Hs Hacq Hv) in H.
  destruct (step _ (WakeLockAcquired rand t1)) as [s2|] eqn:E1; [|discriminate].
  inversion H; subst s2; clear H.
  apply (step_WakeLockAcquired _ (speedNode f) p [] rand t1 s1) in E1;
    [|exact Hclean|reflexivity].
  destruct E1 as (Ht & _ & Hl & Hi & _).
  split; [|split].
  - rewrite Ht. fields. f_equal. apply list_fmap_ext. intros k i _.
    unfold newThread. rewrite Hurl. reflexivity.
  - rewrite Hl. fields. unfold getSelectedNodeName. rewrite Hn. reflexivity.
  - rewrite Hi. reflexivity.
Qed.

Lemma unknown_node_fetches_relative_witness :
  url <$> threads demoStray = ["?thread=0&r=r0&t=1001"%string].
Proof.
  destruct (unknown_node_fetches_relative [] initial strayForm
              (mkTestParams "" 1 1 MB) 1000 rand0 1001 demoStray) as (H & _).
  - reflexivity.
  - reflexivity.
  - reflexivity.
  - vm_compute. reflexivity.
  - vm_compute. reflexivity.
  - vm_compute. reflexivity.
  - rewrite H. vm_compute. reflexivity.
Defined.

(** ** Stop before the wake lock *)

Lemma stopTest_acquiring now s : acquiring (stopTest now s) = acquiring s.
Proof.
  rewrite stopTest_eq. destruct (isTesting s); cbn [negb]; [|reflexivity].
  cbv zeta. destruct (updateTimer s); reflexivity.
Qed.

(** X12. Stop before the wake lock.  When stop is clicked while
    [startTest] still waits for the wake lock, the session is stopped, but
    [startTest] goes on once the lock is there: it creates and registers
    all N workers, each of which requests its URL, and starts no progress
    timer.  No session runs: a worker whose response arrives with a body
    logs its connection and returns without reading, one whose response
    has no body (status 204 or 205) fails at [getReader] and logs its
    error; in both cases no byte is counted and nothing is stopped. *)
Theorem stop_before_lock_still_connects es s f p t0 t1 rand t2 s' :
  run initial es = Some s ->
  isTesting s = false -> acquiring s = [] ->
  validateTestParams f = inr p ->
  run s [StartClick f t0; StopClick t1; WakeLockAcquired rand t2] = Some s' ->
  isTesting s' = false /\
  updateTimer s' = None /\
  threads s' =
    threads s ++ (newThread (testUrl p) rand t2 <$> seq 0 (Z.to_nat (threadCount p))) /\
  activeThreads s' = seq (length (threads s)) (Z.to_nat (threadCount p)) /\
  totalDownloaded s' = 0 /\
  forall i status now s'',
    (i < Z.to_nat (threadCount p))%nat ->
    step s' (FetchSettled (length (threads s) + i)%nat (Response true status) now) = Some s'' ->
    totalDownloaded s'' = 0 /\ isTesting s'' = false /\
    activeThreads s'' = activeThreads s' /\
    if nullBodyStatus status
    then (exists message, testLog s'' = testLog s' ++ [LogThreadError i message]) /\
         threads s'' = alter (fun t => set_task Thrown (set_isActive false t))
                             (length (threads s) + i)%nat (threads s')
    else testLog s'' = testLog s' ++ [LogConnected i] /\
         threads s'' = alter (set_task Returned) (length (threads s) + i)%nat (threads s').
Proof.
  intros Hrun Hs Hacq Hv H.
  pose proof (reachable_wellFormed _ _ Hrun) as [_ _ Hclean].
  cbn [run] in H.
  rewrite (step_StartClick s f p t0 Hclean Hs Hacq Hv) in H.
  match type of H with
  | match step ?x _ with _ => _ end = _ => set (sA := x) in H
  end.
  assert (HcA : noCancelled sA) by exact Hclean.
  destruct (step sA (StopClick t1)) as [s1|] eqn:E1; [|discriminate].
  destruct (step s1 (WakeLockAcquired rand t2)) as [s2|] eqn:E2; [|discriminate].
  injection H as H. subst s2.
  pose proof (noCancelled_step _ _ _ HcA E1) as Hc1.
  apply step_StopClick in E1. destruct E1 as [Hs1 E1].
  destruct (stopTest_running t1 sA eq_refl) as (_ & Hd & _ & Ha & Hu & Ht & _).
  cbv zeta in Hd, Ha, Hu, Ht.
  change (activeThreads sA) with (@nil loc) in Ht.
  change (markAll [] (threads sA)) with (threads s) in Ht.
  change (totalDownloaded sA) with 0 in Hd.
  assert (Hq1 : acquiring s1 = [(speedNode f, p)]).
  { rewrite E1. fields. apply stopTest_acquiring. }
  assert (Ht1 : threads s1 = threads s).
  { rewrite E1. fields. rewrite Ht. apply fmap_settleCancelled_none. exact Hclean. }
  assert (Ha1 : activeThreads s1 = []) by (rewrite E1; fields; exact Ha).
  assert (Hu1 : updateTimer s1 = None) by (rewrite E1; fields; exact Hu).
  assert (Hd1 : totalDownloaded s1 = 0) by (rewrite E1; fields; exact Hd).
  clear E1 Ht Ha Hu Hd.
  destruct (step_WakeLockAcquired s1 _ p [] rand t2 s' Hc1 Hq1 E2)
    as (Ht' & Ha' & Hl' & Hi' & _ & Hd' & Hu').
  rewrite Ht1 in Ht', Ha'. rewrite Ha1 in Ha'. rewrite Hs1 in Hi'.
  rewrite Hd1 in Hd'. rewrite (Hu' Hs1), Hu1.
  split; [exact Hi'|]. split; [reflexivity|]. split; [exact Ht'|].
  split; [exact Ha'|]. split; [exact Hd'|].
  intros i status now s'' Hi Hstep.
  assert (Hc' : noCancelled s').
  { unfold noCancelled. rewrite Ht'. apply Forall_app. split; [exact Hclean|].
    apply Forall_fmap, Forall_forall. intros; reflexivity. }
  assert (Hth : threads s' !! (length (threads s) + i)%nat
                = Some (newThread (testUrl p) rand t2 i)).
  { rewrite Ht', lookup_app_r by lia.
    replace (length (threads s) + i - length (threads s))%nat with i by lia.
    rewrite list_lookup_fmap, lookup_seq_lt by exact Hi. reflexivity. }
  unfold step in Hstep. cbn [dispatch eventTime] in Hstep.
  destruct (awaiting AwaitFetch s' (length (threads s) + i)); [|discriminate].
  unfold downloadFile_fetched in Hstep. rewrite Hth in Hstep.
  destruct (nullBodyStatus status).
  - unfold downloadFile_catch, checkAllThreadsCompleted in Hstep.
    rewrite Hth in Hstep. cbn [nullBodyError err_name err_message negb] in Hstep.
    change (String.eqb "TypeError" "AbortError") with false in Hstep.
    cbn [negb] in Hstep. fields in Hstep. rewrite Hi', andb_false_r in Hstep.
    rewrite microtasks_quiet in Hstep.
    + injection Hstep as Hstep. subst s''. fields.
      split; [exact Hd'|]. split; [exact Hi'|]. split; [reflexivity|].
      split; [eexists; reflexivity|reflexivity].
    + fields. apply Forall_alter; [exact Hc'|].
      intros x Hx _. unfold cancelled. cbn. rewrite andb_false_r. reflexivity.
  - unfold readStream_loop in Hstep. fields in Hstep. rewrite Hth, Hi' in Hstep.
    cbn [andb] in Hstep. fields in Hstep.
    rewrite microtasks_quiet in Hstep.
    + injection Hstep as Hstep. subst s''. fields.
      split; [exact Hd'|]. split; [exact Hi'|]. repeat split; reflexivity.
    + fields. apply Forall_alter; [exact Hc'|].
      intros x Hx _. unfold cancelled. cbn. rewrite andb_false_r. reflexivity.
Qed.

Lemma stop_before_lock_still_connects_witness :
  isTesting demoEarlyStop = false /\ activeThreads demoEarlyStop = [0; 1]%nat.
Proof.
  destruct (stop_before_lock_still_connects [] initial (form "cn1" 2 1 MB)
              (mkTestParams "https://issuecdn.baidupcs.com/issue/netdisk/apk/BaiduNetdisk_11.44.3.apk" 2 1 MB)
              1000 1001 rand0 1002 demoEarlyStop) as (H1 & _ & _ & H2 & _).
  - reflexivity.
  - reflexivity.
  - reflexivity.
  - vm_compute. reflexivity.
  - vm_compute. reflexivity.
  - split; [exact H1|exact H2].
Defined.

(** * Properties of [js/screen-wake-lock.js] *)

Module ScreenWakeLockFacts.
Import ScreenWakeLock.

Ltac wl_fields :=
  cbn [wakeLock isSupported isActive statusChangeCallback logCallback retryCount
       maxRetries retryDelay heartbeatTimer heartbeatInterval backgroundSupport
       listeners intervals timeouts nextTimerId pending nextSentinel panel console
       notified
       set_wakeLock set_isSupported set_isActive set_statusChangeCallback
       set_logCallback set_retryCount set_maxRetries set_retryDelay
       set_heartbeatTimer set_heartbeatInterval set_backgroundSupport set_listeners
       set_intervals set_timeouts set_nextTimerId set_pending set_nextSentinel
       set_panel set_console set_notified negb andb fst snd].

Ltac wl_unfold :=
  unfold destroy, onVisibilityChange, onOffline, activate, deactivate, reacquire,
    heartbeat, performHeartbeat, onSentinelRelease, releaseWakeLock_released,
    acquireWakeLock_requested, acquireWakeLock, releaseWakeLock, resume,
    maintainBackgroundActivity, handleWakeLockRelease, handleWakeLockError,
    setBackgroundSupport, setHeartbeatInterval, removeEventListener,
    startHeartbeat, stopHeartbeat, notifyStatusChange, log in *.

(** An invariant that does not read the field a setter writes holds after
    the write when it held before. *)
Ltac peel :=
  match goal with
  | |- ?P (?f ?v ?X) => change (P X)
  end.

Ltac branch :=
  match goal with
  | |- _ (if ?c then _ else _) => destruct c eqn:?
  | |- _ (match ?c with _ => _ end) => destruct c eqn:?
  | |- _ ((if ?c then _ else _) _) => destruct c eqn:?
  | |- _ (_ (if ?c then _ else _)) => destruct c eqn:?
  end.

(** Peels the writes and follows the branches of a method body, closing
    the calls it meets with [lemmas]. *)
Ltac through lemmas :=
  cbv zeta; repeat first [ assumption | lemmas | peel | branch ].

(** *** What every run keeps *)

Lemma steady_log m w : steady w -> steady (log m w).
Proof. intros H. unfold log. destruct (logCallback w); exact H. Qed.

Lemma steady_notifyStatusChange s w : steady w -> steady (notifyStatusChange s w).
Proof. intros H. unfold notifyStatusChange. destruct (statusChangeCallback w); exact H. Qed.

(** [stopHeartbeat] leaves no interval behind. *)
Lemma stopHeartbeat_stopped w :
  oneHeartbeat w ->
  heartbeatTimer (stopHeartbeat w) = None /\ intervals (stopHeartbeat w) = ∅ /\
  isActive (stopHeartbeat w) = isActive w /\
  heartbeatInterval (stopHeartbeat w) = heartbeatInterval w.
Proof.
  intros [H1 H2]. unfold stopHeartbeat, log.
  destruct (heartbeatTimer w) as [t|] eqn:E.
  - destruct (logCallback _); wl_fields; rewrite H1, delete_singleton_eq; auto.
  - rewrite E. auto.
Qed.

Lemma steady_stopHeartbeat w : steady w -> steady (stopHeartbeat w).
Proof.
  intros [[H1 H2] HR]. unfold stopHeartbeat.
  destruct (heartbeatTimer w) as [t|] eqn:E.
  - apply steady_log. split; [|exact HR]. split; [|exact H2]. wl_fields.
    rewrite H1. apply delete_singleton_eq.
  - split; [|exact HR]. split; [rewrite E|]; assumption.
Qed.

(** [startHeartbeat] leaves one interval when the manager is active and
    none when it is not. *)
Lemma startHeartbeat_started w :
  oneHeartbeat w ->
  let w' := startHeartbeat w in
  isActive w' = isActive w /\ heartbeatInterval w' = heartbeatInterval w /\
  if isActive w
  then heartbeatTimer w' = Some (nextTimerId w) /\
       intervals w' = {[ nextTimerId w := heartbeatInterval w ]}
  else heartbeatTimer w' = None /\ intervals w' = ∅.
Proof.
  intros H. pose proof (stopHeartbeat_stopped w H) as (Ht & Hi & Ha & Hp).
  cbv zeta. unfold startHeartbeat. cbv zeta. rewrite Ha.
  assert (Hn : nextTimerId (stopHeartbeat w) = nextTimerId w).
  { unfold stopHeartbeat, log. destruct (heartbeatTimer w); [|reflexivity].
    destruct (logCallback _); reflexivity. }
  destruct (isActive w) eqn:E; cbn [negb].
  - unfold log. destruct (logCallback _); wl_fields; rewrite Ha, Hp, Hi, Hn, insert_empty; auto.
  - rewrite Ha, Hp. auto.
Qed.

Lemma steady_startHeartbeat w : steady w -> steady (startHeartbeat w).
Proof.
  intros H. pose proof (steady_stopHeartbeat w H) as [[_ H2] HR].
  destruct H as [H _].
  pose proof (stopHeartbeat_stopped w H) as (Ht & Hi & _ & Hp).
  unfold startHeartbeat. cbv zeta.
  destruct (negb (isActive (stopHeartbeat w)));
    [apply steady_stopHeartbeat; split; [exact H|]|].
  { unfold stopHeartbeat, log in HR.
    destruct (heartbeatTimer w); [destruct (logCallback _)|]; exact HR. }
  apply steady_log. split; [|exact HR]. split; [|exact H2]. wl_fields.
  rewrite Hi. apply insert_empty.
Qed.

Lemma steady_handleWakeLockRelease w : steady w -> steady (handleWakeLockRelease w).
Proof.
  intros (H & (HM & HD & HR) & HL). unfold handleWakeLockRelease. cbv zeta.
  destruct (Nat.ltb_spec (retryCount w) (maxRetries w)) as [L|L].
  - unfold log. wl_fields.
    destruct (logCallback w);
      (split; [exact H|split; [|exact HL]]);
      (split; [exact HM|split; [exact HD|wl_fields; lia]]).
  - apply steady_notifyStatusChange, steady_log.
    split; [exact H|split; [repeat split; assumption|exact HL]].
Qed.

Ltac steady_calls :=
  first [ apply steady_log | apply steady_notifyStatusChange
        | apply steady_stopHeartbeat | apply steady_startHeartbeat
        | apply steady_handleWakeLockRelease ].

Lemma steady_handleWakeLockError error w :
  steady w -> steady (handleWakeLockError error w).
Proof. intros H. unfold handleWakeLockError. through ltac:(steady_calls). Qed.

Lemma steady_maintainBackgroundActivity failure w :
  steady w -> steady (maintainBackgroundActivity failure w).
Proof. intros H. unfold maintainBackgroundActivity. through ltac:(steady_calls). Qed.

Lemma steady_resume k failure w : steady w -> steady (resume k failure w).
Proof. intros H. unfold resume. through ltac:(first [steady_calls | apply steady_maintainBackgroundActivity]). Qed.

Lemma steady_releaseWakeLock a w : steady w -> steady (releaseWakeLock a w).
Proof. intros H. unfold releaseWakeLock. through ltac:(steady_calls). Qed.

Lemma steady_acquireWakeLock k failure w :
  steady w -> steady (acquireWakeLock k failure w).
Proof. intros H. unfold acquireWakeLock. through ltac:(first [steady_calls | apply steady_resume | apply steady_releaseWakeLock]). Qed.

Lemma steady_granted w :
  steady w ->
  steady (set_retryCount 0
            (set_isActive true
               (set_nextSentinel (S (nextSentinel w))
                  (set_wakeLock (Some (nextSentinel w)) w)))).
Proof.
  intros (H & (HM & HD & HR) & HL). split; [exact H|]. split; [|exact HL].
  split; [exact HM|]. split; [exact HD|]. wl_fields. lia.
Qed.

Lemma steady_acquireWakeLock_requested o k failure w :
  steady w -> steady (acquireWakeLock_requested o k failure w).
Proof. intros H. unfold acquireWakeLock_requested. through ltac:(first [steady_calls | apply steady_resume | apply steady_handleWakeLockError | apply steady_granted]). Qed.

Lemma steady_releaseWakeLock_released o w :
  steady w -> steady (releaseWakeLock_released o w).
Proof. intros H. unfold releaseWakeLock_released. through ltac:(steady_calls). Qed.

Lemma steady_onSentinelRelease w : steady w -> steady (onSentinelRelease w).
Proof. intros H. unfold onSentinelRelease. through ltac:(steady_calls). Qed.

Lemma steady_performHeartbeat hidden onLine failure w :
  steady w -> steady (performHeartbeat hidden onLine failure w).
Proof. intros H. unfold performHeartbeat. through ltac:(first [steady_calls | apply steady_resume | apply steady_acquireWakeLock]). Qed.

Lemma steady_heartbeat hidden onLine failure w :
  steady w -> steady (heartbeat hidden onLine failure w).
Proof. intros H. unfold heartbeat. through ltac:(first [steady_calls | apply steady_performHeartbeat]). Qed.

Lemma steady_reacquire w : steady w -> steady (reacquire w).
Proof. intros H. unfold reacquire. through ltac:(first [steady_calls | apply steady_acquireWakeLock]). Qed.

Lemma steady_deactivate w : steady w -> steady (deactivate w).
Proof. intros H. unfold deactivate. through ltac:(first [steady_calls | apply steady_releaseWakeLock]). Qed.

Lemma steady_onVisibilityChange hidden w : steady w -> steady (onVisibilityChange hidden w).
Proof. intros H. unfold onVisibilityChange. through ltac:(first [steady_calls | apply steady_reacquire]). Qed.

Lemma steady_onOffline w : steady w -> steady (onOffline w).
Proof. intros H. unfold onOffline. through ltac:(steady_calls). Qed.

Lemma steady_activate w : steady w -> steady (activate w).
Proof. intros H. unfold activate. through ltac:(first [steady_calls | apply steady_acquireWakeLock]). Qed.

Lemma steady_removeEventListener type w :
  steady w -> steady (removeEventListener type SetupVisibilityHandler w).
Proof.
  intros (H & HR & HL). split; [exact H|]. split; [exact HR|].
  unfold listening, removeEventListener in *. wl_fields. rewrite HL.
  destruct type; reflexivity.
Qed.

Lemma steady_destroy w : steady w -> steady (destroy w).
Proof.
  intros H. unfold destroy.
  through ltac:(first [steady_calls | apply steady_deactivate
                      | apply steady_removeEventListener]).
Qed.

Lemma steady_setBackgroundSupport enabled w :
  steady w -> steady (setBackgroundSupport enabled w).
Proof. intros H. unfold setBackgroundSupport. through ltac:(steady_calls). Qed.

Lemma steady_setHeartbeatInterval interval w :
  steady w -> steady (setHeartbeatInterval interval w).
Proof.
  intros H. unfold setHeartbeatInterval. cbv zeta. wl_fields.
  destruct (heartbeatTimer w) as [t|] eqn:E.
  - apply steady_startHeartbeat.
    destruct H as [[H1 H2] HR]. unfold stopHeartbeat. wl_fields. rewrite E.
    apply steady_log. split; [|exact HR]. split; [|wl_fields; lia]. wl_fields.
    rewrite H1, E. apply delete_singleton_eq.
  - destruct H as [[H1 H2] HR]. split; [|exact HR]. split; [|wl_fields; lia].
    wl_fields. rewrite E in *. exact H1.
Qed.

Lemma steady_listen l hidden w : steady w -> steady (listen l hidden w).
Proof.
  intros H. destruct l; cbn [listen];
    first [ exact H | apply steady_onVisibilityChange, H | apply steady_reacquire, H
          | apply steady_deactivate, H | apply steady_onOffline, H ].
Qed.

Lemma foldl_listen (P : WakeLock -> Prop) (type : DomEvent) hidden ls w :
  (forall l w, P w -> P (listen l hidden w)) ->
  P w ->
  P (foldl (fun w l => if bool_decide (l.1 = type) then listen l.2 hidden w else w) w ls).
Proof.
  intros Hl. revert w. induction ls as [|l ls IH]; intros w HP; cbn [foldl]; [exact HP|].
  apply IH. destruct (bool_decide (l.1 = type)); [apply Hl|]; exact HP.
Qed.

Ltac exec_cases H :=
  repeat match type of H with
    | match ?c with _ => _ end = _ => destruct c eqn:?; try discriminate H
    | (if ?c then _ else _) = _ => destruct c eqn:?; try discriminate H
    | (let _ := _ in _) = _ => cbv zeta in H
    end;
  inversion H; subst; clear H.

Lemma steady_exec e w w' : steady w -> exec e w = Some w' -> steady w'.
Proof.
  intros HP H. destruct e; cbn [exec] in H.
  10: { inversion H; subst; clear H.
        apply foldl_listen; [intros; apply steady_listen; assumption|exact HP]. }
  all: exec_cases H.
  all: through ltac:(first
         [ steady_calls | apply steady_acquireWakeLock | apply steady_releaseWakeLock
         | apply steady_activate | apply steady_deactivate | apply steady_destroy
         | apply steady_setBackgroundSupport | apply steady_setHeartbeatInterval
         | apply steady_acquireWakeLock_requested | apply steady_releaseWakeLock_released
         | apply steady_onSentinelRelease | apply steady_heartbeat ]).
Qed.

Lemma steady_run es w w' : steady w -> run w es = Some w' -> steady w'.
Proof.
  revert w. induction es as [|e es IH]; intros w HP H; cbn [run] in H.
  - inversion H; subst. exact HP.
  - destruct (exec e w) as [w1|] eqn:E; [|discriminate].
    eapply IH; [|exact H]. eapply steady_exec; eauto.
Qed.

Lemma steady_initial supported : steady (initial supported).
Proof. repeat split; cbn; lia. Qed.

(** *** Without the API *)

(** Follows the branches of the methods: the fields a test reads are
    settled first, then whatever else is tested. *)
Ltac wl_atom :=
  match goal with
  | E : ?f ?w = _ |- context [?f ?w] => is_var w; rewrite E
  | |- context [logCallback ?w] => is_var w; destruct (logCallback w) eqn:?
  | |- context [statusChangeCallback ?w] =>
      is_var w; destruct (statusChangeCallback w) eqn:?
  | |- context [backgroundSupport ?w] =>
      is_var w; destruct (backgroundSupport w) eqn:?
  | |- context [if ?b then _ else _] => is_var b; destruct b
  | |- context [negb ?b] => is_var b; destruct b
  | |- context [andb ?b _] => is_var b; destruct b
  end.

Ltac wl_cases :=
  repeat (cbn [truthy]; wl_fields;
          first
            [ wl_atom
            | match goal with
              | |- context [if ?c then _ else _] =>
                  lazymatch c with
                  | context [if _ then _ else _] => fail
                  | context [match _ with _ => _ end] => fail
                  | _ => let E := fresh "E" in destruct c eqn:E
                  end
              | |- context [match ?c with _ => _ end] =>
                  lazymatch c with
                  | context [if _ then _ else _] => fail
                  | context [match _ with _ => _ end] => fail
                  | _ => let E := fresh "E" in destruct c eqn:E
                  end
              end ]);
  cbn [truthy]; wl_fields.

Ltac dormant_go :=
  intros (H1 & H2 & H3 & H4 & H5 & H6 & H7 & H8); unfold dormant;
  wl_unfold; wl_cases; repeat split; assumption.

Lemma dormant_listen l hidden w : dormant w -> dormant (listen l hidden w).
Proof. destruct l; cbn [listen]; dormant_go. Qed.

Lemma dormant_exec e w w' : dormant w -> exec e w = Some w' -> dormant w'.
Proof.
  intros HP H. destruct e; cbn [exec] in H.
  10: { inversion H; subst; clear H.
        apply foldl_listen; [intros; apply dormant_listen; assumption|exact HP]. }
  all: try (inversion H; subst; clear H; revert HP; dormant_go).
  all: exfalso; destruct HP as (H1 & H2 & H3 & H4 & H5 & H6 & H7 & H8).
  - rewrite H7 in H. discriminate.
  - rewrite H7 in H. discriminate.
  - rewrite H8 in H. discriminate.
  - rewrite H6, lookup_empty in H. discriminate.
  - rewrite H5, lookup_empty in H. discriminate.
Qed.

Lemma dormant_run es w w' : dormant w -> run w es = Some w' -> dormant w'.
Proof.
  revert w. induction es as [|e es IH]; intros w HP H; cbn [run] in H.
  - inversion H; subst. exact HP.
  - destruct (exec e w) as [w1|] eqn:E; [|discriminate].
    eapply IH; [|exact H]. eapply dormant_exec; eauto.
Qed.

(** *** What the runs of the manager show *)

Lemma reachable_steady supported es w :
  run (initial supported) es = Some w -> steady w.
Proof. apply steady_run, steady_initial. Qed.

(** The manager of the tester is one of these runs. *)
Lemma configured_reached supported :
  run (initial supported)
      [CallSetLogCallback; CallSetBackgroundSupport true;
       CallSetHeartbeatInterval 20000; CallSetStatusChangeCallback]
    = Some (configured supported).
Proof. reflexivity. Qed.

(** X13. At most one heartbeat.  In every state the manager reaches, the
    intervals that are set are the one [heartbeatTimer] names, if it names
    one, and none otherwise; its period is [heartbeatInterval], which is at
    least 5000 ms. *)
Theorem heartbeat_is_single supported es w :
  run (initial supported) es = Some w ->
  (forall t p, intervals w !! t = Some p ->
     heartbeatTimer w = Some t /\ p = heartbeatInterval w) /\
  (heartbeatTimer w = None -> intervals w = ∅) /\
  (forall t, heartbeatTimer w = Some t ->
     intervals w = {[ t := heartbeatInterval w ]}) /\
  5000 <= heartbeatInterval w.
Proof.
  intros H. destruct (reachable_steady _ _ _ H) as ([H1 H2] & _ & _).
  split; [|split; [|split; [|exact H2]]].
  - intros t p Hl. rewrite H1 in Hl. destruct (heartbeatTimer w) as [t0|].
    + apply lookup_singleton_Some in Hl. destruct Hl as [-> ->]. auto.
    + rewrite lookup_empty in Hl. discriminate.
  - intros E. rewrite E in H1. exact H1.
  - intros t E. rewrite E in H1. exact H1.
Qed.

Lemma heartbeat_is_single_witness :
  heartbeatTimer wlActive = Some 1%nat /\
  intervals wlActive = {[ 1%nat := 30000 ]}.
Proof.
  destruct (heartbeat_is_single true wlTrace wlActive) as (_ & _ & H & _);
    [vm_compute; reflexivity|].
  split; [reflexivity|]. apply (H 1%nat). reflexivity.
Defined.

(** X14. The retries after a lost lock.  [retryCount] never exceeds 3.
    When the browser releases a sentinel while the manager is active, the
    lock is dropped and the manager stays active; below three retries it
    counts one more and sets one timeout of 1000 ms, without notifying; at
    three it sets no timeout and notifies [failed], when a callback is
    set. *)
Theorem retries_bounded supported es w :
  run (initial supported) es = Some w ->
  (retryCount w <= 3)%nat /\
  forall lock w',
    isActive w = true ->
    exec (SentinelReleased lock) w = Some w' ->
    wakeLock w' = None /\ isActive w' = true /\
    if decide (retryCount w < 3)%nat
    then retryCount w' = S (retryCount w) /\
         timeouts w' = <[nextTimerId w := 1000]> (timeouts w) /\
         notified w' = notified w
    else retryCount w' = 3%nat /\ timeouts w' = timeouts w /\
         notified w' =
           if statusChangeCallback w then notified w ++ [StatusFailed] else notified w.
Proof.
  intros H. destruct (reachable_steady _ _ _ H) as (_ & (HM & HD & HR) & _).
  split; [lia|]. intros lock w' Ha He. cbn [exec] in He.
  destruct (lock <? nextSentinel w)%nat; [|discriminate].
  inversion He; subst w'; clear He.
  unfold onSentinelRelease, handleWakeLockRelease, notifyStatusChange, log. cbv zeta.
  destruct (logCallback w) eqn:EL; wl_fields; rewrite Ha, ?EL, HM, ?HD;
    (destruct (Nat.ltb_spec (retryCount w) 3) as [L|L];
     [rewrite decide_True by exact L|rewrite decide_False by lia]);
    wl_fields; rewrite ?EL; wl_fields;
    try (destruct (statusChangeCallback w); wl_fields);
    rewrite ?HD; repeat split; try reflexivity; try assumption; lia.
Qed.

Lemma retries_bounded_witness :
  (retryCount wlLost <= 3)%nat.
Proof.
  destruct (retries_bounded true (wlTrace ++ [SentinelReleased 0]) wlLost) as (H & _);
    [vm_compute; reflexivity|exact H].
Defined.

(** X15. [setHeartbeatInterval] stores the larger of 5000 and its argument.
    A heartbeat that runs is restarted with the new period when the
    manager is active and stopped when it is not; none is started when
    none runs. *)
Theorem setHeartbeatInterval_clamps supported es w interval :
  run (initial supported) es = Some w ->
  let w' := setHeartbeatInterval interval w in
  heartbeatInterval w' = Z.max 5000 interval /\
  5000 <= heartbeatInterval w' /\
  isActive w' = isActive w /\
  match heartbeatTimer w with
  | Some _ =>
      if isActive w
      then heartbeatTimer w' = Some (nextTimerId w) /\
           intervals w' = {[ nextTimerId w := Z.max 5000 interval ]}
      else heartbeatTimer w' = None /\ intervals w' = ∅
  | None => heartbeatTimer w' = None /\ intervals w' = ∅
  end.
Proof.
  intros H. destruct (reachable_steady _ _ _ H) as ([H1 H2] & _ & _). cbv zeta.
  unfold setHeartbeatInterval. cbv zeta. wl_fields.
  destruct (heartbeatTimer w) as [t|] eqn:E.
  - unfold startHeartbeat, stopHeartbeat, log. cbv zeta. wl_fields. rewrite E. wl_fields.
    destruct (logCallback w) eqn:EL; wl_fields; destruct (isActive w) eqn:EA; wl_fields;
      rewrite ?EL; wl_fields; rewrite ?H1, ?delete_singleton_eq, ?delete_empty, ?insert_empty;
      repeat split; try reflexivity; try assumption; lia.
  - wl_fields. rewrite E. repeat split; try assumption; lia.
Qed.

Lemma setHeartbeatInterval_clamps_witness :
  heartbeatInterval (setHeartbeatInterval 100 wlActive) = 5000.
Proof.
  destruct (setHeartbeatInterval_clamps true wlTrace wlActive 100) as (H & _);
    [vm_compute; reflexivity|rewrite H; reflexivity].
Defined.

(** X16. Without the Screen Wake Lock API the manager does nothing: in
    every state it reaches it is inactive and holds no lock, no interval,
    no timeout and no suspended call, and [acquire()] logs that the API is
    missing, notifies [unsupported] and returns. *)
Theorem unsupported_stays_dormant es w :
  run (initial false) es = Some w ->
  isActive w = false /\ wakeLock w = None /\ heartbeatTimer w = None /\
  intervals w = ∅ /\ timeouts w = ∅ /\ pending w = [] /\
  exec CallAcquire w =
    Some (notifyStatusChange StatusUnsupported (log LineUnsupported w)).
Proof.
  intros H.
  assert (HD : dormant w).
  { eapply dormant_run; [|exact H]. repeat split. }
  destruct HD as (H1 & H2 & H3 & H4 & H5 & H6 & H7 & H8).
  repeat (split; [assumption|]).
  cbn [exec]. unfold acquireWakeLock. rewrite H1. reflexivity.
Qed.

Lemma unsupported_stays_dormant_witness :
  isActive wlUnsupported = false /\ pending wlUnsupported = [].
Proof.
  destruct (unsupported_stays_dormant [CallAcquire; Dom visibilitychange false]
              wlUnsupported) as (H1 & _ & _ & _ & _ & H2 & _);
    [vm_compute; reflexivity|split; [exact H1|exact H2]].
Defined.

(** X17. [release()] leaves the heartbeat to its next tick.  When the
    release that [release()] awaits settles, the manager is inactive and
    holds no lock, but [stopHeartbeat] was not called: the interval is
    still set.  Its next tick finds the manager inactive and clears it. *)
Theorem release_leaves_heartbeat supported es w i t hidden onLine failure :
  run (initial supported) es = Some w ->
  pending w !! i = Some (AwaitRelease None) ->
  heartbeatTimer w = Some t ->
  exists w1 w2,
    exec (ReleaseSettled i ReleaseDone) w = Some w1 /\
    isActive w1 = false /\ wakeLock w1 = None /\
    heartbeatTimer w1 = Some t /\
    intervals w1 = {[ t := heartbeatInterval w ]} /\
    exec (HeartbeatFired t hidden onLine failure) w1 = Some w2 /\
    isActive w2 = false /\ heartbeatTimer w2 = None /\ intervals w2 = ∅.
Proof.
  intros H Hp Ht. destruct (reachable_steady _ _ _ H) as ([H1 H2] & _ & _).
  rewrite Ht in H1.
  set (w1 := releaseWakeLock_released ReleaseDone (set_pending (delete i (pending w)) w)).
  exists w1, (heartbeat hidden onLine failure w1).
  split; [cbn [exec]; rewrite Hp; reflexivity|].
  assert (F : isActive w1 = false /\ wakeLock w1 = None /\ heartbeatTimer w1 = Some t /\
              intervals w1 = {[ t := heartbeatInterval w ]}).
  { subst w1. unfold releaseWakeLock_released, notifyStatusChange, log. cbv zeta. wl_fields.
    destruct (logCallback w); wl_fields; destruct (statusChangeCallback w); wl_fields;
      auto. }
  destruct F as (Fa & Fw & Ft & Fi).
  repeat (split; [assumption|]).
  cbn [exec]. rewrite Fi, lookup_singleton_eq. split; [reflexivity|].
  unfold heartbeat. rewrite Fa. cbn [negb].
  unfold stopHeartbeat, log. rewrite Ft.
  destruct (logCallback _); wl_fields; rewrite Fa, Fi, delete_singleton_eq; auto.
Qed.

Lemma release_leaves_heartbeat_witness :
  exists w1 w2,
    exec (ReleaseSettled 0 ReleaseDone) wlReleasing = Some w1 /\
    isActive w1 = false /\ heartbeatTimer w1 = Some 1%nat /\
    exec (HeartbeatFired 1 false true None) w1 = Some w2 /\
    heartbeatTimer w2 = None.
Proof.
  destruct (release_leaves_heartbeat true (wlTrace ++ [CallRelease]) wlReleasing
              0%nat 1%nat false true None)
    as (w1 & w2 & H1 & H2 & _ & H3 & _ & H4 & _ & H5 & _).
  - vm_compute. reflexivity.
  - vm_compute. reflexivity.
  - vm_compute. reflexivity.
  - exists w1, w2. repeat split; assumption.
Defined.

(** X18. [release()] after the lock was lost.  When the manager is active
    but holds no lock (the browser released it), [release()] changes
    nothing: the manager stays active, and a heartbeat tick that finds the
    browser online requests the lock again. *)
Theorem release_ignored_after_loss supported es w :
  run (initial supported) es = Some w ->
  isSupported w = true -> isActive w = true -> wakeLock w = None ->
  exec CallRelease w = Some w /\
  forall t hidden failure w',
    exec (HeartbeatFired t hidden true failure) w = Some w' ->
    isActive w' = true /\
    pending w' = pending w ++ [AwaitRequest (HeartbeatTail (negb hidden))].
Proof.
  intros H Hs Ha Hw. split.
  - cbn [exec]. unfold releaseWakeLock. rewrite Hw. reflexivity.
  - intros t hidden failure w' He. cbn [exec] in He.
    destruct (intervals w !! t); [|discriminate]. inversion He; subst w'; clear He.
    unfold heartbeat, performHeartbeat, acquireWakeLock, log. cbv zeta.
    rewrite Ha, Hw. cbn [negb truthy andb].
    destruct (logCallback w); wl_fields; rewrite Hs, Hw; wl_fields; split;
      first [exact Ha|reflexivity].
Qed.

Lemma release_ignored_after_loss_witness :
  exec CallRelease wlLost = Some wlLost.
Proof.
  destruct (release_ignored_after_loss true (wlTrace ++ [SentinelReleased 0]) wlLost)
    as (H & _).
  - vm_compute. reflexivity.
  - vm_compute. reflexivity.
  - vm_compute. reflexivity.
  - vm_compute. reflexivity.
  - exact H.
Defined.

(** X19. The listeners stay.  In every state the manager reaches, the
    listeners are the five the constructor registered; [destroy] hands
    [removeEventListener] a function that was never registered and removes
    none of them. *)
Theorem listeners_never_removed supported es w :
  run (initial supported) es = Some w ->
  listeners w =
    [(visibilitychange, OnVisibilityChange); (focus, OnFocus);
     (beforeunload, OnBeforeUnload); (online, OnOnline); (offline, OnOffline)] /\
  listeners (destroy w) = listeners w.
Proof.
  intros H. pose proof (reachable_steady _ _ _ H) as Hw.
  pose proof (steady_destroy w Hw) as (_ & _ & Hd).
  destruct Hw as (_ & _ & Hl). unfold listening in *.
  split; [exact Hl|]. rewrite Hd, Hl. reflexivity.
Qed.

Lemma listeners_never_removed_witness :
  listeners (destroy wlActive) = listeners wlActive.
Proof.
  destruct (listeners_never_removed true wlTrace wlActive) as (_ & H);
    [vm_compute; reflexivity|exact H].
Defined.

Lemma reacquire_fields w :
  isActive (reacquire w) = isActive w /\
  backgroundSupport (reacquire w) = backgroundSupport w /\
  heartbeatTimer (reacquire w) = heartbeatTimer w /\
  intervals (reacquire w) = intervals w /\
  heartbeatInterval (reacquire w) = heartbeatInterval w.
Proof.
  unfold reacquire, acquireWakeLock, releaseWakeLock, resume, notifyStatusChange, log.
  destruct (isActive w && negb (truthy (wakeLock w))); [|auto].
  destruct (negb (isSupported w)).
  - destruct (logCallback w); wl_fields; destruct (statusChangeCallback w); auto.
  - destruct (wakeLock w); auto.
Qed.

(** X20. After a [visibilitychange] event the manager is as active as
    before, and a heartbeat runs exactly when the manager is active and
    the page is visible or background support is enabled. *)
Theorem visibility_decides_heartbeat supported es w hidden :
  run (initial supported) es = Some w ->
  exists w',
    exec (Dom visibilitychange hidden) w = Some w' /\
    isActive w' = isActive w /\
    (heartbeatTimer w' <> None <->
     isActive w = true /\ (hidden = false \/ backgroundSupport w = true)) /\
    (heartbeatTimer w' = None -> intervals w' = ∅).
Proof.
  intros H. pose proof (reachable_steady _ _ _ H) as (Hhb & Hr & Hl).
  eexists. cbn [exec]. rewrite Hl. split; [reflexivity|].
  cbn [foldl initial listeners fst snd]. 
  repeat (rewrite bool_decide_eq_false_2 by discriminate).
  rewrite bool_decide_eq_true_2 by reflexivity. cbn [listen].
  unfold onVisibilityChange. cbv zeta.
  destruct (reacquire_fields w) as (Ea & Eb & Et & Ei & Ep).
  assert (Hhb' : oneHeartbeat (reacquire w)).
  { destruct Hhb as [H1 H2]. split; rewrite ?Ei, ?Et, ?Ep; assumption. }
  rewrite Ea, Eb.
  pose proof (startHeartbeat_started _ Hhb') as Hstart. cbv zeta in Hstart.
  rewrite Ea in Hstart. destruct Hstart as (Sa & _ & Sb).
  pose proof (stopHeartbeat_stopped _ Hhb') as (St & Si & Sa' & _).
  rewrite Ea in Sa'.
  destruct hidden, (isActive w) eqn:EA, (backgroundSupport w) eqn:EB;
    cbn [negb andb]; rewrite ?Sa, ?Sa'; (split; [reflexivity|]).
  all: try (destruct Sb as [Sb1 Sb2]; rewrite Sb1; split;
            [split; [intros _; split; [reflexivity|auto]|discriminate]|discriminate]).
  all: rewrite St; split; [|intros _; exact Si].
  all: split; [congruence|]; intros [? [?|?]]; discriminate.
Qed.

Lemma visibility_decides_heartbeat_witness :
  exists w',
    exec (Dom visibilitychange true) wlActive = Some w' /\
    heartbeatTimer w' <> None.
Proof.
  destruct (visibility_decides_heartbeat true wlTrace wlActive true)
    as (w' & H1 & _ & H2 & _); [vm_compute; reflexivity|].
  exists w'. split; [exact H1|]. apply H2. split; [reflexivity|right; reflexivity].
Defined.

Lemma resume_fields k failure w :
  isActive (resume k failure w) = isActive w /\
  wakeLock (resume k failure w) = wakeLock w /\
  heartbeatTimer (resume k failure w) = heartbeatTimer w /\
  intervals (resume k failure w) = intervals w.
Proof.
  unfold resume, maintainBackgroundActivity, log.
  destruct k as [|isVisible]; [auto|].
  destruct (negb isVisible && isActive w && backgroundSupport w); [|auto].
  destruct failure; destruct (logCallback w); auto.
Qed.

Lemma startHeartbeat_wakeLock w : wakeLock (startHeartbeat w) = wakeLock w.
Proof.
  unfold startHeartbeat, stopHeartbeat, log. cbv zeta.
  destruct (heartbeatTimer w); wl_fields;
    repeat (match goal with
            | |- context [if ?c then _ else _] => destruct c
            end; wl_fields); reflexivity.
Qed.

(** The manager when [acquireWakeLock] has stored a granted lock and is
    about to start the heartbeat. *)
Local Abbreviation granted w :=
  (notifyStatusChange StatusAcquired
     (log LineAcquired
        (set_retryCount 0
           (set_isActive true
              (set_nextSentinel (S (nextSentinel w))
                 (set_wakeLock (Some (nextSentinel w)) w)))))).

Lemma granted_fields w :
  oneHeartbeat w ->
  oneHeartbeat (granted w) /\ isActive (granted w) = true /\
  wakeLock (granted w) = Some (nextSentinel w) /\
  nextTimerId (granted w) = nextTimerId w /\
  heartbeatInterval (granted w) = heartbeatInterval w.
Proof.
  intros [H1 H2]. unfold notifyStatusChange, log. wl_fields.
  destruct (logCallback w); wl_fields; destruct (statusChangeCallback w);
    repeat split; assumption.
Qed.

Lemma acquireWakeLock_requested_granted k failure w :
  acquireWakeLock_requested Granted k failure w
    = resume k failure (startHeartbeat (granted w)).
Proof. unfold acquireWakeLock_requested. cbv zeta. reflexivity. Qed.

(** A granted request makes the manager active, whatever it was before. *)
Lemma grant_activates i k failure w :
  oneHeartbeat w ->
  pending w !! i = Some (AwaitRequest k) ->
  exists w',
    exec (RequestSettled i Granted failure) w = Some w' /\
    isActive w' = true /\ wakeLock w' = Some (nextSentinel w) /\
    heartbeatTimer w' = Some (nextTimerId w) /\
    intervals w' = {[ nextTimerId w := heartbeatInterval w ]}.
Proof.
  intros HO Hp.
  exists (resume k failure (startHeartbeat (granted (set_pending (delete i (pending w)) w)))).
  split; [cbn [exec]; rewrite Hp, acquireWakeLock_requested_granted; reflexivity|].
  destruct (granted_fields (set_pending (delete i (pending w)) w) HO)
    as (HO' & HA & HW & HN & HI).
  pose proof (startHeartbeat_started _ HO') as Hs. cbv zeta in Hs.
  rewrite HA in Hs. destruct Hs as (Sa & _ & St & Si).
  destruct (resume_fields k failure
              (startHeartbeat (granted (set_pending (delete i (pending w)) w))))
    as (Ra & Rw & Rt & Ri).
  rewrite Ra, Rw, Rt, Ri, Sa, startHeartbeat_wakeLock, St, Si, HW, HN, HI.
  repeat split; reflexivity.
Qed.

(** What is suspended when [release()] or [deactivate()] is called stays
    suspended. *)
Lemma stop_keeps_pending w w1 i p :
  w1 = releaseWakeLock None w \/ w1 = deactivate w ->
  pending w !! i = Some p ->
  pending w1 !! i = Some p /\ nextSentinel w1 = nextSentinel w /\
  nextTimerId w1 = nextTimerId w /\ heartbeatInterval w1 = heartbeatInterval w.
Proof.
  intros [->| ->] Hp; unfold deactivate, releaseWakeLock, stopHeartbeat, log; cbv zeta;
    wl_fields;
    repeat (match goal with
            | |- context [match ?c with _ => _ end] => destruct c
            end; wl_fields);
    repeat split; try reflexivity; try exact Hp;
    apply lookup_app_l_Some; exact Hp.
Qed.

(** X21. A request outlives [release()] and [deactivate()].  When one of
    them is called while a request of [acquireWakeLock] is suspended, the
    request stays suspended: [release()] changes nothing when no lock is
    held, and [deactivate()] leaves the manager inactive with no
    heartbeat.  When the request is granted afterwards, the manager is
    active again, holds the new lock and runs a heartbeat. *)
Theorem grant_after_stop_reactivates supported es w i k failure stop :
  run (initial supported) es = Some w ->
  pending w !! i = Some (AwaitRequest k) ->
  stop = CallRelease \/ stop = CallDeactivate ->
  exists w1 w2,
    exec stop w = Some w1 /\
    (wakeLock w = None -> stop = CallRelease -> w1 = w) /\
    (stop = CallDeactivate ->
     isActive w1 = false /\ heartbeatTimer w1 = None /\ intervals w1 = ∅) /\
    exec (RequestSettled i Granted failure) w1 = Some w2 /\
    isActive w2 = true /\ wakeLock w2 = Some (nextSentinel w) /\
    heartbeatTimer w2 = Some (nextTimerId w) /\
    intervals w2 = {[ nextTimerId w := heartbeatInterval w ]}.
Proof.
  intros H Hp Hstop. pose proof (reachable_steady _ _ _ H) as Hw.
  assert (E : exists w1, exec stop w = Some w1 /\
                (w1 = releaseWakeLock None w \/ w1 = deactivate w) /\
                (stop = CallRelease -> w1 = releaseWakeLock None w) /\
                (stop = CallDeactivate -> w1 = deactivate w)).
  { destruct Hstop as [->| ->]; eexists; (split; [reflexivity|]);
      (split; [auto|]); split; intros; first [reflexivity|discriminate]. }
  destruct E as (w1 & He & Hw1 & Hrel & Hde).
  destruct (stop_keeps_pending w w1 i _ Hw1 Hp) as (Hp1 & Hn & Ht & Hi).
  pose proof (steady_exec _ _ _ Hw He) as (HO1 & _).
  destruct (grant_activates i k failure w1 HO1 Hp1) as (w2 & He2 & Ha & Hl & Hb & Hv).
  exists w1, w2. rewrite Hn in Hl. rewrite Ht in Hb. rewrite Ht, Hi in Hv.
  split; [exact He|]. split.
  { intros Hnone Hs. rewrite (Hrel Hs). unfold releaseWakeLock. rewrite Hnone.
    reflexivity. }
  split.
  { intros Hs. rewrite (Hde Hs). destruct Hw as (HO & _).
    unfold deactivate. cbv zeta.
    assert (HO' : oneHeartbeat (set_isActive false w)) by exact HO.
    pose proof (stopHeartbeat_stopped _ HO') as (St & Si & Sa & _).
    unfold releaseWakeLock.
    destruct (wakeLock (stopHeartbeat (set_isActive false w))); wl_fields;
      rewrite St, Si, Sa; auto. }
  repeat (split; [assumption|]). assumption.
Qed.

Lemma grant_after_stop_reactivates_witness :
  exists w1 w2,
    exec CallDeactivate wlRequested = Some w1 /\
    exec (RequestSettled 0 Granted None) w1 = Some w2 /\
    isActive w1 = false /\ isActive w2 = true.
Proof.
  destruct (grant_after_stop_reactivates true [CallSetLogCallback; CallAcquire]
              wlRequested 0%nat Return None CallDeactivate)
    as (w1 & w2 & H1 & _ & H2 & H3 & H4 & _).
  - vm_compute. reflexivity.
  - vm_compute. reflexivity.
  - right. reflexivity.
  - exists w1, w2. destruct (H2 eq_refl) as (H5 & _). repeat split; assumption.
Defined.


End ScreenWakeLockFacts.
